(** * twinspark: the development HTTPS server (https-server.py)

  The program is a 50-line Python script: a request handler class
  [CORSHTTPRequestHandler] that subclasses the standard library's
  [http.server.SimpleHTTPRequestHandler], overriding [end_headers] and
  adding [do_OPTIONS], and a [main] that checks for the certificate
  files, binds an [HTTPServer] on port 3000, wraps its socket with TLS
  and runs [serve_forever] until Ctrl+C.

  The embedding has three layers:
  - [Py]         string helpers with the meaning of the Python built-ins;
  - [HttpServer] the methods of [BaseHTTPRequestHandler] and
                 [SimpleHTTPRequestHandler] that the script inherits,
                 following Lib/http/server.py of CPython 3.11, as a state
                 and exception monad over the handler object, from
                 [handle] and [parse_request] to [send_head]; the
                 virtual call [self.end_headers()] is a parameter (open
                 recursion);
  - [Script]     the script itself: the two overriding methods and [main],
                 the latter over an explicit process state and a list of
                 external events, with the accept loop of
                 Lib/socketserver.py.

  [Spec] holds the vocabulary of the statements and [Sample] concrete
  surroundings for the runs that are evaluated.  The proofs follow:
  [Responses] is about one connection and one handler object (Hoare
  triples for the header buffer, two runs side by side for the plain
  and the CORS handler, the cases of [parse_request]), [Lifecycle]
  about [main], the accept loop and Ctrl+C.

  What the embedding takes from outside the script:
  - a request arrives as its request line, as [readline] returns it,
    and the outcome of [http.client.parse_headers] on what follows; what
    a client is to send is there when the handler reads it, and the
    client reads all that is written to it;
  - a string is a sequence of code points below 256, one character
    each, as the request line is decoded from iso-8859-1: encoding a
    status line or a header to latin-1 changes nothing, and the error
    page is encoded to UTF-8 by [Py.utf8_encode];
  - the functions of [HttpServer.Env] (the clock, [translate_path],
    [urlsplit], the MIME table, [repr], [int]) return; [open] returns a
    file or raises [OSError] or [ValueError], as [HttpServer.FS] says;
  - a new [ssl.SSLContext] has the lowest and the highest TLS version of
    the installation (OpenSSL and its configuration), [ssl_minimum] and
    [ssl_maximum] of [Script.World]; [accept] on a wrapped socket does
    the handshake before it returns;
  - objects are deallocated when the last reference to them goes
    (reference counting): the return of [main] drops the server and its
    socket, [Script.drop_frame]. *)

From Stdlib Require Import String Ascii List ZArith Lia Bool DecimalString.
Import ListNotations.
Local Open Scope string_scope.

(** ** Python strings *)

Module Py.

Definition CR : ascii := ascii_of_nat 13.
Definition LF : ascii := ascii_of_nat 10.
(** b"\r\n" *)
Definition CRLF : string := String CR (String LF EmptyString).
(** "\n" *)
Definition NL : string := String LF EmptyString.
(** the double quote character, as a one-character string *)
Definition DQ : string := String (ascii_of_nat 34) EmptyString.

(** [str(n)] for a non-negative integer *)
Definition str (n : nat) : string := NilZero.string_of_uint (Nat.to_uint n).

(** [c.lower()] on one byte *)
Definition lower_ascii (c : ascii) : ascii :=
  let n := nat_of_ascii c in
  if (65 <=? n)%nat && (n <=? 90)%nat then ascii_of_nat (n + 32) else c.

(** [s.lower()] *)
Fixpoint lower (s : string) : string :=
  match s with
  | EmptyString => EmptyString
  | String c r => String (lower_ascii c) (lower r)
  end.

(** [s.startswith(p)] *)
Definition startswith (s p : string) : bool := String.prefix p s.

(** [s.endswith(p)] *)
Definition endswith (s p : string) : bool :=
  (String.length p <=? String.length s)%nat &&
  String.eqb (substring (String.length s - String.length p) (String.length p) s) p.

(** [p in s] for strings *)
Fixpoint contains (s p : string) : bool :=
  String.prefix p s ||
  match s with
  | EmptyString => false
  | String _ r => contains r p
  end.

(** [b"".join(l)] *)
Definition join (l : list string) : string := String.concat "" l.

(** [os.path.join(a, b)] on POSIX for a relative [b] *)
Definition os_path_join (a b : string) : string :=
  if String.eqb a "" then b
  else if endswith a "/" then a ++ b
  else a ++ "/" ++ b.

(** [html.escape(s, quote=False)] *)
Fixpoint html_escape (s : string) : string :=
  match s with
  | EmptyString => EmptyString
  | String c r =>
      (if Ascii.eqb c "&" then "&amp;"
       else if Ascii.eqb c "<" then "&lt;"
       else if Ascii.eqb c ">" then "&gt;"
       else String c EmptyString) ++ html_escape r
  end.

(** [c.isspace()] for a character below 256 *)
Definition isspace (c : ascii) : bool :=
  let n := nat_of_ascii c in
  ((9 <=? n)%nat && (n <=? 13)%nat) || ((28 <=? n)%nat && (n <=? 32)%nat) ||
  (n =? 133)%nat || (n =? 160)%nat.

(** [s.split()]: the words of [s] between runs of white space; [word] is
    the word read so far *)
Fixpoint split_from (s : string) (word : string) : list string :=
  match s with
  | EmptyString => if word =? "" then [] else [word]
  | String c r =>
      if isspace c then
        if word =? "" then split_from r "" else word :: split_from r ""
      else split_from r (word ++ String c "")
  end.

Definition split (s : string) : list string := split_from s "".

(** [s.split(sep)] for a separator of one character *)
Fixpoint split_on (sep : ascii) (s : string) (piece : string) : list string :=
  match s with
  | EmptyString => [piece]
  | String c r =>
      if Ascii.eqb c sep then piece :: split_on sep r ""
      else split_on sep r (piece ++ String c "")
  end.

(** [s.split(sep, 1)[1]]; [None] is the IndexError of a string without [sep] *)
Fixpoint after_first (sep : ascii) (s : string) : option string :=
  match s with
  | EmptyString => None
  | String c r => if Ascii.eqb c sep then Some r else after_first sep r
  end.

(** [s.rstrip('\r\n')] *)
Fixpoint rstrip_crlf (s : string) : string :=
  match s with
  | EmptyString => EmptyString
  | String c r =>
      let r' := rstrip_crlf r in
      if (r' =? "") && (Ascii.eqb c CR || Ascii.eqb c LF) then EmptyString
      else String c r'
  end.

(** [s.lstrip('/')] *)
Fixpoint lstrip_slash (s : string) : string :=
  match s with
  | EmptyString => EmptyString
  | String c r => if Ascii.eqb c "/" then lstrip_slash r else s
  end.

(** [s.encode('utf-8')] for a string of code points below 256, one per
    character: two bytes for a code point from 128 up *)
Fixpoint utf8_encode (s : string) : string :=
  match s with
  | EmptyString => EmptyString
  | String c r =>
      let n := nat_of_ascii c in
      if (n <? 128)%nat then String c (utf8_encode r)
      else String (ascii_of_nat (192 + n / 64))
             (String (ascii_of_nat (128 + n mod 64)) (utf8_encode r))
  end.

(** [a >= b] on strings *)
Definition str_ge (a b : string) : bool := negb (String.ltb a b).

End Py.

(** ** Python control flow: state and exceptions

    A method is a function from the object's state to a result and the
    new state; the result is a value, a raised exception, or [Blocked]
    when the call waits for ever and never returns.  [bind] stops at the
    first exception or blocking call; [except] and [finally] clauses run
    after an exception and not after a blocking call. *)

Module PyMonad.

Inductive Result (E A : Type) :=
| Ok (a : A)
| Raise (e : E)
| Blocked.
Arguments Ok {E A} a.
Arguments Raise {E A} e.
Arguments Blocked {E A}.

Definition M (S E A : Type) : Type := S -> Result E A * S.

Section Ops.

Context {S E : Type}.

Definition ret {A} (a : A) : M S E A := fun self => (Ok a, self).

Definition bind {A B} (c : M S E A) (k : A -> M S E B) : M S E B :=
  fun self =>
    match c self with
    | (Ok a, self') => k a self'
    | (Raise e, self') => (Raise e, self')
    | (Blocked, self') => (Blocked, self')
    end.

Definition raise {A} (e : E) : M S E A := fun self => (Raise e, self).

(** a call that never returns *)
Definition block {A} : M S E A := fun self => (Blocked, self).

Definition get : M S E S := fun self => (Ok self, self).

Definition modify (f : S -> S) : M S E unit := fun self => (Ok tt, f self).

Definition when (b : bool) (c : M S E unit) : M S E unit :=
  if b then c else ret tt.

(** [try: c  except ...: ...]; [h e] is the body of the first clause that
    matches [e], [None] when no clause does *)
Definition try_except {A} (c : M S E A) (h : E -> option (M S E A)) : M S E A :=
  fun self =>
    match c self with
    | (Ok a, self') => (Ok a, self')
    | (Raise e, self') =>
        match h e with
        | Some handler => handler self'
        | None => (Raise e, self')
        end
    | (Blocked, self') => (Blocked, self')
    end.

(** [try: c  finally: f] *)
Definition try_finally {A} (c : M S E A) (f : M S E unit) : M S E A :=
  fun self =>
    match c self with
    | (Blocked, self') => (Blocked, self')
    | (r, self') =>
        match f self' with
        | (Ok _, self'') => (r, self'')
        | (Raise e, self'') => (Raise e, self'')
        | (Blocked, self'') => (Blocked, self'')
        end
    end.

End Ops.

Declare Scope py_scope.
Delimit Scope py_scope with py.
Notation "x <- c ;; k" := (bind c (fun x => k))
  (at level 61, c at next level, right associativity) : py_scope.
Notation "c ;; k" := (bind c (fun _ => k))
  (at level 61, right associativity) : py_scope.

End PyMonad.

(** ** The inherited library class: http.server

  A handler object lives for one connection.  The record below has the
  attributes that the inherited methods read and write; [wfile] is the
  byte stream sent to the client, [log] what [log_message] writes to
  stderr, and [fs_log] the calls made to the file system, in order. *)

Module HttpServer.
Import Py PyMonad.
Local Open Scope py_scope.

Inductive LogEntry :=
| LogRequest (code : nat)                     (* log_request(code) *)
| LogError (code : nat) (message : string).   (* log_error("code %d, message %s", ...) *)

Inductive FsOp :=
| Isdir (p : string)      (* os.path.isdir(p) *)
| Isfile (p : string)     (* os.path.isfile(p) *)
| Islink (p : string)     (* os.path.islink(p) *)
| Listdir (p : string)    (* os.listdir(p) *)
| Open (p : string)       (* open(p, 'rb') *)
| Fstat (p : string)      (* os.fstat(f.fileno()) *)
| Read (p : string).      (* shutil.copyfileobj(f, wfile) *)

Inductive Exn :=
| AttributeError (attr : string)
| ValueError.                     (* also its subclass UnicodeEncodeError *)

(** an open regular file: its bytes, and the fields of [os.fstat] that
    [send_head] reads ([fs[6]] is [st_size]; [st_mtime] in whole seconds) *)
Record File := mkFile {
  f_data : string;
  st_size : nat;
  st_mtime : Z
}.

(** what [open(path, 'rb')] does: it returns a file, or raises an
    [OSError] (no such file, no permission, a directory), or raises a
    [ValueError] before any system call (a NUL byte in the path, a path
    that the file system encoding cannot represent) *)
Inductive Opened :=
| OpenFile (f : File)
| OpenOSError
| OpenValueError.

(** the file system as the handler sees it; for [os_listdir], [None] is
    an [OSError]; [os.path.isdir] and the like return [False] where the
    system call fails, also for a path with a NUL byte *)
Record FS := mkFS {
  os_isdir : string -> bool;
  os_isfile : string -> bool;
  os_islink : string -> bool;
  os_listdir : string -> option (list string);
  os_open : string -> Opened
}.

Inductive Tz := TzNone | TzUTC | TzOther.

(** a [datetime]: seconds since the epoch when read in UTC, and its tzinfo *)
Record Datetime := mkDatetime { dt_secs : Z; tzinfo : Tz }.

(** Library functions whose results the handler only passes on: the
    clock, URL and path arithmetic, the MIME table and the HTML of a
    directory listing. *)
Record Env := mkEnv {
  version_string : string;                   (* server_version + ' ' + sys_version *)
  date_time_string : option Z -> string;     (* email.utils.formatdate; None is now *)
  translate_path : string -> string;         (* URL path to a path under os.getcwd() *)
  urlsplit_path : string -> string;          (* urllib.parse.urlsplit(p).path *)
  redirect_url : string -> string;           (* urlunsplit with '/' added to the path *)
  guess_type : string -> string;
  py_repr : string -> string;                (* '%r' % s *)
  py_int : string -> option Z;               (* int(s); None is ValueError *)
  parsedate_to_datetime : string -> option Datetime;
  sort_lower : list string -> list string;   (* list.sort(key=lambda a: a.lower()) *)
  getfilesystemencoding : string;
  render_listing : string -> list (string * bool * bool) -> string
}.

Record Handler := mkHandler {
  command : string;
  path : string;
  request_version : string;
  headers : list (string * string);
  close_connection : bool;
  _headers_buffer : option (list string);    (* None: the attribute does not exist yet *)
  wfile : string;
  log : list LogEntry;
  fs_log : list FsOp
}.

(** the methods run in the state and exception monad over the handler *)
Definition M (A : Type) : Type := PyMonad.M Handler Exn A.

Definition set_command (c : string) (h : Handler) : Handler :=
  mkHandler c (path h) (request_version h) (headers h) (close_connection h)
            (_headers_buffer h) (wfile h) (log h) (fs_log h).
Definition set_path (p : string) (h : Handler) : Handler :=
  mkHandler (command h) p (request_version h) (headers h) (close_connection h)
            (_headers_buffer h) (wfile h) (log h) (fs_log h).
Definition set_request_version (v : string) (h : Handler) : Handler :=
  mkHandler (command h) (path h) v (headers h) (close_connection h)
            (_headers_buffer h) (wfile h) (log h) (fs_log h).
Definition set_headers (hs : list (string * string)) (h : Handler) : Handler :=
  mkHandler (command h) (path h) (request_version h) hs (close_connection h)
            (_headers_buffer h) (wfile h) (log h) (fs_log h).
Definition set_close_connection (b : bool) (h : Handler) : Handler :=
  mkHandler (command h) (path h) (request_version h) (headers h) b
            (_headers_buffer h) (wfile h) (log h) (fs_log h).
Definition set_headers_buffer (b : option (list string)) (h : Handler) : Handler :=
  mkHandler (command h) (path h) (request_version h) (headers h) (close_connection h)
            b (wfile h) (log h) (fs_log h).
Definition set_wfile (w : string) (h : Handler) : Handler :=
  mkHandler (command h) (path h) (request_version h) (headers h) (close_connection h)
            (_headers_buffer h) w (log h) (fs_log h).
Definition set_log (l : list LogEntry) (h : Handler) : Handler :=
  mkHandler (command h) (path h) (request_version h) (headers h) (close_connection h)
            (_headers_buffer h) (wfile h) l (fs_log h).
Definition set_fs_log (l : list FsOp) (h : Handler) : Handler :=
  mkHandler (command h) (path h) (request_version h) (headers h) (close_connection h)
            (_headers_buffer h) (wfile h) (log h) l.

(** [self.wfile.write(b)] *)
Definition wfile_write (b : string) : M unit :=
  modify (fun h => set_wfile (wfile h ++ b) h).

(** [sys.stderr.write] through [log_message] *)
Definition log_message (e : LogEntry) : M unit :=
  modify (fun h => set_log (log h ++ [e])%list h).

Definition fs_call (op : FsOp) : M unit :=
  modify (fun h => set_fs_log (fs_log h ++ [op])%list h).

(** *** Class attributes of BaseHTTPRequestHandler *)

Definition protocol_version : string := "HTTP/1.0".
Definition default_request_version : string := "HTTP/0.9".
Definition error_content_type : string := "text/html;charset=utf-8".

Definition CONTINUE := 100%nat.
Definition OK := 200%nat.
Definition NO_CONTENT := 204%nat.
Definition RESET_CONTENT := 205%nat.
Definition MOVED_PERMANENTLY := 301%nat.
Definition NOT_MODIFIED := 304%nat.
Definition BAD_REQUEST := 400%nat.
Definition NOT_FOUND := 404%nat.
Definition REQUEST_URI_TOO_LONG := 414%nat.
Definition REQUEST_HEADER_FIELDS_TOO_LARGE := 431%nat.
Definition NOT_IMPLEMENTED := 501%nat.
Definition HTTP_VERSION_NOT_SUPPORTED := 505%nat.

(** the members of http.HTTPStatus: value, phrase, description *)
Definition HTTPStatus : list (nat * (string * string)) :=
  [ (100, ("Continue", "Request received, please continue"));
    (101, ("Switching Protocols", "Switching to new protocol; obey Upgrade header"));
    (102, ("Processing", ""));
    (103, ("Early Hints", ""));
    (200, ("OK", "Request fulfilled, document follows"));
    (201, ("Created", "Document created, URL follows"));
    (202, ("Accepted", "Request accepted, processing continues off-line"));
    (203, ("Non-Authoritative Information", "Request fulfilled from cache"));
    (204, ("No Content", "Request fulfilled, nothing follows"));
    (205, ("Reset Content", "Clear input form for further input"));
    (206, ("Partial Content", "Partial content follows"));
    (207, ("Multi-Status", ""));
    (208, ("Already Reported", ""));
    (226, ("IM Used", ""));
    (300, ("Multiple Choices", "Object has several resources -- see URI list"));
    (301, ("Moved Permanently", "Object moved permanently -- see URI list"));
    (302, ("Found", "Object moved temporarily -- see URI list"));
    (303, ("See Other", "Object moved -- see Method and URL list"));
    (304, ("Not Modified", "Document has not changed since given time"));
    (305, ("Use Proxy",
           "You must use proxy specified in Location to access this resource"));
    (307, ("Temporary Redirect", "Object moved temporarily -- see URI list"));
    (308, ("Permanent Redirect", "Object moved permanently -- see URI list"));
    (400, ("Bad Request", "Bad request syntax or unsupported method"));
    (401, ("Unauthorized", "No permission -- see authorization schemes"));
    (402, ("Payment Required", "No payment -- see charging schemes"));
    (403, ("Forbidden", "Request forbidden -- authorization will not help"));
    (404, ("Not Found", "Nothing matches the given URI"));
    (405, ("Method Not Allowed", "Specified method is invalid for this resource"));
    (406, ("Not Acceptable", "URI not available in preferred format"));
    (407, ("Proxy Authentication Required",
           "You must authenticate with this proxy before proceeding"));
    (408, ("Request Timeout", "Request timed out; try again later"));
    (409, ("Conflict", "Request conflict"));
    (410, ("Gone", "URI no longer exists and has been permanently removed"));
    (411, ("Length Required", "Client must specify Content-Length"));
    (412, ("Precondition Failed", "Precondition in headers is false"));
    (413, ("Request Entity Too Large", "Entity is too large"));
    (414, ("Request-URI Too Long", "URI is too long"));
    (415, ("Unsupported Media Type", "Entity body in unsupported format"));
    (416, ("Requested Range Not Satisfiable", "Cannot satisfy request range"));
    (417, ("Expectation Failed", "Expect condition could not be satisfied"));
    (418, ("I'm a Teapot", "Server refuses to brew coffee because it is a teapot."));
    (421, ("Misdirected Request", "Server is not able to produce a response"));
    (422, ("Unprocessable Entity", ""));
    (423, ("Locked", ""));
    (424, ("Failed Dependency", ""));
    (425, ("Too Early", ""));
    (426, ("Upgrade Required", ""));
    (428, ("Precondition Required",
           "The origin server requires the request to be conditional"));
    (429, ("Too Many Requests",
           "The user has sent too many requests in a given amount of time (" ++ DQ
           ++ "rate limiting" ++ DQ ++ ")"));
    (431, ("Request Header Fields Too Large",
           "The server is unwilling to process the request because its header fields are too large"));
    (451, ("Unavailable For Legal Reasons",
           "The server is denying access to the resource as a consequence of a legal demand"));
    (500, ("Internal Server Error", "Server got itself in trouble"));
    (501, ("Not Implemented", "Server does not support this operation"));
    (502, ("Bad Gateway", "Invalid responses from another server/proxy"));
    (503, ("Service Unavailable",
           "The server cannot process the request due to a high load"));
    (504, ("Gateway Timeout", "The gateway server did not receive a timely response"));
    (505, ("HTTP Version Not Supported", "Cannot fulfill request"));
    (506, ("Variant Also Negotiates", ""));
    (507, ("Insufficient Storage", ""));
    (508, ("Loop Detected", ""));
    (510, ("Not Extended", ""));
    (511, ("Network Authentication Required",
           "The client needs to authenticate to gain network access")) ].

(** [self.responses]: [{v: (v.phrase, v.description) for v in HTTPStatus}] *)
Definition responses (code : nat) : option (string * string) :=
  match find (fun row => (fst row =? code)%nat) HTTPStatus with
  | Some row => Some (snd row)
  | None => None
  end.

(** [error_message_format % {'code': .., 'message': .., 'explain': ..}] *)
Definition error_message_format (code : nat) (message explain : string) : string :=
  "<!DOCTYPE HTML>" ++ NL ++
  "<html lang=" ++ DQ ++ "en" ++ DQ ++ ">" ++ NL ++
  "    <head>" ++ NL ++
  "        <meta charset=" ++ DQ ++ "utf-8" ++ DQ ++ ">" ++ NL ++
  "        <title>Error response</title>" ++ NL ++
  "    </head>" ++ NL ++
  "    <body>" ++ NL ++
  "        <h1>Error response</h1>" ++ NL ++
  "        <p>Error code: " ++ str code ++ "</p>" ++ NL ++
  "        <p>Message: " ++ message ++ ".</p>" ++ NL ++
  "        <p>Error code explanation: " ++ str code ++ " - " ++ explain ++ ".</p>" ++ NL ++
  "    </body>" ++ NL ++
  "</html>" ++ NL.

(** *** What a client sends *)

(** what [http.client.parse_headers] makes of the lines after the request
    line: the headers, or one of its two exceptions *)
Inductive HeaderBlock :=
| HeaderLines (hs : list (string * string))
| LineTooLong          (* a header line of more than 65536 bytes *)
| TooManyHeaders.      (* more than 100 header lines *)

(** one request as it arrives: what [rfile.readline(65537)] returns for
    the request line, line end included (the empty string at the end of
    the input), and the header block after it *)
Record Raw := mkRaw {
  raw_requestline : string;
  raw_headers : HeaderBlock
}.

(** *** Request headers ([email.message.Message], names compared in lower case) *)

Definition headers_get (name : string) (hs : list (string * string)) : option string :=
  match find (fun kv => String.eqb (lower (fst kv)) (lower name)) hs with
  | Some kv => Some (snd kv)
  | None => None
  end.

Definition headers_contains (name : string) (hs : list (string * string)) : bool :=
  match headers_get name hs with Some _ => true | None => false end.

(** *** BaseHTTPRequestHandler

    [self.end_headers()] is a virtual call: a subclass may override it,
    and the inherited [send_error] and [send_head] then run the override.
    The methods below take it as the section variable [self_end_headers]. *)

Section Methods.

Variable env : Env.
Variable fs : FS.
Variable self_end_headers : M unit.

(** [if not hasattr(self, '_headers_buffer'): self._headers_buffer = []]
    followed by [self._headers_buffer.append(line)] *)
Definition headers_buffer_append (line : string) : M unit :=
  modify (fun h =>
    match _headers_buffer h with
    | None => set_headers_buffer (Some [line]) h
    | Some b => set_headers_buffer (Some (b ++ [line])%list) h
    end).

Definition log_request (code : nat) : M unit := log_message (LogRequest code).

Definition log_error (code : nat) (message : string) : M unit :=
  log_message (LogError code message).

Definition send_response_only (code : nat) (message : option string) : M unit :=
  self <- get ;;
  when (negb (request_version self =? "HTTP/0.9"))
    (let message :=
       match message with
       | Some m => m
       | None => match responses code with
                 | Some (short, _) => short
                 | None => ""
                 end
       end in
     headers_buffer_append
       (protocol_version ++ " " ++ str code ++ " " ++ message ++ CRLF)).

Definition send_header (keyword value : string) : M unit :=
  self <- get ;;
  when (negb (request_version self =? "HTTP/0.9"))
    (headers_buffer_append (keyword ++ ": " ++ value ++ CRLF)) ;;
  if lower keyword =? "connection" then
    if lower value =? "close" then modify (set_close_connection true)
    else if lower value =? "keep-alive" then modify (set_close_connection false)
    else ret tt
  else ret tt.

Definition flush_headers : M unit :=
  self <- get ;;
  match _headers_buffer self with
  | Some b =>
      wfile_write (join b) ;;
      modify (set_headers_buffer (Some []))
  | None => ret tt
  end.

(** [BaseHTTPRequestHandler.end_headers], reached from the script as
    [super().end_headers()] *)
Definition end_headers : M unit :=
  self <- get ;;
  when (negb (request_version self =? "HTTP/0.9"))
    (match _headers_buffer self with
     | Some _ => headers_buffer_append CRLF
     | None => raise (AttributeError "_headers_buffer")
     end ;;
     flush_headers).

Definition send_response (code : nat) (message : option string) : M unit :=
  log_request code ;;
  send_response_only code message ;;
  send_header "Server" (version_string env) ;;
  send_header "Date" (date_time_string env None).

Definition send_error (code : nat) (message explain : option string) : M unit :=
  let (shortmsg, longmsg) :=
    match responses code with
    | Some r => r
    | None => ("???", "???")
    end in
  let message := match message with Some m => m | None => shortmsg end in
  let explain := match explain with Some e => e | None => longmsg end in
  log_error code message ;;
  send_response code (Some message) ;;
  send_header "Connection" "close" ;;
  let body :=
    if (200 <=? code)%nat &&
       negb ((code =? NO_CONTENT)%nat || (code =? RESET_CONTENT)%nat ||
             (code =? NOT_MODIFIED)%nat)
    then Some (utf8_encode
                 (error_message_format code (html_escape message) (html_escape explain)))
    else None in
  match body with
  | Some b =>
      send_header "Content-Type" error_content_type ;;
      send_header "Content-Length" (str (String.length b))
  | None => ret tt
  end ;;
  self_end_headers ;;
  self <- get ;;
  match body with
  | Some b =>
      when (negb (command self =? "HEAD") && negb (b =? "")) (wfile_write b)
  | None => ret tt
  end.

(** [mname = 'do_' + self.command; getattr(self, mname)] is a virtual
    lookup as well: [self_do] is the table of the [do_*] methods of the
    class of [self], [None] where [hasattr] is false. *)
Variable self_do : string -> option (M unit).

(** [BaseHTTPRequestHandler.handle_one_request] from the point where
    [parse_request] has returned [True]: [command], [path],
    [request_version] and [headers] are set. *)
Definition handle_one_request : M unit :=
  self <- get ;;
  match self_do (command self) with
  | None =>
      send_error NOT_IMPLEMENTED
        (Some ("Unsupported method (" ++ py_repr env (command self) ++ ")")) None
  | Some method => method
  end.

(** [handle_expect_100] *)
Definition handle_expect_100 : M bool :=
  send_response_only CONTINUE None ;;
  self_end_headers ;;
  ret true.

(** the [try] block of [parse_request] on the last word of the request
    line: the text after the slash and the two numbers; [None] where
    ValueError or IndexError is raised *)
Definition parse_version (version : string) : option (string * (Z * Z)) :=
  if negb (startswith version "HTTP/") then None
  else
    match after_first "/" version with
    | None => None
    | Some base_version_number =>
        match split_on "." base_version_number "" with
        | [major; minor] =>
            match py_int env major, py_int env minor with
            | Some a, Some b => Some (base_version_number, (a, b))
            | _, _ => None
            end
        | _ => None
        end
    end.

(** [a >= b] on pairs of integers *)
Definition pair_ge (a b : Z * Z) : bool :=
  (fst b <? fst a)%Z || ((fst a =? fst b)%Z && (snd b <=? snd a)%Z).

(** [parse_request], on the request line read and the header block that
    follows it; [command] is [None] in the source until it is set, the
    empty string here: it is read only by the test against 'HEAD' in
    [send_error] *)
Definition parse_request (raw : Raw) : M bool :=
  modify (set_command "") ;;
  modify (set_request_version default_request_version) ;;
  modify (set_close_connection true) ;;
  let requestline := rstrip_crlf (raw_requestline raw) in
  let words := split requestline in
  if (length words =? 0)%nat then ret false
  else
    ok <- (if (3 <=? length words)%nat then
             let version := last words "" in
             match parse_version version with
             | None =>
                 send_error BAD_REQUEST
                   (Some ("Bad request version (" ++ py_repr env version ++ ")")) None ;;
                 ret false
             | Some (base_version_number, version_number) =>
                 when (pair_ge version_number (1, 1)%Z &&
                       str_ge protocol_version "HTTP/1.1")
                   (modify (set_close_connection false)) ;;
                 if pair_ge version_number (2, 0)%Z then
                   send_error HTTP_VERSION_NOT_SUPPORTED
                     (Some ("Invalid HTTP version (" ++ base_version_number ++ ")"))
                     None ;;
                   ret false
                 else
                   modify (set_request_version version) ;;
                   ret true
             end
           else ret true) ;;
    if negb ok then ret false
    else if negb ((2 <=? length words)%nat && (length words <=? 3)%nat) then
      send_error BAD_REQUEST
        (Some ("Bad request syntax (" ++ py_repr env requestline ++ ")")) None ;;
      ret false
    else
      let command := nth 0 words "" in
      let path := nth 1 words "" in
      ok <- (if (length words =? 2)%nat then
               modify (set_close_connection true) ;;
               if negb (command =? "GET") then
                 send_error BAD_REQUEST
                   (Some ("Bad HTTP/0.9 request type (" ++ py_repr env command ++ ")"))
                   None ;;
                 ret false
               else ret true
             else ret true) ;;
      if negb ok then ret false
      else
        modify (set_command command) ;;
        modify (set_path path) ;;
        when (startswith path "//") (modify (set_path ("/" ++ lstrip_slash path))) ;;
        match raw_headers raw with
        | LineTooLong =>
            send_error REQUEST_HEADER_FIELDS_TOO_LARGE (Some "Line too long")
              (Some "got more than 65536 bytes when reading header line") ;;
            ret false
        | TooManyHeaders =>
            send_error REQUEST_HEADER_FIELDS_TOO_LARGE (Some "Too many headers")
              (Some "got more than 100 headers") ;;
            ret false
        | HeaderLines hs =>
            modify (set_headers hs) ;;
            let conntype :=
              match headers_get "Connection" hs with Some v => v | None => "" end in
            (if lower conntype =? "close" then modify (set_close_connection true)
             else if (lower conntype =? "keep-alive") &&
                     str_ge protocol_version "HTTP/1.1"
                  then modify (set_close_connection false)
                  else ret tt) ;;
            let expect :=
              match headers_get "Expect" hs with Some v => v | None => "" end in
            self <- get ;;
            if (lower expect =? "100-continue") &&
               str_ge protocol_version "HTTP/1.1" &&
               str_ge (request_version self) "HTTP/1.1"
            then
              ok <- handle_expect_100 ;;
              if negb ok then ret false else ret true
            else ret true
        end.

(** [handle_one_request] up to the dispatch: the request line is read
    and parsed; the result says whether a method is to be called *)
Definition read_request (raw : Raw) : M bool :=
  if (65536 <? Z.of_nat (String.length (raw_requestline raw)))%Z then
    modify (set_request_version "") ;;
    modify (set_command "") ;;
    send_error REQUEST_URI_TOO_LONG None None ;;
    ret false
  else if raw_requestline raw =? "" then
    modify (set_close_connection true) ;;
    ret false
  else parse_request raw.

(** the second part of [handle_one_request], from
    [mname = 'do_' + self.command] on, is [handle_one_request] above;
    this is the whole method on one request of the input *)
Definition handle_one_request_on (raw : Raw) : M unit :=
  ok <- read_request raw ;;
  if ok then handle_one_request else ret tt.

(** what [readline] returns at the end of the input *)
Definition end_of_input : Raw := mkRaw "" (HeaderLines []).

(** [while not self.close_connection: self.handle_one_request()], over
    what is left of the input *)
Fixpoint handle_more (rfile : list Raw) : M unit :=
  self <- get ;;
  if close_connection self then ret tt
  else
    match rfile with
    | [] => handle_one_request_on end_of_input
    | raw :: rest => handle_one_request_on raw ;; handle_more rest
    end.

(** [handle]: [rfile] is what the client sends, request after request *)
Definition handle (rfile : list Raw) : M unit :=
  modify (set_close_connection true) ;;
  handle_one_request_on (hd end_of_input rfile) ;;
  handle_more (tl rfile).

(** *** SimpleHTTPRequestHandler *)

(** what [send_head] returns: an open file on disk or an [io.BytesIO] *)
Inductive FileObj :=
| DiskFile (p : string) (f : File)
| BytesIO (data : string).

Definition os_path_isdir (p : string) : M bool :=
  fs_call (Isdir p) ;; ret (os_isdir fs p).

Definition os_path_isfile (p : string) : M bool :=
  fs_call (Isfile p) ;; ret (os_isfile fs p).

Definition os_path_islink (p : string) : M bool :=
  fs_call (Islink p) ;; ret (os_islink fs p).

Definition copyfile (source : FileObj) : M unit :=
  match source with
  | DiskFile p f => fs_call (Read p) ;; wfile_write (f_data f)
  | BytesIO data => wfile_write data
  end.

(** the loop over the sorted names in [list_directory] *)
Fixpoint list_entries (path : string) (names : list string)
  : M (list (string * bool * bool)) :=
  match names with
  | [] => ret []
  | name :: rest =>
      let fullname := os_path_join path name in
      d <- os_path_isdir fullname ;;
      l <- os_path_islink fullname ;;
      r <- list_entries path rest ;;
      ret ((name, d, l) :: r)
  end.

Definition list_directory (path : string) : M (option FileObj) :=
  fs_call (Listdir path) ;;
  match os_listdir fs path with
  | None =>
      send_error NOT_FOUND (Some "No permission to list directory") None ;;
      ret None
  | Some list =>
      self <- get ;;
      entries <- list_entries path (sort_lower env list) ;;
      let enc := getfilesystemencoding env in
      let encoded := render_listing env (HttpServer.path self) entries in
      send_response OK None ;;
      send_header "Content-type" ("text/html; charset=" ++ enc) ;;
      send_header "Content-Length" (str (String.length encoded)) ;;
      self_end_headers ;;
      ret (Some (BytesIO encoded))
  end.

(** the test that sends 304: an If-Modified-Since header, no
    If-None-Match, a date that parses, and a file not modified after it *)
Definition not_modified (hs : list (string * string)) (mtime : Z) : bool :=
  headers_contains "If-Modified-Since" hs &&
  negb (headers_contains "If-None-Match" hs) &&
  match headers_get "If-Modified-Since" hs with
  | Some v =>
      match parsedate_to_datetime env v with
      | Some ims =>
          let ims := match tzinfo ims with
                     | TzNone => mkDatetime (dt_secs ims) TzUTC
                     | _ => ims
                     end in
          match tzinfo ims with
          | TzUTC => (mtime <=? dt_secs ims)%Z
          | _ => false
          end
      | None => false
      end
  | None => false
  end.

(** [for index in "index.html", "index.htm": ...] *)
Fixpoint find_index (path : string) (indexes : list string) : M (option string) :=
  match indexes with
  | [] => ret None
  | index :: rest =>
      let index := os_path_join path index in
      b <- os_path_isfile index ;;
      if b then ret (Some index) else find_index path rest
  end.

(** [send_head] from [ctype = self.guess_type(path)] on *)
Definition send_head_file (path : string) : M (option FileObj) :=
  let ctype := guess_type env path in
  if endswith path "/" then
    send_error NOT_FOUND (Some "File not found") None ;;
    ret None
  else
    fs_call (Open path) ;;
    match os_open fs path with
    | OpenOSError =>
        send_error NOT_FOUND (Some "File not found") None ;;
        ret None
    | OpenValueError => raise ValueError
    | OpenFile f =>
        fs_call (Fstat path) ;;
        self <- get ;;
        if not_modified (headers self) (st_mtime f) then
          send_response NOT_MODIFIED None ;;
          self_end_headers ;;
          ret None
        else
          send_response OK None ;;
          send_header "Content-type" ctype ;;
          send_header "Content-Length" (str (st_size f)) ;;
          send_header "Last-Modified" (date_time_string env (Some (st_mtime f))) ;;
          self_end_headers ;;
          ret (Some (DiskFile path f))
    end.

Definition send_head : M (option FileObj) :=
  self <- get ;;
  let path := translate_path env (HttpServer.path self) in
  d <- os_path_isdir path ;;
  if d then
    if negb (endswith (urlsplit_path env (HttpServer.path self)) "/") then
      send_response MOVED_PERMANENTLY None ;;
      send_header "Location" (redirect_url env (HttpServer.path self)) ;;
      send_header "Content-Length" "0" ;;
      self_end_headers ;;
      ret None
    else
      i <- find_index path ["index.html"; "index.htm"] ;;
      match i with
      | Some index => send_head_file index
      | None => list_directory path
      end
  else send_head_file path.

Definition do_GET : M unit :=
  f <- send_head ;;
  match f with
  | Some f => copyfile f
  | None => ret tt
  end.

Definition do_HEAD : M unit :=
  f <- send_head ;;
  ret tt.

End Methods.

(** the [do_*] attributes of SimpleHTTPRequestHandler, for an object whose
    [end_headers] is [self_end_headers] *)
Definition simple_do (env : Env) (fs : FS) (self_end_headers : M unit)
  (name : string) : option (M unit) :=
  if name =? "GET" then Some (do_GET env fs self_end_headers)
  else if name =? "HEAD" then Some (do_HEAD env fs self_end_headers)
  else None.

(** a request as [parse_request] leaves it in the handler *)
Record Request := mkRequest {
  req_command : string;
  req_path : string;
  req_version : string;
  req_headers : list (string * string)
}.

(** the handler object when the method is dispatched: nothing sent yet,
    [close_connection] true since [protocol_version] is HTTP/1.0 *)
Definition new_handler (r : Request) : Handler :=
  mkHandler (req_command r) (req_path r) (req_version r) (req_headers r)
            true None "" [] [].

(** the handler object that [finish_request] creates for a connection,
    before [handle] runs: no attribute of a request is set yet *)
Definition new_object : Handler :=
  mkHandler "" "" default_request_version [] true None "" [] [].

End HttpServer.

(** ** The script: https-server.py *)

Module Script.
Import Py PyMonad HttpServer.
Local Open Scope py_scope.

(** *** class CORSHTTPRequestHandler(http.server.SimpleHTTPRequestHandler) *)

(** [def end_headers(self)]; the last line is [super().end_headers()] *)
Definition end_headers : HttpServer.M unit :=
  send_header "Access-Control-Allow-Origin" "*" ;;
  send_header "Access-Control-Allow-Methods" "GET, POST, PUT, DELETE, OPTIONS" ;;
  send_header "Access-Control-Allow-Headers" "Content-Type, Authorization" ;;
  HttpServer.end_headers.

(** [def do_OPTIONS(self)] *)
Definition do_OPTIONS (env : Env) : HttpServer.M unit :=
  send_response env 200 None ;;
  end_headers.

(** the [do_*] attributes of the class: [do_OPTIONS] defined here, the
    others inherited and run with this class's [end_headers] *)
Definition cors_do (env : Env) (fs : FS) (name : string) : option (HttpServer.M unit) :=
  if name =? "OPTIONS" then Some (do_OPTIONS env)
  else simple_do env fs end_headers name.

(** one request served by a CORSHTTPRequestHandler object *)
Definition handle_one_request (env : Env) (fs : FS) : HttpServer.M unit :=
  HttpServer.handle_one_request env end_headers (cors_do env fs).

(** the same request served by a plain SimpleHTTPRequestHandler object *)
Definition simple_handle_one_request (env : Env) (fs : FS) : HttpServer.M unit :=
  HttpServer.handle_one_request env HttpServer.end_headers
    (simple_do env fs HttpServer.end_headers).

(** a connection served by a CORSHTTPRequestHandler object: [handle] on
    what the client sends *)
Definition handle (env : Env) (fs : FS) (rfile : list Raw) : HttpServer.M unit :=
  HttpServer.handle env end_headers (cors_do env fs) rfile.

(** the bytes sent in answer to request [r] *)
Definition response (env : Env) (fs : FS) (r : Request) : string :=
  wfile (snd (handle_one_request env fs (new_handler r))).

(** the three lines that [end_headers] adds to the headers buffer *)
Definition cors_lines : list string :=
  [ "Access-Control-Allow-Origin: *" ++ CRLF;
    "Access-Control-Allow-Methods: GET, POST, PUT, DELETE, OPTIONS" ++ CRLF;
    "Access-Control-Allow-Headers: Content-Type, Authorization" ++ CRLF ].

(** [keyword: value\r\n] *)
Definition header_line (kv : string * string) : string :=
  fst kv ++ ": " ++ snd kv ++ CRLF.

(** [HTTP/1.0 code message\r\n] *)
Definition status_line (code : nat) (message : string) : string :=
  protocol_version ++ " " ++ str code ++ " " ++ message ++ CRLF.

(** a response on the wire: the flushed buffer (status line, header
    lines, blank line) and the body written after it *)
Definition wire (code : nat) (message : string) (hdrs : list (string * string))
  (body : string) : string :=
  join (status_line code message :: map header_line hdrs ++ [CRLF]) ++ body.

Definition cors_headers : list (string * string) :=
  [ ("Access-Control-Allow-Origin", "*");
    ("Access-Control-Allow-Methods", "GET, POST, PUT, DELETE, OPTIONS");
    ("Access-Control-Allow-Headers", "Content-Type, Authorization") ].


(** *** Sockets and TLS, as [main] uses them *)

Inductive TLSVersion := SSLv3 | TLSv1 | TLSv1_1 | TLSv1_2 | TLSv1_3.

Definition tls_rank (v : TLSVersion) : nat :=
  match v with
  | SSLv3 => 0 | TLSv1 => 1 | TLSv1_1 => 2 | TLSv1_2 => 3 | TLSv1_3 => 4
  end.

Definition tls_leb (a b : TLSVersion) : bool := (tls_rank a <=? tls_rank b)%nat.

Inductive Protocol := PROTOCOL_TLS_CLIENT | PROTOCOL_TLS_SERVER.

Record SSLContext := mkSSLContext {
  protocol : Protocol;
  minimum_version : TLSVersion;
  maximum_version : TLSVersion;
  cert_chain : option (string * string)
}.

(** [ssl.SSLContext(protocol)]: no certificate yet; [minimum_version]
    and [maximum_version] are MINIMUM_SUPPORTED and MAXIMUM_SUPPORTED,
    that is the lowest and the highest version that the OpenSSL of the
    installation and its configuration allow, [lowest] and [highest]
    here.  The script sets neither. *)
Definition new_SSLContext (lowest highest : TLSVersion) (p : Protocol) : SSLContext :=
  mkSSLContext p lowest highest None.

(** a listening socket; [sock_context] is [Some c] for the [SSLSocket]
    that [c.wrap_socket] returns *)
Record Socket := mkSocket {
  sock_address : option (string * nat);
  sock_listening : bool;
  sock_closed : bool;
  sock_context : option SSLContext;
  sock_server_side : bool
}.

(** a peer that connects: the TLS versions its ClientHello offers (lowest,
    highest), [None] for a peer that does not speak TLS, and what it
    sends once connected, request after request *)
Record Client := mkClient {
  tls_offer : option (TLSVersion * TLSVersion);
  sent : list Raw
}.

(** what reaches the process while [serve_forever] runs *)
Inductive Event :=
| Timeout                        (* select returns nothing after poll_interval *)
| Connection (c : Client)        (* the listening socket is readable *)
| SIGINT                         (* Ctrl+C while waiting in select *)
| SIGINT_serving (c : Client).   (* Ctrl+C while the request of c is served *)

(** what the process does to the outside, in order *)
Inductive Effect :=
| Print (line : string)
| SocketCreate
| Bind (host : string) (port : nat)
| Listen
| SocketClose
| Accept
| Handshake (v : TLSVersion)
| HandshakeFailure
| Served (rfile : list Raw) (reply : string)   (* the handler ran: what it wrote *)
| HandleError
| ConnectionClose.

Inductive PyExn :=
| SystemExit (code : nat)
| KeyboardInterrupt
| OSError
| SSLError
| HandlerError (e : Exn).

(** [isinstance(e, OSError)]; [ssl.SSLError] is a subclass *)
Definition is_OSError (e : PyExn) : bool :=
  match e with OSError | SSLError => true | _ => false end.

(** [isinstance(e, Exception)] *)
Definition is_Exception (e : PyExn) : bool :=
  match e with SystemExit _ | KeyboardInterrupt => false | _ => true end.

(** the process: its effects so far, [httpd.socket], and the two private
    attributes of [socketserver.BaseServer] *)
Record Process := mkProcess {
  effects : list Effect;
  httpd_socket : option Socket;
  __shutdown_request : bool;
  __is_shut_down : bool
}.

(** what [load_cert_chain] does with a pair of files that exist: it
    loads, or the content is not a certificate and key that match
    ([ssl.SSLError]), or a file cannot be read (a directory, no
    permission: an [OSError] that is not [ssl.SSLError]) *)
Inductive CertLoad := CertLoaded | CertMalformed | CertUnreadable.

(** what [main] finds around it *)
Record World := mkWorld {
  path_exists : string -> bool;              (* Path.exists() *)
  can_bind : string -> nat -> bool;          (* bind() succeeds *)
  cert_load : string -> string -> CertLoad;  (* load_cert_chain(certfile, keyfile) *)
  ssl_minimum : TLSVersion;                  (* MINIMUM_SUPPORTED of the installation *)
  ssl_maximum : TLSVersion;                  (* MAXIMUM_SUPPORTED of the installation *)
  world_env : Env;
  world_fs : FS
}.

Definition P (A : Type) : Type := PyMonad.M Process PyExn A.

Definition effect (e : Effect) : P unit :=
  modify (fun p => mkProcess (effects p ++ [e])%list (httpd_socket p)
                             (__shutdown_request p) (__is_shut_down p)).

Definition set_httpd_socket (s : option Socket) : P unit :=
  modify (fun p => mkProcess (effects p) s (__shutdown_request p) (__is_shut_down p)).

Definition set_shutdown_request (b : bool) : P unit :=
  modify (fun p => mkProcess (effects p) (httpd_socket p) b (__is_shut_down p)).

Definition set_is_shut_down (b : bool) : P unit :=
  modify (fun p => mkProcess (effects p) (httpd_socket p) (__shutdown_request p) b).

Definition print (line : string) : P unit := effect (Print line).

Definition sys_exit {A} (code : nat) : P A := raise (SystemExit code).

(** [Path(a) / b] *)
Definition path_div (a b : string) : string := a ++ "/" ++ b.

(** [http.server.HTTPServer(server_address, RequestHandlerClass)]:
    [TCPServer.__init__] creates the socket, binds and listens; when
    binding fails it closes the socket and re-raises *)
Definition HTTPServer (w : World) (server_address : string * nat) : P unit :=
  effect SocketCreate ;;
  if can_bind w (fst server_address) (snd server_address) then
    effect (Bind (fst server_address) (snd server_address)) ;;
    effect Listen ;;
    set_httpd_socket (Some (mkSocket (Some server_address) true false None false))
  else
    effect SocketClose ;;
    raise OSError.

(** [context.load_cert_chain(certfile, keyfile)] *)
Definition load_cert_chain (w : World) (context : SSLContext)
  (certfile keyfile : string) : P SSLContext :=
  match cert_load w certfile keyfile with
  | CertLoaded =>
      ret (mkSSLContext (protocol context) (minimum_version context)
                        (maximum_version context) (Some (certfile, keyfile)))
  | CertMalformed => raise SSLError
  | CertUnreadable => raise OSError
  end.

(** [context.wrap_socket(sock, server_side=...)] on a listening socket *)
Definition wrap_socket (context : SSLContext) (sock : Socket) (server_side : bool)
  : Socket :=
  mkSocket (sock_address sock) (sock_listening sock) (sock_closed sock)
           (Some context) server_side.

(** the version a handshake settles on: the highest that both sides
    allow, if there is one and the context has a certificate *)
Definition negotiate (context : SSLContext) (offer : TLSVersion * TLSVersion)
  : option TLSVersion :=
  let (lo, hi) := offer in
  let v := if tls_leb hi (maximum_version context) then hi
           else maximum_version context in
  match cert_chain context with
  | Some _ =>
      if tls_leb lo v && tls_leb (minimum_version context) v then Some v else None
  | None => None
  end.

(** [self.socket.accept()]: on an [SSLSocket] the new connection is
    wrapped by the same context and the handshake is done before
    [accept] returns; a failed handshake raises [ssl.SSLError] *)
Definition get_request (c : Client) : P unit :=
  self <- get ;;
  match httpd_socket self with
  | None => raise OSError
  | Some sock =>
      effect Accept ;;
      match sock_context sock with
      | None => ret tt
      | Some context =>
          match tls_offer c with
          | Some offer =>
              match negotiate context offer with
              | Some v => effect (Handshake v)
              | None => effect HandshakeFailure ;; raise SSLError
              end
          | None => effect HandshakeFailure ;; raise SSLError
          end
      end
  end.

(** [finish_request]: a CORSHTTPRequestHandler object is created for the
    connection and its [handle] runs on what the client sends; [sigint]
    says that Ctrl+C arrives while it does *)
Definition finish_request (w : World) (c : Client) (sigint : bool) : P unit :=
  if sigint then raise KeyboardInterrupt
  else
    match handle (world_env w) (world_fs w) (sent c) new_object with
    | (Ok _, h) => effect (Served (sent c) (wfile h))
    | (Raise e, h) => effect (Served (sent c) (wfile h)) ;; raise (HandlerError e)
    | (Blocked, h) => effect (Served (sent c) (wfile h)) ;; block
    end.

Definition shutdown_request : P unit := effect ConnectionClose.

Definition process_request (w : World) (c : Client) (sigint : bool) : P unit :=
  finish_request w c sigint ;;
  shutdown_request.

Definition _handle_request_noblock (w : World) (c : Client) (sigint : bool) : P unit :=
  accepted <- try_except (get_request c ;; ret true)
                (fun e => if is_OSError e then Some (ret false) else None) ;;
  if accepted then
    try_except (process_request w c sigint)
      (fun e => if is_Exception e
                then Some (effect HandleError ;; shutdown_request)
                else Some (shutdown_request ;; raise e))
  else ret tt.

(** the [while not self.__shutdown_request] loop of [serve_forever], over
    the events that arrive; when none is left the process waits in
    [select] *)
Fixpoint serve_loop (w : World) (events : list Event) : P unit :=
  self <- get ;;
  if __shutdown_request self then ret tt
  else
    match events with
    | [] => block
    | Timeout :: rest => serve_loop w rest
    | Connection c :: rest => _handle_request_noblock w c false ;; serve_loop w rest
    | SIGINT :: _ => raise KeyboardInterrupt
    | SIGINT_serving c :: rest => _handle_request_noblock w c true ;; serve_loop w rest
    end.

Definition serve_forever (w : World) (events : list Event) : P unit :=
  set_is_shut_down false ;;
  try_finally (serve_loop w events)
    (set_shutdown_request false ;;
     set_is_shut_down true).

(** [BaseServer.shutdown]: sets the flag and waits for the event that
    [serve_forever] sets when it ends *)
Definition shutdown : P unit :=
  set_shutdown_request true ;;
  self <- get ;;
  if __is_shut_down self then ret tt else block.

(** *** def main() *)

Definition port : nat := 3000.

Definition main (w : World) (events : list Event) : P unit :=
  let ssl_dir := "ssl" in
  let cert_file := path_div ssl_dir "server.crt" in
  let key_file := path_div ssl_dir "server.key" in
  when (negb (path_exists w cert_file) || negb (path_exists w key_file))
    (print "SSL certificates not found!" ;;
     print "Please run ./generate-ssl.sh first to create SSL certificates." ;;
     sys_exit 1) ;;
  let server_address := ("", port) in
  HTTPServer w server_address ;;
  let context := new_SSLContext (ssl_minimum w) (ssl_maximum w) PROTOCOL_TLS_SERVER in
  context <- load_cert_chain w context cert_file key_file ;;
  httpd <- get ;;
  match httpd_socket httpd with
  | Some sock => set_httpd_socket (Some (wrap_socket context sock true))
  | None => raise OSError
  end ;;
  print ("HTTPS server starting on https://localhost:" ++ str port ++ "/") ;;
  print "Note: Your browser will show a security warning for the self-signed certificate." ;;
  print "Click 'Advanced' then 'Proceed to localhost (unsafe)' to continue." ;;
  print "Press Ctrl+C to stop the server" ;;
  try_except (serve_forever w events)
    (fun e => match e with
              | KeyboardInterrupt =>
                  Some (print (NL ++ "Server stopped") ;;
                        shutdown)
              | _ => None
              end).

(** the process at its start *)
Definition new_process : Process := mkProcess [] None false false.

(** the call [main()], up to its return or its exception *)
Definition run (w : World) (events : list Event) : Result PyExn unit * Process :=
  main w events new_process.

(** the return of [main]: its frame is dropped, and with it the only
    references to [httpd] and [context]; the socket object is
    deallocated, which closes its descriptor *)
Definition drop_frame : P unit :=
  self <- get ;;
  match httpd_socket self with
  | Some sock =>
      when (negb (sock_closed sock)) (effect SocketClose) ;;
      set_httpd_socket None
  | None => ret tt
  end.

(** [if __name__ == '__main__': main()], to the end of the module *)
Definition script (w : World) (events : list Event) : Result PyExn unit * Process :=
  (main w events ;; drop_frame) new_process.

(** the exit status of the interpreter: 0 when [main] returns, the
    argument of [sys.exit], 1 after a traceback; none while it runs *)
Definition exit_status (r : Result PyExn unit) : option nat :=
  match r with
  | Ok _ => Some 0
  | Raise (SystemExit code) => Some code
  | Raise KeyboardInterrupt => Some 130
  | Raise _ => Some 1
  | Blocked => None
  end.

(** the process ended with an uncaught exception other than [SystemExit] *)
Definition traceback (r : Result PyExn unit) : bool :=
  match r with
  | Raise (SystemExit _) => false
  | Raise _ => true
  | _ => false
  end.

Definition stdout (p : Process) : list string :=
  flat_map (fun e => match e with Print l => [l] | _ => [] end) (effects p).

End Script.

(** ** Specification vocabulary *)

Module Spec.
Import Py PyMonad HttpServer Script.

(** total correctness: from a state in [P] the call returns normally, with
    a result and state in [Q] *)
Definition hoare {S E A : Type} (P : S -> Prop) (c : PyMonad.M S E A)
  (Q : A -> S -> Prop) : Prop :=
  forall s, P s -> exists a s', c s = (Ok a, s') /\ Q a s'.

(** the call returns normally with a result and state in [Q], or raises
    an exception [e] with [X e] of the state; it does not wait for ever *)
Definition hoarex {S E A : Type} (P : S -> Prop) (c : PyMonad.M S E A)
  (Q : A -> S -> Prop) (X : E -> S -> Prop) : Prop :=
  forall s, P s ->
    match c s with
    | (Ok a, s') => Q a s'
    | (Raise e, s') => X e s'
    | (Blocked, _) => False
    end.

(** no carriage return in [s]: written in a header, [s] stays on its line *)
Fixpoint no_cr (s : string) : bool :=
  match s with
  | EmptyString => true
  | String c r => negb (Ascii.eqb c CR) && no_cr r
  end.

Definition clean_header (kv : string * string) : bool :=
  no_cr (fst kv) && no_cr (snd kv).

(** a reason phrase and headers that stay on their lines *)
Definition clean (message : string) (hs : list (string * string)) : Prop :=
  no_cr message = true /\ forallb clean_header hs = true.

(** the library functions put no carriage return in what goes into a
    header or a reason phrase *)
Definition env_clean (env : Env) : Prop :=
  no_cr (version_string env) = true /\
  (forall t, no_cr (date_time_string env t) = true) /\
  (forall p, no_cr (guess_type env p) = true) /\
  (forall p, no_cr p = true -> no_cr (redirect_url env p) = true) /\
  (forall s, no_cr (py_repr env s) = true) /\
  no_cr (getfilesystemencoding env) = true.

(** the request line carried a version other than HTTP/0.9 *)
Definition http1 (h : Handler) : Prop :=
  (request_version h =? "HTTP/0.9") = false.

(** the reason phrase of the status line: the argument of
    [send_response], or the phrase of the code in [responses] *)
Definition reason (code : nat) (message : option string) : string :=
  match message with
  | Some m => m
  | None => match responses code with
            | Some (short, _) => short
            | None => ""
            end
  end.

(** nothing of the response exists yet *)
Definition Fresh (h : Handler) : Prop :=
  http1 h /\ wfile h = "" /\
  (_headers_buffer h = None \/ _headers_buffer h = Some []).

(** the status line and the headers [hs] are in the buffer, nothing is sent *)
Definition Building (code : nat) (message : string) (hs : list (string * string))
  (h : Handler) : Prop :=
  http1 h /\ wfile h = "" /\
  _headers_buffer h = Some (status_line code message :: map header_line hs) /\
  clean message hs.

(** the response went out: status line, the headers [hs], then the three
    CORS headers, the blank line, and [body] after it *)
Definition Sent (code : nat) (message : string) (hs : list (string * string))
  (body : string) (h : Handler) : Prop :=
  http1 h /\ _headers_buffer h = Some [] /\
  wfile h = wire code message (hs ++ cors_headers) body /\
  clean message hs.

(** a finished response with status [code]: some reason phrase, some
    headers, the CORS headers, a body *)
Definition Done (code : nat) (h : Handler) : Prop :=
  exists message hs body, Sent code message hs body h.

Definition Finished (h : Handler) : Prop := exists code, Done code h.

(** two runs side by side: from states related by [P] both calls return
    normally, with results and states related by [Q] *)
Definition rhoare {S E A : Type} (P : S -> S -> Prop) (c1 c2 : PyMonad.M S E A)
  (Q : A -> A -> S -> S -> Prop) : Prop :=
  forall s1 s2, P s1 s2 ->
    exists a1 a2 s1' s2',
      c1 s1 = (Ok a1, s1') /\ c2 s2 = (Ok a2, s2') /\ Q a1 a2 s1' s2'.

(** the same, where both calls may also raise: then they raise the same
    exception, in states related by [X] *)
Definition rhoarex {S E A : Type} (P : S -> S -> Prop) (c1 c2 : PyMonad.M S E A)
  (Q : A -> A -> S -> S -> Prop) (X : E -> S -> S -> Prop) : Prop :=
  forall s1 s2, P s1 s2 ->
    match c1 s1, c2 s2 with
    | (Ok a1, s1'), (Ok a2, s2') => Q a1 a2 s1' s2'
    | (Raise e1, s1'), (Raise e2, s2') => e1 = e2 /\ X e1 s1' s2'
    | _, _ => False
    end.

(** the two runs are in the same state, which satisfies [P] *)
Definition Both (P : Handler -> Prop) (h1 h2 : Handler) : Prop :=
  h1 = h2 /\ P h1.

(** [h1] is a SimpleHTTPRequestHandler and [h2] a CORSHTTPRequestHandler
    after the same request: they differ in [wfile] only, where the second
    has the three CORS headers after the headers [hs] of the first *)
Definition Decorated (code : nat) (message : string) (hs : list (string * string))
  (body : string) (h1 h2 : Handler) : Prop :=
  set_wfile "" h1 = set_wfile "" h2 /\
  http1 h2 /\ _headers_buffer h2 = Some [] /\
  wfile h1 = wire code message hs body /\
  wfile h2 = wire code message (hs ++ cors_headers) body /\
  clean message hs.

Definition Answered (h1 h2 : Handler) : Prop :=
  exists code message hs body, Decorated code message hs body h1 h2.

(** both runs have answered and return the same value *)
Definition answered {A : Type} (a1 a2 : A) (h1 h2 : Handler) : Prop :=
  a1 = a2 /\ Answered h1 h2.

(** *** Reading a response as a client does *)

(** the lines of [w], split at CRLF; [line] is the line read so far *)
Fixpoint split_crlf (w : string) (line : string) : list string :=
  match w with
  | EmptyString => [line]
  | String c r =>
      match r with
      | String d r' =>
          if Ascii.eqb c CR && Ascii.eqb d LF then line :: split_crlf r' ""
          else split_crlf r (line ++ String c "")
      | EmptyString => [line ++ String c ""]
      end
  end.

(** the lines up to the first empty one *)
Fixpoint until_blank (l : list string) : list string :=
  match l with
  | [] => []
  | x :: rest => if x =? "" then [] else x :: until_blank rest
  end.

(** the header lines of a response: what follows the first line, up to
    the blank line *)
Definition header_lines (w : string) : list string :=
  match split_crlf w "" with
  | [] => []
  | _ :: rest => until_blank rest
  end.

Definition cors_header_lines : list string :=
  [ "Access-Control-Allow-Origin: *";
    "Access-Control-Allow-Methods: GET, POST, PUT, DELETE, OPTIONS";
    "Access-Control-Allow-Headers: Content-Type, Authorization" ].

(** a client finds the three CORS headers among the header lines *)
Definition carries_cors (w : string) : Prop :=
  forall l, In l cors_header_lines -> In l (header_lines w).

(** *** Situations of the file system *)

(** [GET /] finds a directory whose index.html is a regular file that
    opens as [f] *)
Definition has_index (env : Env) (fs : FS) (f : File) : Prop :=
  let dir := translate_path env "/" in
  let index := os_path_join dir "index.html" in
  os_isdir fs dir = true /\
  endswith (urlsplit_path env "/") "/" = true /\
  os_isfile fs index = true /\
  endswith index "/" = false /\
  os_open fs index = OpenFile f.

(** the request path does not resolve: it names no directory, and no
    file that can be opened *)
Definition does_not_resolve (env : Env) (fs : FS) (path : string) : Prop :=
  let p := translate_path env path in
  os_isdir fs p = false /\ (endswith p "/" = true \/ os_open fs p = OpenOSError).

(** the response has status [code] and carries the CORS headers last in
    its header section *)
Definition cors_response (code : nat) (w : string) : Prop :=
  exists message hs body,
    w = wire code message (hs ++ cors_headers) body /\ clean message hs.

(** the text of a status line, without its line end *)
Definition status_text (code : nat) (message : string) : string :=
  protocol_version ++ " " ++ str code ++ " " ++ message.

(** a header line as a client reads it, without its line end *)
Definition header_text (kv : string * string) : string := fst kv ++ ": " ++ snd kv.

(** the effect [e] occurs in the run *)
Definition occurs (e : Effect) (p : Process) : Prop := In e (effects p).

(** the listening socket was created or bound *)
Definition opens_socket (p : Process) : Prop :=
  occurs SocketCreate p \/ exists host n, occurs (Bind host n) p.

(** every time the handler has run, the effect before is the handshake
    of the connection, at a version that [ok] accepts *)
Fixpoint served_after (ok : TLSVersion -> bool) (prev : option Effect)
  (l : list Effect) : Prop :=
  match l with
  | [] => True
  | e :: rest =>
      match e with
      | Served _ _ =>
          match prev with
          | Some (Handshake v) => ok v = true
          | _ => False
          end
      | _ => True
      end /\ served_after ok (Some e) rest
  end.

(** every request is served right after a handshake at TLS 1.2 or newer *)
Definition served_after_handshake (prev : option Effect) (l : list Effect) : Prop :=
  served_after (tls_leb TLSv1_2) prev l.

(** the versions that the context of [main] allows *)
Definition allowed (w : World) (v : TLSVersion) : bool :=
  tls_leb (ssl_minimum w) v && tls_leb v (ssl_maximum w).

(** a call that comes back: it ends with a value or an exception *)
Definition terminates {S E A : Type} (c : PyMonad.M S E A) : Prop :=
  forall s, fst (c s) <> Blocked.

(** *** Situations of the process *)

Definition cert_file : string := "ssl/server.crt".
Definition key_file : string := "ssl/server.key".

(** startup succeeds: both files exist, the port can be bound and the
    pair loads *)
Definition starts (w : World) : Prop :=
  path_exists w cert_file = true /\ path_exists w key_file = true /\
  can_bind w "" 3000 = true /\ cert_load w cert_file key_file = CertLoaded.

(** the context that [main] builds *)
Definition context (w : World) : SSLContext :=
  mkSSLContext PROTOCOL_TLS_SERVER (ssl_minimum w) (ssl_maximum w)
    (Some (cert_file, key_file)).

(** the socket that [HTTPServer] leaves in [httpd.socket] *)
Definition bound : Socket := mkSocket (Some ("", 3000)) true false None false.

(** [httpd.socket] once [main] has wrapped it *)
Definition listening (w : World) : Socket := wrap_socket (context w) bound true.

(** the four lines that [main] prints before [serve_forever] *)
Definition banner : list string :=
  [ "HTTPS server starting on https://localhost:3000/";
    "Note: Your browser will show a security warning for the self-signed certificate.";
    "Click 'Advanced' then 'Proceed to localhost (unsafe)' to continue.";
    "Press Ctrl+C to stop the server" ].

(** what [main] has done when it calls [serve_forever] *)
Definition startup : list Effect :=
  [SocketCreate; Bind "" 3000; Listen] ++ map Print banner.

(** the process when [main] calls [serve_forever] *)
Definition started (w : World) : Process :=
  mkProcess startup (Some (listening w)) false false.

(** the process after the further effects [es] *)
Definition add_effects (es : list Effect) (p : Process) : Process :=
  mkProcess (effects p ++ es) (httpd_socket p) (__shutdown_request p) (__is_shut_down p).

(** the effects of serving connections *)
Definition connection_effect (e : Effect) : bool :=
  match e with
  | Accept | Handshake _ | HandshakeFailure | Served _ _ | HandleError
  | ConnectionClose => true
  | _ => false
  end.

(** the handshake with [c] succeeds on the listening socket of [main] *)
Definition handshakes (w : World) (c : Client) : bool :=
  match tls_offer c with
  | Some offer =>
      match negotiate (context w) offer with
      | Some _ => true
      | None => false
      end
  | None => false
  end.

(** Ctrl+C reaches the process at this event: while it waits in
    [select], or while it serves a connection that it has accepted *)
Definition interrupts (w : World) (e : Event) : bool :=
  match e with
  | SIGINT => true
  | SIGINT_serving c => handshakes w c
  | _ => false
  end.

(** every run of the handler in [l] is right after a handshake at a
    version that [ok] accepts, whatever came before [l] *)
Definition handshaken (ok : TLSVersion -> bool) (l : list Effect) : Prop :=
  forall prev, served_after ok prev l.

(** the last line printed *)
Definition last_line (p : Process) : option string := last (map Some (stdout p)) None.

(** what [main] prints when a certificate file is missing *)
Definition guidance : list Effect :=
  [ Print "SSL certificates not found!";
    Print "Please run ./generate-ssl.sh first to create SSL certificates." ].

(** what [main] prints after Ctrl+C *)
Definition notice : string := NL ++ "Server stopped".

(** a call that returns normally from every state *)
Definition succeeds {S E A : Type} (c : PyMonad.M S E A) : Prop :=
  forall s, exists a, fst (c s) = Ok a.

(** a call that leaves the attribute [f] of the object as it was *)
Definition keeps {S E A X : Type} (f : S -> X) (c : PyMonad.M S E A) : Prop :=
  forall s, f (snd (c s)) = f s.

(** the version that the handshake with [c] settles on *)
Definition handshake_version (w : World) (c : Client) : option TLSVersion :=
  match tls_offer c with
  | Some offer => negotiate (context w) offer
  | None => None
  end.

(** what the handler writes on a connection, and whether it ends with an
    exception *)
Definition reply (w : World) (c : Client) : string :=
  wfile (snd (handle (world_env w) (world_fs w) (sent c) new_object)).

Definition handler_raises (w : World) (c : Client) : bool :=
  match fst (handle (world_env w) (world_fs w) (sent c) new_object) with
  | Raise _ => true
  | _ => false
  end.

(** what one connection adds to the effects of the process: a failed
    handshake, or the handshake, then, unless Ctrl+C arrives, what the
    handler wrote and the report of its exception if it raised one, and
    the close of the connection *)
Definition connection_trace (w : World) (c : Client) (sigint : bool) : list Effect :=
  match handshake_version w c with
  | None => [Accept; HandshakeFailure]
  | Some v =>
      [Accept; Handshake v] ++
      (if sigint then []
       else Served (sent c) (reply w c) ::
            if handler_raises w c then [HandleError] else []) ++
      [ConnectionClose]
  end.

(** what the accept loop adds to the effects, up to the first Ctrl+C *)
Fixpoint trace (w : World) (events : list Event) : list Effect :=
  match events with
  | [] => []
  | Timeout :: rest => trace w rest
  | Connection c :: rest => connection_trace w c false ++ trace w rest
  | SIGINT :: _ => []
  | SIGINT_serving c :: rest =>
      connection_trace w c true ++ (if handshakes w c then [] else trace w rest)
  end.

(** the replies of a run, in order *)
Definition replies (l : list Effect) : list (list Raw * string) :=
  flat_map (fun e => match e with Served r reply => [(r, reply)] | _ => [] end) l.

(** the page that [send_error] sends for [code] with the reason [message] *)
Definition error_page (code : nat) (message : string) : string :=
  utf8_encode
    (error_message_format code (html_escape message)
       (html_escape (snd (match responses code with
                          | Some r => r
                          | None => ("???", "???")
                          end)))).

(** the headers that [send_error] sends before [end_headers], for a code
    that has a page *)
Definition error_headers (env : Env) (code : nat) (message : string)
  : list (string * string) :=
  [ ("Server", version_string env);
    ("Date", date_time_string env None);
    ("Connection", "close");
    ("Content-Type", error_content_type);
    ("Content-Length", str (String.length (error_page code message))) ].

(** the codes for which [send_error] sends a page *)
Definition has_page (code : nat) : bool :=
  (200 <=? code)%nat &&
  negb ((code =? NO_CONTENT)%nat || (code =? RESET_CONTENT)%nat ||
        (code =? NOT_MODIFIED)%nat).

(** the request path names a regular file that opens as [f] *)
Definition file_at (env : Env) (fs : FS) (path : string) (f : File) : Prop :=
  let p := translate_path env path in
  os_isdir fs p = false /\ endswith p "/" = false /\ os_open fs p = OpenFile f.

(** the request path names a directory and lacks the final slash *)
Definition directory_without_slash (env : Env) (fs : FS) (path : string) : Prop :=
  os_isdir fs (translate_path env path) = true /\
  endswith (urlsplit_path env path) "/" = false.

(** the request line carried no version, or HTTP/0.9 *)
Definition http09 (h : Handler) : Prop :=
  (request_version h =? "HTTP/0.9") = true.

(** two calls that do the same from every state in [I], and stay in [I] *)
Definition agree {S E A : Type} (I : S -> Prop) (c1 c2 : PyMonad.M S E A) : Prop :=
  forall s, I s -> c1 s = c2 s /\ I (snd (c1 s)).

(** the handshakes that succeeded and the connections that were closed,
    counted in a list of effects *)
Definition handshakes_done (l : list Effect) : nat :=
  length (filter (fun e => match e with Handshake _ => true | _ => false end) l).

Definition connections_closed (l : list Effect) : nat :=
  length (filter (fun e => match e with ConnectionClose => true | _ => false end) l).

(** a call from which only an exception in [X] can come out, and which
    does not wait for ever *)
Definition escapes {S E A : Type} (X : E -> Prop) (c : PyMonad.M S E A) : Prop :=
  forall s,
    match fst (c s) with
    | Ok _ => True
    | Raise e => X e
    | Blocked => False
    end.

(** a call that leaves a state of [I] in [I], however it ends *)
Definition stays {S E A : Type} (I : S -> Prop) (c : PyMonad.M S E A) : Prop :=
  forall s, I s -> I (snd (c s)).

(** the connection is closed after this request *)
Definition closing (h : Handler) : Prop := close_connection h = true.

(** the object when a method is dispatched: nothing of the response
    exists, and the path is a word of the request line *)
Definition Ready (h : Handler) : Prop := Fresh h /\ no_cr (path h) = true.

(** both runs have raised [e]: the [ValueError] of [open], in the same
    state and with nothing sent *)
Definition Unopened (e : Exn) (h1 h2 : Handler) : Prop :=
  e = ValueError /\ h1 = h2 /\ wfile h1 = "".

(** the run has raised [e]: the [ValueError] of [open], with nothing sent *)
Definition Refused (e : Exn) (h : Handler) : Prop :=
  e = ValueError /\ wfile h = "".

(** the exception of [open]: a [ValueError], for a path that [open]
    refuses *)
Definition from_open (fs : FS) (e : Exn) : Prop :=
  e = ValueError /\ exists p, os_open fs p = OpenValueError.

(** the request version that the handler works with when it answers the
    request [raw]: none for a request line that is too long, the last
    word of a line of three words or more if [parse_request] accepts it
    as a version below 2.0, and HTTP/0.9 otherwise *)
Definition version_of (env : Env) (raw : Raw) : string :=
  if (65536 <? Z.of_nat (String.length (raw_requestline raw)))%Z then ""
  else
    let words := split (rstrip_crlf (raw_requestline raw)) in
    if (3 <=? length words)%nat then
      match parse_version env (last words "") with
      | Some (_, version_number) =>
          if pair_ge version_number (2, 0)%Z then default_request_version
          else last words ""
      | None => default_request_version
      end
    else default_request_version.

(** the first request of a connection *)
Definition first_request (rfile : list Raw) : Raw := hd end_of_input rfile.

(** what reading the request makes of a new object: the request, ready
    for its method ([b] is true), or a reply of [parse_request] itself,
    sent whole or in the form of HTTP/0.9 *)
Definition Parsed (env : Env) (raw : Raw) (b : bool) (h : Handler) : Prop :=
  closing h /\ request_version h = version_of env raw /\
  if b then exists r, h = new_handler r /\ no_cr (req_path r) = true
  else http09 h \/ Finished h.

(** how the handler leaves a connection: the reply is whole, with a
    status line and the CORS headers, or has the form of HTTP/0.9; or
    [open] has raised and nothing was sent *)
Definition Served_or_refused (res : Result Exn unit) (h : Handler) : Prop :=
  match res with
  | Ok _ => http09 h \/ Finished h
  | Raise e => Refused e h
  | Blocked => False
  end.

(** a call that raises, if it does, an exception in [X], and then has
    not changed the attribute [f] of the object; it does not wait for ever *)
Definition raises_early {S E A X0 : Type} (X : E -> Prop) (f : S -> X0)
  (c : PyMonad.M S E A) : Prop :=
  forall s,
    match c s with
    | (Ok _, _) => True
    | (Raise e, s') => X e /\ f s' = f s
    | (Blocked, _) => False
    end.

(** the response went out and has no body *)
Definition Bare (h : Handler) : Prop := exists code message hs, Sent code message hs "" h.

(** the exception of [load_cert_chain] for a pair that does not load *)
Definition load_error (l : CertLoad) : PyExn :=
  match l with
  | CertMalformed => SSLError
  | _ => OSError
  end.

End Spec.

(** ** Sample surroundings, for the concrete runs *)

Module Sample.
Import Py PyMonad HttpServer Script.

Definition epoch : string := "Thu, 01 Jan 1970 00:00:00 GMT".

(** [repr] of a string, its line ends escaped *)
Fixpoint escape (s : string) : string :=
  match s with
  | EmptyString => EmptyString
  | String c r =>
      (if Ascii.eqb c CR then "\r"
       else if Ascii.eqb c LF then "\n"
       else String c EmptyString) ++ escape r
  end.

(** [int] of a string of decimal digits *)
Fixpoint digits (s : string) (n : Z) : option Z :=
  match s with
  | EmptyString => Some n
  | String c r =>
      let d := nat_of_ascii c in
      if (48 <=? d)%nat && (d <=? 57)%nat
      then digits r (10 * n + Z.of_nat (d - 48))%Z
      else None
  end.

Definition int (s : string) : option Z :=
  if s =? "" then None else digits s 0%Z.

(** the path that [translate_path] makes of /%00: a NUL byte in it *)
Definition nul_path : string := "/srv/" ++ String (ascii_of_nat 0) EmptyString.

(** a clock stopped at the epoch, the working directory /srv, every file
    served as text/html *)
Definition env : Env :=
  mkEnv "SimpleHTTP/0.6 Python/3.11.2"
        (fun _ => epoch)
        (fun p => if p =? "/%00" then nul_path else "/srv" ++ p)
        (fun p => p)
        (fun p => p ++ "/")
        (fun _ => "text/html")
        (fun s => "'" ++ escape s ++ "'")
        int
        (fun v => if v =? epoch then Some (mkDatetime 0 TzUTC) else None)
        (fun l => l)
        "utf-8"
        (fun _ _ => "<listing>").

Definition index_html : File := mkFile "<h1>hi</h1>" 11 0.

(** /srv holds index.html and nothing else; [open] refuses a path with a
    NUL byte before it asks the system *)
Definition fs : FS :=
  mkFS (fun p => p =? "/srv/")
       (fun p => p =? "/srv/index.html")
       (fun _ => false)
       (fun p => if p =? "/srv/" then Some ["index.html"] else None)
       (fun p => if p =? "/srv/index.html" then OpenFile index_html
                 else if contains p (String (ascii_of_nat 0) EmptyString)
                      then OpenValueError
                      else OpenOSError).

Definition get_root : Request := mkRequest "GET" "/" "HTTP/1.1" [].
Definition get_root_09 : Request := mkRequest "GET" "/" "HTTP/0.9" [].
Definition get_root_again : Request :=
  mkRequest "GET" "/" "HTTP/1.1" [("If-Modified-Since", epoch)].
Definition get_missing : Request := mkRequest "GET" "/does-not-exist" "HTTP/1.1" [].
Definition post_root : Request := mkRequest "POST" "/" "HTTP/1.1" [].
Definition options_any : Request := mkRequest "OPTIONS" "/does-not-exist" "HTTP/1.1" [].
Definition options_09 : Request := mkRequest "OPTIONS" "/" "HTTP/0.9" [].

(** a request line followed by no header *)
Definition line (requestline : string) : Raw :=
  mkRaw (requestline ++ CRLF) (HeaderLines []).

(** both certificate files are there and load, the port is free, and TLS
    1.2 is the lowest version that the installation allows *)
Definition world : World :=
  mkWorld (fun _ => true) (fun _ _ => true) (fun _ _ => CertLoaded)
          TLSv1_2 TLSv1_3 env fs.

(** the same on an installation that still allows TLS 1.0 *)
Definition world_legacy : World :=
  mkWorld (fun _ => true) (fun _ _ => true) (fun _ _ => CertLoaded)
          TLSv1 TLSv1_3 env fs.

(** the key file is missing *)
Definition world_no_key : World :=
  mkWorld (fun p => p =? "ssl/server.crt") (fun _ _ => true) (fun _ _ => CertLoaded)
          TLSv1_2 TLSv1_3 env fs.

(** both files are there, but they are not a certificate and its key *)
Definition world_bad_cert : World :=
  mkWorld (fun _ => true) (fun _ _ => true) (fun _ _ => CertMalformed)
          TLSv1_2 TLSv1_3 env fs.

(** both are there, but ssl/server.key is a directory *)
Definition world_key_is_directory : World :=
  mkWorld (fun _ => true) (fun _ _ => true) (fun _ _ => CertUnreadable)
          TLSv1_2 TLSv1_3 env fs.

(** both files are there and load, but port 3000 is taken *)
Definition world_port_busy : World :=
  mkWorld (fun _ => true) (fun _ _ => false) (fun _ _ => CertLoaded)
          TLSv1_2 TLSv1_3 env fs.

Definition browser : Client :=
  mkClient (Some (TLSv1_2, TLSv1_3)) [line "GET / HTTP/1.1"].
Definition old_client : Client :=
  mkClient (Some (SSLv3, TLSv1_1)) [line "GET / HTTP/1.1"].
(** a client that asks for a path with a NUL byte *)
Definition nul_client : Client :=
  mkClient (Some (TLSv1_2, TLSv1_3)) [line "GET /%00 HTTP/1.1"].

End Sample.

(** ** Proofs: one connection, one handler object *)

Module Responses.
Import Py PyMonad HttpServer Script Spec.
Local Open Scope string_scope.
Local Open Scope py_scope.

(** * Proof rules *)

Lemma bind_Ok {S E A B} (c : PyMonad.M S E A) (k : A -> PyMonad.M S E B) s a s' :
  c s = (Ok a, s') -> bind c k s = k a s'.
Proof. intros H. unfold bind. rewrite H. reflexivity. Qed.

Lemma bind_assoc {S E A B C} (c : PyMonad.M S E A) (k1 : A -> PyMonad.M S E B)
  (k2 : B -> PyMonad.M S E C) s :
  bind (bind c k1) k2 s = bind c (fun a => bind (k1 a) k2) s.
Proof. unfold bind. destruct (c s) as [[a | e |] s']; reflexivity. Qed.

Section HoareRules.

Context {S E : Type}.

Lemma hoare_ret {A} (P : S -> Prop) (a : A) (Q : A -> S -> Prop) :
  (forall s, P s -> Q a s) -> hoare (E := E) P (ret a) Q.
Proof. intros H s Hs. exists a, s. split; [reflexivity | auto]. Qed.

Lemma hoare_bind {A B} (P : S -> Prop) (c : PyMonad.M S E A) (R : A -> S -> Prop)
  (k : A -> PyMonad.M S E B) (Q : B -> S -> Prop) :
  hoare P c R -> (forall a, hoare (R a) (k a) Q) -> hoare P (bind c k) Q.
Proof.
  intros Hc Hk s Hs.
  destruct (Hc s Hs) as (a & s' & Hrun & Ha).
  destruct (Hk a s' Ha) as (b & s'' & Hrun' & Hb).
  exists b, s''. unfold bind. rewrite Hrun. auto.
Qed.

Lemma hoare_conseq {A} (P P' : S -> Prop) (c : PyMonad.M S E A) (Q Q' : A -> S -> Prop) :
  hoare P' c Q' -> (forall s, P s -> P' s) -> (forall a s, Q' a s -> Q a s) ->
  hoare P c Q.
Proof.
  intros Hc Hp Hq s Hs.
  destruct (Hc s (Hp s Hs)) as (a & s' & Hrun & Ha). eauto.
Qed.

Lemma hoare_get (P : S -> Prop) : hoare (E := E) P get (fun a s => a = s /\ P s).
Proof. intros s Hs. exists s, s. auto. Qed.

Lemma hoare_modify (f : S -> S) (Q : unit -> S -> Prop) :
  hoare (E := E) (fun s => Q tt (f s)) (modify f) Q.
Proof. intros s Hs. exists tt, (f s). auto. Qed.

Lemma hoare_self {A} (P : S -> Prop) (k : S -> PyMonad.M S E A) (Q : A -> S -> Prop) :
  (forall s0, hoare (fun s => s = s0 /\ P s) (k s0) Q) ->
  hoare P (bind get k) Q.
Proof.
  intros Hk. eapply hoare_bind; [apply hoare_get |].
  intros s0. eapply hoare_conseq; [apply (Hk s0) | | auto].
  intros s [-> Hs]. auto.
Qed.

Lemma hoare_forget {A} (s0 : S) (P : S -> Prop) (c : PyMonad.M S E A)
  (Q : A -> S -> Prop) :
  hoare P c Q -> hoare (fun s => s = s0 /\ P s) c Q.
Proof. intros Hc. eapply hoare_conseq; [exact Hc | intros s [_ Hs]; exact Hs | auto]. Qed.

Lemma hoare_drop {A X} (f : S -> X) (x : X) (P : S -> Prop)
  (c : PyMonad.M S E A) (Q : A -> S -> Prop) :
  hoare P c Q -> hoare (fun s => P s /\ f s = x) c Q.
Proof. intros Hc. eapply hoare_conseq; [exact Hc | intros s [Hs _]; exact Hs | auto]. Qed.

(** ** Calls that may raise *)

Lemma hoarex_total {A} (P : S -> Prop) (c : PyMonad.M S E A) (Q : A -> S -> Prop)
  (X : E -> S -> Prop) :
  hoare P c Q -> hoarex P c Q X.
Proof.
  intros Hc s Hs. destruct (Hc s Hs) as (a & s' & Hrun & Ha). rewrite Hrun. exact Ha.
Qed.

Lemma hoarex_raise {A} (P : S -> Prop) (e : E) (Q : A -> S -> Prop)
  (X : E -> S -> Prop) :
  (forall s, P s -> X e s) -> hoarex P (raise e) Q X.
Proof. intros H s Hs. apply H, Hs. Qed.

Lemma hoarex_bind {A B} (P : S -> Prop) (c : PyMonad.M S E A) (R : A -> S -> Prop)
  (k : A -> PyMonad.M S E B) (Q : B -> S -> Prop) (X : E -> S -> Prop) :
  hoarex P c R X -> (forall a, hoarex (R a) (k a) Q X) -> hoarex P (bind c k) Q X.
Proof.
  intros Hc Hk s Hs. specialize (Hc s Hs). unfold bind.
  destruct (c s) as [[a | e |] s']; [apply (Hk a s' Hc) | exact Hc | exact Hc].
Qed.

Lemma hoarex_step {A B} (P : S -> Prop) (c : PyMonad.M S E A) (R : A -> S -> Prop)
  (k : A -> PyMonad.M S E B) (Q : B -> S -> Prop) (X : E -> S -> Prop) :
  hoare P c R -> (forall a, hoarex (R a) (k a) Q X) -> hoarex P (bind c k) Q X.
Proof. intros Hc Hk. eapply hoarex_bind; [apply hoarex_total, Hc | exact Hk]. Qed.

Lemma hoarex_conseq {A} (P P' : S -> Prop) (c : PyMonad.M S E A)
  (Q Q' : A -> S -> Prop) (X X' : E -> S -> Prop) :
  hoarex P' c Q' X' -> (forall s, P s -> P' s) -> (forall a s, Q' a s -> Q a s) ->
  (forall e s, X' e s -> X e s) ->
  hoarex P c Q X.
Proof.
  intros Hc Hp Hq Hx s Hs. specialize (Hc s (Hp s Hs)).
  destruct (c s) as [[a | e |] s']; auto.
Qed.

Lemma hoarex_self {A} (P : S -> Prop) (k : S -> PyMonad.M S E A) (Q : A -> S -> Prop)
  (X : E -> S -> Prop) :
  (forall s0, hoarex (fun s => s = s0 /\ P s) (k s0) Q X) ->
  hoarex P (bind get k) Q X.
Proof. intros Hk s Hs. unfold bind, get. apply (Hk s s). auto. Qed.

Lemma hoarex_pure {A} (P : S -> Prop) (phi : Prop) (c : PyMonad.M S E A)
  (Q : A -> S -> Prop) (X : E -> S -> Prop) :
  (forall s, P s -> phi) -> (phi -> hoarex P c Q X) -> hoarex P c Q X.
Proof. intros Hp Hc s Hs. apply (Hc (Hp s Hs) s Hs). Qed.

End HoareRules.

(** * Two runs side by side *)

Section RelationalRules.

Context {S E : Type}.

Lemma rhoare_ret {A} (P : S -> S -> Prop) (a1 a2 : A) (Q : A -> A -> S -> S -> Prop) :
  (forall s1 s2, P s1 s2 -> Q a1 a2 s1 s2) ->
  rhoare (E := E) P (ret a1) (ret a2) Q.
Proof. intros H s1 s2 Hs. exists a1, a2, s1, s2. auto. Qed.

Lemma rhoare_bind {A B} (P : S -> S -> Prop) (c1 c2 : PyMonad.M S E A)
  (R : A -> A -> S -> S -> Prop) (k1 k2 : A -> PyMonad.M S E B)
  (Q : B -> B -> S -> S -> Prop) :
  rhoare P c1 c2 R ->
  (forall a1 a2, rhoare (R a1 a2) (k1 a1) (k2 a2) Q) ->
  rhoare P (bind c1 k1) (bind c2 k2) Q.
Proof.
  intros Hc Hk s1 s2 Hs.
  destruct (Hc s1 s2 Hs) as (a1 & a2 & t1 & t2 & Hr1 & Hr2 & Ha).
  destruct (Hk a1 a2 t1 t2 Ha) as (b1 & b2 & u1 & u2 & Hq1 & Hq2 & Hb).
  exists b1, b2, u1, u2. unfold bind. rewrite Hr1, Hr2. auto.
Qed.

Lemma rhoare_conseq {A} (P P' : S -> S -> Prop) (c1 c2 : PyMonad.M S E A)
  (Q Q' : A -> A -> S -> S -> Prop) :
  rhoare P' c1 c2 Q' ->
  (forall s1 s2, P s1 s2 -> P' s1 s2) ->
  (forall a1 a2 s1 s2, Q' a1 a2 s1 s2 -> Q a1 a2 s1 s2) ->
  rhoare P c1 c2 Q.
Proof.
  intros Hc Hp Hq s1 s2 Hs.
  destruct (Hc s1 s2 (Hp s1 s2 Hs)) as (a1 & a2 & t1 & t2 & Hr1 & Hr2 & Ha).
  exists a1, a2, t1, t2. auto.
Qed.

Lemma rhoare_get (P : S -> S -> Prop) :
  rhoare (E := E) P get get (fun a1 a2 s1 s2 => a1 = s1 /\ a2 = s2 /\ P s1 s2).
Proof. intros s1 s2 Hs. exists s1, s2, s1, s2. auto. Qed.

(** a fact that the precondition gives can be used for the whole call *)
Lemma rhoare_pure {A} (P : S -> S -> Prop) (phi : Prop) (c1 c2 : PyMonad.M S E A)
  (Q : A -> A -> S -> S -> Prop) :
  (forall s1 s2, P s1 s2 -> phi) -> (phi -> rhoare P c1 c2 Q) -> rhoare P c1 c2 Q.
Proof. intros Hp Hc s1 s2 Hs. apply (Hc (Hp s1 s2 Hs) s1 s2 Hs). Qed.

(** ** Runs that may raise *)

Lemma rhoarex_total {A} (P : S -> S -> Prop) (c1 c2 : PyMonad.M S E A)
  (Q : A -> A -> S -> S -> Prop) (X : E -> S -> S -> Prop) :
  rhoare P c1 c2 Q -> rhoarex P c1 c2 Q X.
Proof.
  intros Hc s1 s2 Hs.
  destruct (Hc s1 s2 Hs) as (a1 & a2 & t1 & t2 & Hr1 & Hr2 & Ha).
  rewrite Hr1, Hr2. exact Ha.
Qed.

Lemma rhoarex_bind {A B} (P : S -> S -> Prop) (c1 c2 : PyMonad.M S E A)
  (R : A -> A -> S -> S -> Prop) (k1 k2 : A -> PyMonad.M S E B)
  (Q : B -> B -> S -> S -> Prop) (X : E -> S -> S -> Prop) :
  rhoarex P c1 c2 R X ->
  (forall a1 a2, rhoarex (R a1 a2) (k1 a1) (k2 a2) Q X) ->
  rhoarex P (bind c1 k1) (bind c2 k2) Q X.
Proof.
  intros Hc Hk s1 s2 Hs. specialize (Hc s1 s2 Hs). unfold bind.
  destruct (c1 s1) as [[a1 | e1 |] t1]; destruct (c2 s2) as [[a2 | e2 |] t2];
    try contradiction; [apply (Hk a1 a2 t1 t2 Hc) | exact Hc].
Qed.

Lemma rhoarex_step {A B} (P : S -> S -> Prop) (c1 c2 : PyMonad.M S E A)
  (R : A -> A -> S -> S -> Prop) (k1 k2 : A -> PyMonad.M S E B)
  (Q : B -> B -> S -> S -> Prop) (X : E -> S -> S -> Prop) :
  rhoare P c1 c2 R ->
  (forall a1 a2, rhoarex (R a1 a2) (k1 a1) (k2 a2) Q X) ->
  rhoarex P (bind c1 k1) (bind c2 k2) Q X.
Proof. intros Hc Hk. eapply rhoarex_bind; [apply rhoarex_total, Hc | exact Hk]. Qed.

Lemma rhoarex_conseq {A} (P P' : S -> S -> Prop) (c1 c2 : PyMonad.M S E A)
  (Q Q' : A -> A -> S -> S -> Prop) (X : E -> S -> S -> Prop) :
  rhoarex P' c1 c2 Q' X ->
  (forall s1 s2, P s1 s2 -> P' s1 s2) ->
  (forall a1 a2 s1 s2, Q' a1 a2 s1 s2 -> Q a1 a2 s1 s2) ->
  rhoarex P c1 c2 Q X.
Proof.
  intros Hc Hp Hq s1 s2 Hs. specialize (Hc s1 s2 (Hp s1 s2 Hs)).
  destruct (c1 s1) as [[a1 | e1 |] t1]; destruct (c2 s2) as [[a2 | e2 |] t2]; auto.
Qed.

End RelationalRules.

(** * What a call never does *)

Section Succeeds.

Context {S E : Type}.

Lemma succeeds_ret {A} (a : A) : succeeds (S := S) (E := E) (ret a).
Proof. intros s. exists a. reflexivity. Qed.

Lemma succeeds_get : succeeds (S := S) (E := E) get.
Proof. intros s. exists s. reflexivity. Qed.

Lemma succeeds_modify (f : S -> S) : succeeds (E := E) (modify f).
Proof. intros s. exists tt. reflexivity. Qed.

Lemma succeeds_bind {A B} (c : PyMonad.M S E A) (k : A -> PyMonad.M S E B) :
  succeeds c -> (forall a, succeeds (k a)) -> succeeds (bind c k).
Proof.
  intros Hc Hk s. unfold bind. destruct (Hc s) as [a Ha].
  destruct (c s) as [[a' | e |] s']; simpl in Ha; try discriminate Ha.
  apply Hk.
Qed.

Lemma succeeds_when (b : bool) (c : PyMonad.M S E unit) :
  succeeds c -> succeeds (when b c).
Proof. intros Hc. destruct b; [exact Hc | apply succeeds_ret]. Qed.

Lemma succeeds_run {A} (c : PyMonad.M S E A) s :
  succeeds c -> exists a s', c s = (Ok a, s').
Proof.
  intros Hc. destruct (Hc s) as [a Ha].
  destruct (c s) as [r s']. simpl in Ha. subst r. eauto.
Qed.

(** ** Exceptions that may come out *)

Variable X : E -> Prop.

Lemma escapes_succeeds {A} (c : PyMonad.M S E A) : succeeds c -> escapes X c.
Proof. intros Hc s. destruct (Hc s) as [a Ha]. rewrite Ha. exact I. Qed.

Lemma escapes_raise {A} (e : E) : X e -> escapes (S := S) (A := A) X (raise e).
Proof. intros He s. exact He. Qed.

Lemma escapes_bind {A B} (c : PyMonad.M S E A) (k : A -> PyMonad.M S E B) :
  escapes X c -> (forall a, escapes X (k a)) -> escapes X (bind c k).
Proof.
  intros Hc Hk s. unfold bind. specialize (Hc s).
  destruct (c s) as [[a | e |] s']; simpl in *; [apply Hk | exact Hc | exact Hc].
Qed.

End Succeeds.

Ltac succeeds_step :=
  first
    [ apply succeeds_ret | apply succeeds_get | apply succeeds_modify
    | apply succeeds_when
    | apply succeeds_bind; [| intros ?]
    | match goal with
      | |- succeeds (if ?b then _ else _) => destruct b
      | |- succeeds (match ?x with _ => _ end) => destruct x
      | |- succeeds (let (_, _) := ?x in _) => destruct x
      end ].

Ltac escapes_step :=
  first
    [ apply escapes_bind; [| intros ?]
    | match goal with
      | |- escapes _ (if ?b then _ else _) => destruct b
      | |- escapes _ (match ?x with _ => _ end) => destruct x
      | |- escapes _ (let (_, _) := ?x in _) => destruct x
      end ].

(** * Attributes that a call leaves alone *)

Section Keeps.

Context {S E X : Type}.
Variable f : S -> X.

Lemma keeps_ret {A} (a : A) : keeps (E := E) f (ret a).
Proof. intros s. reflexivity. Qed.

Lemma keeps_raise {A} (e : E) : keeps (A := A) f (raise e).
Proof. intros s. reflexivity. Qed.

Lemma keeps_get : keeps (E := E) f get.
Proof. intros s. reflexivity. Qed.

Lemma keeps_modify (g : S -> S) :
  (forall s, f (g s) = f s) -> keeps (E := E) f (modify g).
Proof. intros H s. apply H. Qed.

Lemma keeps_bind {A B} (c : PyMonad.M S E A) (k : A -> PyMonad.M S E B) :
  keeps f c -> (forall a, keeps f (k a)) -> keeps f (bind c k).
Proof.
  intros Hc Hk s. unfold bind. specialize (Hc s).
  destruct (c s) as [[a | e |] s']; simpl in *; try exact Hc.
  rewrite (Hk a s'). exact Hc.
Qed.

Lemma keeps_when (b : bool) (c : PyMonad.M S E unit) :
  keeps f c -> keeps f (when b c).
Proof. intros Hc. destruct b; [exact Hc | apply keeps_ret]. Qed.

(** the frame rule: what a call keeps can be added to its triple *)
Lemma hoare_frame {A} (x : X) (P : S -> Prop) (c : PyMonad.M S E A)
  (Q : A -> S -> Prop) :
  hoare P c Q -> keeps f c ->
  hoare (fun s => P s /\ f s = x) c (fun a s => Q a s /\ f s = x).
Proof.
  intros Hc Hk s [Hp Hx].
  destruct (Hc s Hp) as (a & s' & Hrun & Hq).
  exists a, s'. repeat split; try assumption.
  specialize (Hk s). rewrite Hrun in Hk. simpl in Hk. congruence.
Qed.

End Keeps.

Ltac keeps_step :=
  first
    [ apply keeps_ret | apply keeps_raise | apply keeps_get
    | apply keeps_modify;
      intros ?;
      repeat match goal with
             | |- context [match ?x with _ => _ end] => destruct x
             end;
      reflexivity
    | apply keeps_when
    | apply keeps_bind; [| intros ?]
    | match goal with
      | |- keeps _ (if ?b then _ else _) => destruct b
      | |- keeps _ (match ?x with _ => _ end) => destruct x
      | |- keeps _ (let (_, _) := ?x in _) => destruct x
      end ].

(** * States that a call stays in *)

Section Stays.

Context {S E : Type}.
Variable I : S -> Prop.

Lemma stays_ret {A} (a : A) : stays (E := E) I (ret a).
Proof. intros s Hs. exact Hs. Qed.

Lemma stays_raise {A} (e : E) : stays (A := A) I (raise e).
Proof. intros s Hs. exact Hs. Qed.

Lemma stays_get : stays (E := E) I get.
Proof. intros s Hs. exact Hs. Qed.

Lemma stays_modify (g : S -> S) :
  (forall s, I s -> I (g s)) -> stays (E := E) I (modify g).
Proof. intros H s Hs. apply H, Hs. Qed.

Lemma stays_bind {A B} (c : PyMonad.M S E A) (k : A -> PyMonad.M S E B) :
  stays I c -> (forall a, stays I (k a)) -> stays I (bind c k).
Proof.
  intros Hc Hk s Hs. unfold bind. specialize (Hc s Hs).
  destruct (c s) as [[a | e |] s']; simpl in *; try exact Hc.
  apply Hk, Hc.
Qed.

Lemma stays_when (b : bool) (c : PyMonad.M S E unit) :
  stays I c -> stays I (when b c).
Proof. intros Hc. destruct b; [exact Hc | apply stays_ret]. Qed.

End Stays.

(** * Exceptions that come before any change *)

Section RaisesEarly.

Context {S E X0 : Type}.
Variable X : E -> Prop.
Variable f : S -> X0.

Lemma raises_early_succeeds {A} (c : PyMonad.M S E A) :
  succeeds c -> raises_early X f c.
Proof.
  intros Hc s. destruct (succeeds_run c s Hc) as (a & s' & Hrun).
  rewrite Hrun. exact I.
Qed.

Lemma raises_early_raise {A} (e : E) : X e -> raises_early (A := A) X f (raise e).
Proof. intros He s. split; [exact He | reflexivity]. Qed.

(** after a step that returns and keeps [f] *)
Lemma raises_early_after {A B} (c : PyMonad.M S E A) (k : A -> PyMonad.M S E B) :
  succeeds c -> keeps f c -> (forall a, raises_early X f (k a)) ->
  raises_early X f (bind c k).
Proof.
  intros Hc Hf Hk s. unfold bind.
  destruct (succeeds_run c s Hc) as (a & s' & Hrun).
  specialize (Hf s). rewrite Hrun in *. simpl in Hf.
  specialize (Hk a s'). destruct (k a s') as [[b | e |] s'']; auto.
  rewrite <- Hf. exact Hk.
Qed.

(** before steps that return *)
Lemma raises_early_before {A B} (c : PyMonad.M S E A) (k : A -> PyMonad.M S E B) :
  raises_early X f c -> (forall a, succeeds (k a)) ->
  raises_early X f (bind c k).
Proof.
  intros Hc Hk s. unfold bind. specialize (Hc s).
  destruct (c s) as [[a | e |] s']; [| exact Hc | exact Hc].
  destruct (succeeds_run (k a) s' (Hk a)) as (b & s'' & Hrun).
  rewrite Hrun. exact I.
Qed.

End RaisesEarly.

(** * Two calls that do the same *)

Section Agree.

Context {S E : Type}.
Variable I : S -> Prop.

Lemma agree_bind {A B} (c1 c2 : PyMonad.M S E A) (k1 k2 : A -> PyMonad.M S E B) :
  agree I c1 c2 -> (forall a, agree I (k1 a) (k2 a)) ->
  agree I (bind c1 k1) (bind c2 k2).
Proof.
  intros Hc Hk s Hs. unfold bind.
  destruct (Hc s Hs) as [Heq Hi]. rewrite <- Heq.
  destruct (c1 s) as [[a | e |] s']; simpl in *;
    [apply Hk; exact Hi | split; [reflexivity | exact Hi] ..].
Qed.

Lemma agree_same {A} (c : PyMonad.M S E A) :
  (forall s, I s -> I (snd (c s))) -> agree I c c.
Proof. intros H s Hs. split; [reflexivity | apply H, Hs]. Qed.

End Agree.

(** * Strings, lines and the header section *)

Lemma append_nil_r (s : string) : s ++ "" = s.
Proof. induction s as [| c s IH]; simpl; [reflexivity | now rewrite IH]. Qed.

Lemma append_assoc (a b c : string) : (a ++ b) ++ c = a ++ (b ++ c).
Proof. induction a as [| x a IH]; simpl; [reflexivity | now rewrite IH]. Qed.

Lemma no_cr_app (a b : string) : no_cr (a ++ b) = no_cr a && no_cr b.
Proof.
  induction a as [| c a IH]; simpl; [reflexivity |].
  rewrite IH. apply andb_assoc.
Qed.

Lemma no_cr_uint (d : Decimal.uint) : no_cr (NilEmpty.string_of_uint d) = true.
Proof. induction d; simpl; auto. Qed.

(** [str(n)] is a string of digits *)
Lemma no_cr_str (n : nat) : no_cr (str n) = true.
Proof.
  unfold str, NilZero.string_of_uint.
  destruct (Nat.to_uint n); try reflexivity; apply no_cr_uint.
Qed.

(** no phrase of [http.HTTPStatus] has a line end in it *)
Lemma responses_clean code short long :
  responses code = Some (short, long) -> no_cr short = true.
Proof.
  unfold responses. intros H.
  destruct (find (fun row => (fst row =? code)%nat) HTTPStatus) as [row |] eqn:Hf;
    [| discriminate H].
  injection H as H. apply find_some in Hf. destruct Hf as [Hin _].
  assert (Hall : forallb (fun row => no_cr (fst (snd row))) HTTPStatus = true)
    by (vm_compute; reflexivity).
  rewrite forallb_forall in Hall. specialize (Hall row Hin).
  rewrite H in Hall. exact Hall.
Qed.

Lemma reason_clean code message :
  match message with Some m => no_cr m = true | None => True end ->
  no_cr (reason code message) = true.
Proof.
  unfold reason. destruct message as [m |]; [auto | intros _].
  destruct (responses code) as [[short long] |] eqn:Hr; [| reflexivity].
  apply (responses_clean _ _ _ Hr).
Qed.

(** the phrase that [send_error] uses where it is given none *)
Lemma shortmsg_clean code :
  no_cr (fst (match responses code with Some r => r | None => ("???", "???") end)) = true.
Proof.
  destruct (responses code) as [[short long] |] eqn:Hr; [| reflexivity].
  apply (responses_clean _ _ _ Hr).
Qed.

(** ** The words of a request line *)

Lemma isspace_CR c : isspace c = false -> Ascii.eqb c CR = false.
Proof.
  destruct c as [[] [] [] [] [] [] [] []]; vm_compute; congruence.
Qed.

Lemma split_from_clean s : forall word,
  no_cr word = true -> Forall (fun w => no_cr w = true) (split_from s word).
Proof.
  induction s as [| c s IH]; intros word Hw; simpl.
  - destruct (word =? ""); auto.
  - destruct (isspace c) eqn:Hc.
    + destruct (word =? ""); [apply IH; reflexivity |].
      constructor; [exact Hw | apply IH; reflexivity].
    + apply IH. rewrite no_cr_app, Hw. simpl.
      rewrite (isspace_CR c Hc). reflexivity.
Qed.

(** a word of [s.split()] has no white space in it, hence no line end *)
Lemma split_clean s : Forall (fun w => no_cr w = true) (split s).
Proof. apply split_from_clean. reflexivity. Qed.

Lemma nth_clean (l : list string) n :
  Forall (fun w => no_cr w = true) l -> no_cr (nth n l "") = true.
Proof.
  intros H. revert n.
  induction H as [| x l Hx Hl IH]; intros [| n]; simpl; auto.
Qed.

Lemma lstrip_slash_clean s : no_cr s = true -> no_cr (lstrip_slash s) = true.
Proof.
  induction s as [| c s IH]; simpl; [auto |].
  intros H. destruct (Ascii.eqb c "/"); [| exact H].
  apply andb_true_iff in H. apply IH, H.
Qed.

(** ** A response read line by line *)

Lemma join_cons (x : string) (xs : list string) : join (x :: xs) = x ++ join xs.
Proof.
  unfold join. destruct xs as [| y ys]; simpl; [now rewrite append_nil_r | reflexivity].
Qed.

Lemma join_app (l1 l2 : list string) : join (l1 ++ l2) = join l1 ++ join l2.
Proof.
  induction l1 as [| x l1 IH]; [reflexivity |].
  change ((x :: l1) ++ l2)%list with (x :: (l1 ++ l2))%list.
  rewrite !join_cons, IH, append_assoc. reflexivity.
Qed.

(** a line without carriage return is read back as it was written *)
Lemma split_crlf_line l : forall rest acc,
  no_cr l = true ->
  split_crlf (l ++ CRLF ++ rest) acc = (acc ++ l) :: split_crlf rest "".
Proof.
  induction l as [| c l IH]; intros rest acc Hl.
  - simpl. rewrite append_nil_r. reflexivity.
  - simpl in Hl. apply andb_true_iff in Hl. destruct Hl as [Hc Hl].
    apply negb_true_iff in Hc.
    change (String c l ++ CRLF ++ rest) with (String c (l ++ CRLF ++ rest)).
    assert (Hstep : split_crlf (String c (l ++ CRLF ++ rest)) acc =
                    split_crlf (l ++ CRLF ++ rest) (acc ++ String c "")).
    { destruct l as [| d l']; simpl; rewrite Hc; reflexivity. }
    rewrite Hstep, (IH rest _ Hl), append_assoc. reflexivity.
Qed.

Lemma header_line_text kv : header_line kv = header_text kv ++ CRLF.
Proof. unfold header_line, header_text. rewrite !append_assoc. reflexivity. Qed.

Lemma header_text_clean kv : clean_header kv = true -> no_cr (header_text kv) = true.
Proof.
  unfold clean_header, header_text. intros H. apply andb_true_iff in H.
  destruct H as [Hk Hv]. rewrite !no_cr_app, Hk, Hv. reflexivity.
Qed.

Lemma split_crlf_headers hs : forall rest,
  forallb clean_header hs = true ->
  split_crlf (join (map header_line hs) ++ rest) "" =
  (map header_text hs ++ split_crlf rest "")%list.
Proof.
  induction hs as [| kv hs IH]; intros rest H; [reflexivity |].
  simpl in H. apply andb_true_iff in H. destruct H as [Hkv Hhs].
  cbn [map]. rewrite join_cons, header_line_text, !append_assoc.
  rewrite (split_crlf_line _ _ "" (header_text_clean kv Hkv)).
  change ("" ++ header_text kv) with (header_text kv).
  cbn [app]. f_equal. apply IH, Hhs.
Qed.

Lemma header_text_not_empty kv : (header_text kv =? "") = false.
Proof. unfold header_text. destruct (fst kv); reflexivity. Qed.

Lemma until_blank_headers hs rest :
  until_blank (map header_text hs ++ "" :: rest) = map header_text hs.
Proof.
  induction hs as [| kv hs IH]; [reflexivity |].
  simpl. rewrite header_text_not_empty, IH. reflexivity.
Qed.

Lemma status_line_text code message :
  status_line code message = status_text code message ++ CRLF.
Proof. unfold status_line, status_text. rewrite !append_assoc. reflexivity. Qed.

Lemma status_text_clean code message :
  no_cr message = true -> no_cr (status_text code message) = true.
Proof.
  intros H. unfold status_text. rewrite !no_cr_app, no_cr_str, H. reflexivity.
Qed.

(** a client that reads a response with a clean status line and clean
    headers finds these headers, all of them and nothing else, between
    the status line and the blank line *)
Lemma split_crlf_wire code message hs body :
  clean message hs ->
  split_crlf (wire code message hs body) "" =
  (status_text code message :: map header_text hs ++ "" :: split_crlf body "")%list.
Proof.
  intros [Hm Hhs]. unfold wire.
  rewrite join_cons, join_app, status_line_text, !append_assoc.
  rewrite (split_crlf_line _ _ "" (status_text_clean code message Hm)).
  change ("" ++ status_text code message) with (status_text code message). f_equal.
  rewrite (split_crlf_headers hs _ Hhs). reflexivity.
Qed.

Lemma header_lines_wire code message hs body :
  clean message hs ->
  header_lines (wire code message hs body) = map header_text hs.
Proof.
  intros H. unfold header_lines. rewrite (split_crlf_wire _ _ _ _ H).
  apply until_blank_headers.
Qed.

Lemma clean_app message hs hs' :
  clean message hs -> forallb clean_header hs' = true -> clean message (hs ++ hs').
Proof.
  intros [Hm Hhs] H'. split; [exact Hm |]. rewrite forallb_app, Hhs, H'. reflexivity.
Qed.

Lemma clean_snoc message hs keyword value :
  clean message hs -> no_cr keyword = true -> no_cr value = true ->
  clean message (hs ++ [(keyword, value)]).
Proof.
  intros H Hk Hv. apply clean_app; [exact H |].
  simpl. unfold clean_header. simpl. rewrite Hk, Hv. reflexivity.
Qed.

Lemma clean_cors message hs : clean message hs -> clean message (hs ++ cors_headers).
Proof. intros H. apply clean_app; [exact H | reflexivity]. Qed.

(** a response with clean headers that end with the CORS headers carries
    them in its header section *)
Lemma cors_response_carries code message hs body :
  clean message hs -> carries_cors (wire code message (hs ++ cors_headers) body).
Proof.
  intros H l Hl. rewrite (header_lines_wire _ _ _ _ (clean_cors _ _ H)).
  rewrite map_app. apply in_or_app. right. exact Hl.
Qed.

(** * The header buffer of one response *)

Ltac run_step :=
  unfold send_header, send_response_only, headers_buffer_append, log_request,
    log_error, log_message, fs_call, wfile_write, flush_headers,
    HttpServer.end_headers, when, bind, get, modify, ret in *;
  simpl in *.

Lemma map_header_line_snoc hs k v :
  (map header_line hs ++ [(k ++ ": " ++ v ++ CRLF)%string])%list = map header_line (hs ++ [(k, v)]).
Proof. rewrite map_app. reflexivity. Qed.

Lemma log_message_Fresh e :
  hoare Fresh (log_message e) (fun _ => Fresh).
Proof.
  intros h (Hv & Hw & Hb). exists tt. eexists. split; [reflexivity |].
  repeat split; assumption.
Qed.

Lemma fs_call_Fresh op :
  hoare Fresh (fs_call op) (fun _ => Fresh).
Proof.
  intros h (Hv & Hw & Hb). exists tt. eexists. split; [reflexivity |].
  repeat split; assumption.
Qed.

(** the reason phrase that [send_response_only] writes *)
Lemma send_response_only_Fresh code message :
  no_cr (reason code message) = true ->
  hoare Fresh (send_response_only code message)
    (fun _ => Building code (reason code message) []).
Proof.
  intros Hm h (Hv & Hw & Hb). unfold http1 in Hv.
  unfold send_response_only, bind, get, when. rewrite Hv.
  fold (reason code message).
  unfold headers_buffer_append, modify. cbn [negb].
  exists tt.
  destruct Hb as [Hb | Hb]; rewrite Hb;
    (eexists; split; [reflexivity |]);
    unfold Building, http1, clean; cbn [request_version wfile _headers_buffer
      set_headers_buffer map forallb];
    repeat split; auto.
Qed.

Lemma send_header_Building code message hs keyword value :
  no_cr keyword = true -> no_cr value = true ->
  hoare (Building code message hs) (send_header keyword value)
    (fun _ => Building code message (hs ++ [(keyword, value)])).
Proof.
  intros Hk Hval h (Hv & Hw & Hb & Hc). unfold http1 in Hv.
  run_step. rewrite Hv. simpl. rewrite Hb. simpl.
  exists tt.
  destruct (lower keyword =? "connection");
    [destruct (lower value =? "close"); [| destruct (lower value =? "keep-alive")] |];
    (eexists; split; [reflexivity |]);
    unfold Building, http1; simpl;
    rewrite <- map_header_line_snoc;
    (split; [exact Hv | split; [exact Hw | split; [reflexivity |]]]);
    apply clean_snoc; assumption.
Qed.

Lemma base_end_headers_run h b :
  http1 h -> _headers_buffer h = Some b ->
  HttpServer.end_headers h =
    (Ok tt, set_headers_buffer (Some [])
              (set_wfile (wfile h ++ join (b ++ [CRLF]))
                 (set_headers_buffer (Some (b ++ [CRLF])%list) h))).
Proof.
  unfold http1. intros Hv Hb.
  unfold HttpServer.end_headers, bind, get. rewrite Hv. simpl.
  rewrite Hb. unfold headers_buffer_append, modify. rewrite Hb.
  unfold flush_headers, bind, get. simpl. reflexivity.
Qed.

Lemma send_header_run h b keyword value :
  http1 h -> _headers_buffer h = Some b ->
  (lower keyword =? "connection") = false ->
  send_header keyword value h =
    (Ok tt, set_headers_buffer (Some (b ++ [(keyword ++ ": " ++ value ++ CRLF)%string])%list) h).
Proof.
  unfold http1. intros Hv Hb Hk.
  unfold send_header, bind, get, when. rewrite Hv, Hk. simpl.
  unfold headers_buffer_append, modify. rewrite Hb. reflexivity.
Qed.

Lemma send_header_creates_buffer h keyword value :
  http1 h -> _headers_buffer h = None ->
  (lower keyword =? "connection") = false ->
  send_header keyword value h =
    (Ok tt, set_headers_buffer (Some [(keyword ++ ": " ++ value ++ CRLF)%string]) h).
Proof.
  unfold http1. intros Hv Hb Hk.
  unfold send_header, bind, get, when. rewrite Hv, Hk. simpl.
  unfold headers_buffer_append, modify. rewrite Hb. reflexivity.
Qed.

(** the script's [end_headers] as one state change: the three lines and
    the blank line join the buffer, and the buffer goes out *)
Lemma cors_end_headers_run h b :
  http1 h -> _headers_buffer h = Some b ->
  Script.end_headers h =
    (Ok tt, set_headers_buffer (Some [])
              (set_wfile (wfile h ++ join (b ++ cors_lines ++ [CRLF]))
                 (set_headers_buffer (Some (b ++ cors_lines ++ [CRLF])%list) h))).
Proof.
  intros Hv Hb. unfold Script.end_headers, bind.
  erewrite send_header_run; [| exact Hv | exact Hb | reflexivity].
  erewrite send_header_run; [| exact Hv | reflexivity | reflexivity].
  erewrite send_header_run; [| exact Hv | reflexivity | reflexivity].
  erewrite base_end_headers_run; [| exact Hv | reflexivity].
  unfold set_headers_buffer, set_wfile. simpl.
  repeat rewrite <- app_assoc. reflexivity.
Qed.

Lemma end_headers_Building code message hs :
  hoare (Building code message hs) Script.end_headers
    (fun _ => Sent code message hs "").
Proof.
  intros h (Hv & Hw & Hb & Hc).
  exists tt. eexists. split; [apply (cors_end_headers_run h _ Hv Hb) |].
  unfold Sent, http1, wire. simpl. rewrite Hw.
  repeat split; auto; try apply Hc.
  rewrite append_nil_r, map_app. repeat rewrite <- app_assoc. reflexivity.
Qed.

Lemma wfile_write_Sent code message hs body b :
  hoare (Sent code message hs body) (wfile_write b)
    (fun _ => Sent code message hs (body ++ b)).
Proof.
  intros h (Hv & Hb & Hw & Hc). exists tt. eexists. split; [reflexivity |].
  unfold Sent, http1, wire in *. simpl. rewrite Hw, append_assoc. auto.
Qed.

Section Clean.

Variable env : Env.
Hypothesis Henv : env_clean env.

Lemma version_string_clean : no_cr (version_string env) = true.
Proof. apply Henv. Qed.

Lemma date_time_string_clean t : no_cr (date_time_string env t) = true.
Proof. apply Henv. Qed.

Lemma guess_type_clean p : no_cr (guess_type env p) = true.
Proof. apply Henv. Qed.

Lemma redirect_url_clean p : no_cr p = true -> no_cr (redirect_url env p) = true.
Proof. apply Henv. Qed.

Lemma py_repr_clean s : no_cr (py_repr env s) = true.
Proof. apply Henv. Qed.

Lemma getfilesystemencoding_clean : no_cr (getfilesystemencoding env) = true.
Proof. apply Henv. Qed.

Lemma send_response_Fresh code message :
  no_cr (reason code message) = true ->
  hoare Fresh (send_response env code message)
    (fun _ => Building code (reason code message)
                [("Server", version_string env); ("Date", date_time_string env None)]).
Proof.
  intros Hm. unfold send_response.
  eapply hoare_bind; [apply log_message_Fresh | intros []].
  eapply hoare_bind; [apply send_response_only_Fresh, Hm | intros []].
  eapply hoare_bind;
    [apply send_header_Building; [reflexivity | apply version_string_clean] | intros []].
  apply send_header_Building; [reflexivity | apply date_time_string_clean].
Qed.

(** [send_response] with the phrase of the table *)
Lemma send_response_table code :
  hoare Fresh (send_response env code None)
    (fun _ => Building code (reason code None)
                [("Server", version_string env); ("Date", date_time_string env None)]).
Proof. apply send_response_Fresh, reason_clean. exact I. Qed.

Lemma send_error_Fresh code message explain :
  match message with Some m => no_cr m = true | None => True end ->
  hoare Fresh (send_error env Script.end_headers code message explain)
    (fun _ => Done code).
Proof.
  intros Hm. unfold send_error.
  pose proof (shortmsg_clean code) as Hshort.
  destruct (match responses code with Some r => r | None => ("???", "???") end)
    as [shortmsg longmsg].
  simpl in Hshort.
  assert (Hclean : no_cr (match message with Some m => m | None => shortmsg end) = true)
    by (destruct message; assumption).
  eapply hoare_bind; [apply log_message_Fresh | intros []].
  eapply hoare_bind; [apply (send_response_Fresh code (Some _)), Hclean | intros []].
  eapply hoare_bind; [apply send_header_Building; reflexivity | intros []].
  match goal with
  | |- context [if ?c then Some ?b else None] => destruct c
  end.
  - eapply hoare_bind.
    { eapply hoare_bind; [apply send_header_Building; reflexivity | intros []].
      apply send_header_Building; [reflexivity | apply no_cr_str]. }
    intros [].
    eapply hoare_bind; [apply end_headers_Building | intros []].
    apply hoare_self. intros self.
    match goal with |- context [when ?c _] => destruct c end; simpl.
    + eapply hoare_conseq; [apply wfile_write_Sent | intros s [_ Hs]; exact Hs |].
      intros [] s Hs. do 3 eexists. exact Hs.
    + apply hoare_ret. intros s [_ Hs]. do 3 eexists. exact Hs.
  - eapply hoare_bind with (R := fun _ => Building code _ _);
      [apply hoare_ret; intros s Hs; exact Hs | intros []].
    eapply hoare_bind; [apply end_headers_Building | intros []].
    apply hoare_self. intros self.
    apply hoare_ret. intros s [_ Hs]. do 3 eexists. exact Hs.
Qed.

End Clean.

(** * The inherited methods under the two [end_headers]

    Each inherited method is run twice from the same state: once with
    [BaseHTTPRequestHandler.end_headers] as [self.end_headers] (a plain
    SimpleHTTPRequestHandler) and once with the script's override.  Up to
    the call of [end_headers] the two runs are in the same state; after it
    they differ by the three CORS headers on the wire.  Where [open]
    raises [ValueError], both runs raise it in the same state. *)

Lemma rhoare_same {A} (P : Handler -> Prop) (c : HttpServer.M A)
  (R : A -> Handler -> Prop) (Q : A -> A -> Handler -> Handler -> Prop) :
  hoare P c R ->
  (forall a h, R a h -> Q a a h h) ->
  rhoare (Both P) c c Q.
Proof.
  intros Hc Hq h1 h2 [<- Hp].
  destruct (Hc h1 Hp) as (a & h' & Hrun & Ha).
  exists a, a, h', h'. auto.
Qed.

Lemma rhoare_step {A B} (P : Handler -> Prop) (c : HttpServer.M A)
  (R : A -> Handler -> Prop) (k1 k2 : A -> HttpServer.M B)
  (Q : B -> B -> Handler -> Handler -> Prop) :
  hoare P c R ->
  (forall a, rhoare (Both (R a)) (k1 a) (k2 a) Q) ->
  rhoare (Both P) (bind c k1) (bind c k2) Q.
Proof.
  intros Hc Hk.
  eapply rhoare_bind with (R := fun a1 a2 h1 h2 => a1 = a2 /\ Both (R a1) h1 h2).
  - eapply rhoare_same; [exact Hc |]. intros a h Ha. split; [reflexivity |].
    split; [reflexivity | exact Ha].
  - intros a1 a2 h1 h2 [<- Hb]. apply (Hk a1 h1 h2 Hb).
Qed.

Lemma rhoare_self {B} (P : Handler -> Prop) (k1 k2 : Handler -> HttpServer.M B)
  (Q : B -> B -> Handler -> Handler -> Prop) :
  (forall self, rhoare (Both (fun h => self = h /\ P h)) (k1 self) (k2 self) Q) ->
  rhoare (Both P) (bind get k1) (bind get k2) Q.
Proof.
  intros Hk. eapply rhoare_step; [apply hoare_get | exact Hk].
Qed.

Lemma rhoare_forget {B} (P : Handler -> Prop) (self : Handler)
  (c1 c2 : HttpServer.M B) (Q : B -> B -> Handler -> Handler -> Prop) :
  rhoare (Both P) c1 c2 Q ->
  rhoare (Both (fun h => self = h /\ P h)) c1 c2 Q.
Proof.
  intros Hc. eapply rhoare_conseq; [exact Hc | | auto].
  intros h1 h2 [He [_ Hp]]. split; assumption.
Qed.

(** the same steps where the rest may raise *)
Lemma rhoarex_both {A B} (P : Handler -> Prop) (c : HttpServer.M A)
  (R : A -> Handler -> Prop) (k1 k2 : A -> HttpServer.M B)
  (Q : B -> B -> Handler -> Handler -> Prop) (X : Exn -> Handler -> Handler -> Prop) :
  hoare P c R ->
  (forall a, rhoarex (Both (R a)) (k1 a) (k2 a) Q X) ->
  rhoarex (Both P) (bind c k1) (bind c k2) Q X.
Proof.
  intros Hc Hk.
  eapply rhoarex_step with (R := fun a1 a2 h1 h2 => a1 = a2 /\ Both (R a1) h1 h2).
  - eapply rhoare_same; [exact Hc |]. intros a h Ha. split; [reflexivity |].
    split; [reflexivity | exact Ha].
  - intros a1 a2 h1 h2 [<- Hb]. apply (Hk a1 h1 h2 Hb).
Qed.

Lemma rhoarex_self {B} (P : Handler -> Prop) (k1 k2 : Handler -> HttpServer.M B)
  (Q : B -> B -> Handler -> Handler -> Prop) (X : Exn -> Handler -> Handler -> Prop) :
  (forall self, rhoarex (Both (fun h => self = h /\ P h)) (k1 self) (k2 self) Q X) ->
  rhoarex (Both P) (bind get k1) (bind get k2) Q X.
Proof.
  intros Hk. eapply rhoarex_both; [apply hoare_get | exact Hk].
Qed.

Lemma end_headers_pair code message hs :
  rhoare (Both (Building code message hs)) HttpServer.end_headers Script.end_headers
    (fun _ _ => Decorated code message hs "").
Proof.
  intros h1 h2 [<- (Hv & Hw & Hbuf & Hc)].
  exists tt, tt. eexists. eexists.
  split; [apply (base_end_headers_run h1 _ Hv Hbuf) |].
  split; [apply (cors_end_headers_run h1 _ Hv Hbuf) |].
  unfold Decorated, http1, wire. simpl. rewrite Hw, !append_nil_r.
  repeat split; auto; try apply Hc.
  rewrite map_app. repeat rewrite <- app_assoc. reflexivity.
Qed.

Lemma wfile_write_pair code message hs body b :
  rhoare (Decorated code message hs body) (wfile_write b) (wfile_write b)
    (fun _ _ => Decorated code message hs (body ++ b)).
Proof.
  intros h1 h2 (He & Hv & Hb & Hw1 & Hw2 & Hc).
  exists tt, tt. eexists. eexists.
  split; [reflexivity |]. split; [reflexivity |].
  unfold Decorated, http1, wire in *. simpl.
  rewrite Hw1, Hw2, !append_assoc. repeat split; auto; apply Hc.
Qed.

Lemma fs_call_pair code message hs body op :
  rhoare (Decorated code message hs body) (fs_call op) (fs_call op)
    (fun _ _ => Decorated code message hs body).
Proof.
  intros h1 h2 (He & Hv & Hb & Hw1 & Hw2 & Hc).
  exists tt, tt. eexists. eexists.
  split; [reflexivity |]. split; [reflexivity |].
  unfold Decorated, http1 in *. simpl. repeat split; auto; try apply Hc.
  assert (Hfs : fs_log h1 = fs_log h2) by (apply (f_equal fs_log) in He; exact He).
  unfold set_wfile, set_fs_log in *. simpl. rewrite Hfs.
  inversion He. reflexivity.
Qed.

Lemma Decorated_command code message hs body h1 h2 :
  Decorated code message hs body h1 h2 -> command h1 = command h2.
Proof. intros (He & _). apply (f_equal command) in He. exact He. Qed.

Section Paths.

Variable env : Env.
Variable fs : FS.
Hypothesis Henv : env_clean env.

Let simple_end := HttpServer.end_headers.
Let cors_end := Script.end_headers.

Lemma os_path_isdir_Fresh p :
  hoare Fresh (os_path_isdir fs p) (fun _ => Fresh).
Proof.
  unfold os_path_isdir.
  eapply hoare_bind; [apply fs_call_Fresh | intros []].
  apply hoare_ret. auto.
Qed.

Lemma os_path_isfile_Fresh p :
  hoare Fresh (os_path_isfile fs p) (fun _ => Fresh).
Proof.
  unfold os_path_isfile.
  eapply hoare_bind; [apply fs_call_Fresh | intros []].
  apply hoare_ret. auto.
Qed.

Lemma os_path_islink_Fresh p :
  hoare Fresh (os_path_islink fs p) (fun _ => Fresh).
Proof.
  unfold os_path_islink.
  eapply hoare_bind; [apply fs_call_Fresh | intros []].
  apply hoare_ret. auto.
Qed.

Lemma list_entries_Fresh path names :
  hoare Fresh (list_entries fs path names) (fun _ => Fresh).
Proof.
  induction names as [| name rest IH]; simpl.
  - apply hoare_ret. auto.
  - eapply hoare_bind; [apply os_path_isdir_Fresh | intros d].
    eapply hoare_bind; [apply os_path_islink_Fresh | intros l].
    eapply hoare_bind; [apply IH | intros r].
    apply hoare_ret. auto.
Qed.

Lemma find_index_Fresh path indexes :
  hoare Fresh (find_index fs path indexes) (fun _ => Fresh).
Proof.
  induction indexes as [| index rest IH]; simpl.
  - apply hoare_ret. auto.
  - eapply hoare_bind; [apply os_path_isfile_Fresh | intros b].
    destruct b; [apply hoare_ret; auto | apply IH].
Qed.

Lemma Decorated_answered {A} (a : A) code message hs body h1 h2 :
  Decorated code message hs body h1 h2 -> answered a a h1 h2.
Proof. intros H. split; [reflexivity |]. exists code, message, hs, body. exact H. Qed.

Lemma send_error_pair code message explain :
  match message with Some m => no_cr m = true | None => True end ->
  rhoare (Both Fresh) (send_error env simple_end code message explain)
    (send_error env cors_end code message explain)
    (fun _ _ h1 h2 => exists m hs body, Decorated code m hs body h1 h2).
Proof.
  intros Hm. unfold send_error.
  pose proof (shortmsg_clean code) as Hshort.
  destruct (match responses code with Some r => r | None => ("???", "???") end)
    as [shortmsg longmsg].
  simpl in Hshort.
  assert (Hclean : no_cr (match message with Some m => m | None => shortmsg end) = true)
    by (destruct message; assumption).
  eapply rhoare_step; [apply log_message_Fresh | intros []].
  eapply rhoare_step;
    [apply (send_response_Fresh env Henv code (Some _)), Hclean | intros []].
  eapply rhoare_step; [apply send_header_Building; reflexivity | intros []].
  match goal with
  | |- context [if ?c then Some ?b else None] => destruct c
  end.
  - eapply rhoare_step.
    { eapply hoare_bind; [apply send_header_Building; reflexivity | intros []].
      apply send_header_Building; [reflexivity | apply no_cr_str]. }
    intros [].
    eapply rhoare_bind; [apply end_headers_pair | intros [] []].
    eapply rhoare_bind; [apply rhoare_get |].
    intros s1 s2 h1 h2 (-> & -> & Hd).
    pose proof (Decorated_command _ _ _ _ _ _ Hd) as Hc. rewrite <- Hc.
    match goal with |- context [when ?c _] => destruct c end; unfold when.
    + edestruct wfile_write_pair as ([] & [] & t1 & t2 & Hr1 & Hr2 & Ht);
        [exact Hd |].
      exists tt, tt, t1, t2.
      split; [exact Hr1 |]. split; [exact Hr2 |]. do 3 eexists. exact Ht.
    + exists tt, tt, h1, h2. repeat split; auto. do 3 eexists. exact Hd.
  - eapply rhoare_step with (R := fun _ => Building code _ _);
      [apply hoare_ret; intros s Hs; exact Hs | intros []].
    eapply rhoare_bind; [apply end_headers_pair | intros [] []].
    eapply rhoare_bind; [apply rhoare_get |].
    intros s1 s2 h1 h2 (-> & -> & Hd).
    exists tt, tt, h1, h2. repeat split; auto. do 3 eexists. exact Hd.
Qed.

Lemma send_error_answered code message explain (r : option FileObj) :
  match message with Some m => no_cr m = true | None => True end ->
  rhoare (Both Fresh) (send_error env simple_end code message explain ;; ret r)
    (send_error env cors_end code message explain ;; ret r) answered.
Proof.
  intros Hm.
  eapply rhoare_bind; [apply send_error_pair, Hm | intros [] []].
  apply rhoare_ret. intros h1 h2 (m & hs & body & Hd).
  eapply Decorated_answered. exact Hd.
Qed.

(** the tail common to the paths that send a response themselves *)
Lemma end_headers_answered code message hs (r : option FileObj) :
  rhoare (Both (Building code message hs)) (simple_end ;; ret r) (cors_end ;; ret r)
    answered.
Proof.
  eapply rhoare_bind; [apply end_headers_pair | intros [] []].
  apply rhoare_ret. intros h1 h2 Hd. eapply Decorated_answered. exact Hd.
Qed.

Lemma list_directory_pair path :
  rhoare (Both Fresh) (list_directory env fs simple_end path)
    (list_directory env fs cors_end path) answered.
Proof.
  unfold list_directory.
  eapply rhoare_step; [apply fs_call_Fresh | intros []].
  destruct (os_listdir fs path) as [names |];
    [| apply send_error_answered; reflexivity].
  apply rhoare_self. intros self. apply rhoare_forget.
  eapply rhoare_step; [apply list_entries_Fresh | intros entries].
  eapply rhoare_step; [apply send_response_table, Henv | intros []].
  eapply rhoare_step; [apply send_header_Building; [reflexivity |] | intros []].
  { rewrite no_cr_app. apply getfilesystemencoding_clean, Henv. }
  eapply rhoare_step;
    [apply send_header_Building; [reflexivity | apply no_cr_str] | intros []].
  apply end_headers_answered.
Qed.

Lemma send_head_file_pair path :
  rhoarex (Both Fresh) (send_head_file env fs simple_end path)
    (send_head_file env fs cors_end path) answered Unopened.
Proof.
  unfold send_head_file.
  destruct (endswith path "/");
    [apply rhoarex_total, send_error_answered; reflexivity |].
  eapply rhoarex_both; [apply fs_call_Fresh | intros []].
  destruct (os_open fs path) as [f | |].
  - apply rhoarex_total.
    eapply rhoare_step; [apply fs_call_Fresh | intros []].
    apply rhoare_self. intros self. apply rhoare_forget.
    destruct (not_modified env (headers self) (st_mtime f)).
    + eapply rhoare_step; [apply send_response_table, Henv | intros []].
      apply end_headers_answered.
    + eapply rhoare_step; [apply send_response_table, Henv | intros []].
      eapply rhoare_step;
        [apply send_header_Building; [reflexivity | apply guess_type_clean, Henv]
        | intros []].
      eapply rhoare_step;
        [apply send_header_Building; [reflexivity | apply no_cr_str] | intros []].
      eapply rhoare_step;
        [apply send_header_Building; [reflexivity | apply date_time_string_clean, Henv]
        | intros []].
      apply end_headers_answered.
  - apply rhoarex_total, send_error_answered. reflexivity.
  - intros h1 h2 [<- (Hv & Hw & Hb)]. simpl. repeat split; auto.
Qed.

Lemma send_head_pair :
  rhoarex (Both Ready) (send_head env fs simple_end) (send_head env fs cors_end)
    answered Unopened.
Proof.
  unfold send_head.
  apply rhoarex_self. intros self.
  eapply rhoarex_both with (R := fun _ h => Fresh h /\ no_cr (path self) = true).
  { intros h [-> [Hf Hp]].
    destruct (os_path_isdir_Fresh (translate_path env (path h)) h Hf)
      as (d & h' & Hrun & Hf').
    exists d, h'. auto. }
  intros d.
  assert (Hweak : forall h1 h2,
             Both (fun h => Fresh h /\ no_cr (path self) = true) h1 h2 ->
             Both Fresh h1 h2)
    by (intros h1 h2 [He [Hf _]]; split; assumption).
  destruct d;
    [| eapply rhoarex_conseq with (Q' := answered);
       [apply send_head_file_pair | exact Hweak | auto]].
  destruct (negb (endswith (urlsplit_path env (path self)) "/")).
  - apply rhoarex_total.
    apply rhoare_pure with (phi := no_cr (path self) = true);
      [intros h1 h2 [_ [_ Hp]]; exact Hp | intros Hp].
    eapply rhoare_conseq with (P' := Both Fresh) (Q' := answered);
      [| exact Hweak | auto].
    eapply rhoare_step; [apply send_response_table, Henv | intros []].
    eapply rhoare_step;
      [apply send_header_Building;
         [reflexivity | apply redirect_url_clean; [exact Henv | exact Hp]]
      | intros []].
    eapply rhoare_step; [apply send_header_Building; reflexivity | intros []].
    apply end_headers_answered.
  - eapply rhoarex_conseq with (P' := Both Fresh) (Q' := answered);
      [| exact Hweak | auto].
    eapply rhoarex_both; [apply find_index_Fresh | intros i].
    destruct i as [index |];
      [apply send_head_file_pair | apply rhoarex_total, list_directory_pair].
Qed.

Lemma copyfile_pair source :
  rhoare Answered (copyfile source) (copyfile source) (fun _ _ => Answered).
Proof.
  intros h1 h2 (code & message & hs & body & Hd).
  destruct source as [p f | data]; simpl.
  - destruct (fs_call_pair code message hs body (Read p) h1 h2 Hd)
      as ([] & [] & t1 & t2 & Hr1 & Hr2 & Ht).
    destruct (wfile_write_pair code message hs body (f_data f) t1 t2 Ht)
      as ([] & [] & u1 & u2 & Hq1 & Hq2 & Hu).
    exists tt, tt, u1, u2. unfold bind. rewrite Hr1, Hr2.
    repeat split; auto. do 4 eexists. exact Hu.
  - destruct (wfile_write_pair code message hs body data h1 h2 Hd)
      as ([] & [] & u1 & u2 & Hq1 & Hq2 & Hu).
    exists tt, tt, u1, u2. repeat split; auto. do 4 eexists. exact Hu.
Qed.

Lemma do_GET_pair :
  rhoarex (Both Ready) (do_GET env fs simple_end) (do_GET env fs cors_end)
    (fun _ _ => Answered) Unopened.
Proof.
  unfold do_GET.
  eapply rhoarex_bind; [apply send_head_pair |].
  intros f1 f2. apply rhoarex_total.
  eapply rhoare_conseq with
    (P' := fun h1 h2 => f1 = f2 /\ Answered h1 h2) (Q' := fun _ _ => Answered);
    [| auto | auto].
  intros h1 h2 [<- Ha].
  destruct f1 as [f |].
  - apply (copyfile_pair f h1 h2 Ha).
  - exists tt, tt, h1, h2. auto.
Qed.

Lemma do_HEAD_pair :
  rhoarex (Both Ready) (do_HEAD env fs simple_end) (do_HEAD env fs cors_end)
    (fun _ _ => Answered) Unopened.
Proof.
  unfold do_HEAD.
  eapply rhoarex_bind; [apply send_head_pair |].
  intros f1 f2. apply rhoarex_total, rhoare_ret. intros h1 h2 [_ Ha]. exact Ha.
Qed.

End Paths.

(** * One request *)

Lemma new_handler_Fresh r :
  req_version r <> "HTTP/0.9" -> Fresh (new_handler r).
Proof.
  intros Hv. unfold Fresh, http1. simpl. repeat split; auto.
  apply String.eqb_neq. exact Hv.
Qed.

Lemma new_handler_Ready r :
  req_version r <> "HTTP/0.9" -> no_cr (req_path r) = true -> Ready (new_handler r).
Proof. intros Hv Hp. split; [apply new_handler_Fresh, Hv | exact Hp]. Qed.

Lemma do_OPTIONS_Fresh env :
  env_clean env ->
  hoare Fresh (do_OPTIONS env)
    (fun _ => Sent 200 "OK"
                [("Server", version_string env); ("Date", date_time_string env None)] "").
Proof.
  intros Henv. unfold do_OPTIONS.
  eapply hoare_bind; [apply (send_response_table env Henv 200) | intros []].
  apply end_headers_Building.
Qed.

(** a method other than OPTIONS: the same dispatch in both classes *)
Lemma handle_one_request_pair env fs :
  env_clean env ->
  rhoarex (Both (fun h => Ready h /\ (command h =? "OPTIONS") = false))
    (simple_handle_one_request env fs) (Script.handle_one_request env fs)
    (fun _ _ => Answered) Unopened.
Proof.
  intros Henv h1 h2 [<- [Hr Hc]].
  unfold simple_handle_one_request, Script.handle_one_request,
    HttpServer.handle_one_request, bind, get, cors_do.
  rewrite Hc. unfold simple_do.
  destruct (command h1 =? "GET").
  - apply (do_GET_pair env fs Henv h1 h1 (conj eq_refl Hr)).
  - destruct (command h1 =? "HEAD").
    + apply (do_HEAD_pair env fs Henv h1 h1 (conj eq_refl Hr)).
    + apply rhoarex_total with (P := Both Fresh); [| split; [reflexivity | apply Hr]].
      eapply rhoare_conseq;
        [apply (send_error_pair env Henv NOT_IMPLEMENTED
                  (Some ("Unsupported method (" ++ py_repr env (command h1) ++ ")")) None)
        | auto |].
      * simpl. rewrite !no_cr_app, (py_repr_clean env Henv). reflexivity.
      * intros [] [] s1 s2 (m & hs & body & Hd).
        exists NOT_IMPLEMENTED, m, hs, body. exact Hd.
Qed.

Lemma Answered_Finished h1 h2 : Answered h1 h2 -> Finished h2.
Proof.
  intros (code & m & hs & body & (He & Hv & Hb & Hw1 & Hw2 & Hc)).
  exists code, m, hs, body. repeat split; auto; apply Hc.
Qed.

(** from an object that is ready, the handler sends a whole response
    with the CORS headers, or [open] raises and nothing is sent *)
Lemma handle_one_request_Finished env fs :
  env_clean env ->
  hoarex Ready (Script.handle_one_request env fs) (fun _ => Finished) Refused.
Proof.
  intros Henv h Hr.
  destruct (command h =? "OPTIONS") eqn:Hc.
  - destruct (do_OPTIONS_Fresh env Henv h (proj1 Hr)) as ([] & h' & Hrun & Hs).
    unfold Script.handle_one_request, HttpServer.handle_one_request, bind, get,
      cors_do. rewrite Hc, Hrun.
    exists 200. do 3 eexists. exact Hs.
  - pose proof (handle_one_request_pair env fs Henv h h
                  (conj eq_refl (conj Hr Hc))) as Hp.
    destruct (simple_handle_one_request env fs h) as [[[] | e1 |] h1];
      destruct (Script.handle_one_request env fs h) as [[[] | e2 |] h2];
      try contradiction.
    + apply (Answered_Finished h1 h2 Hp).
    + destruct Hp as [<- (He & <- & Hw)]. split; assumption.
Qed.

Lemma Finished_cors h :
  Finished h -> exists code, cors_response code (wfile h) /\ carries_cors (wfile h).
Proof.
  intros (code & m & hs & body & (Hv & Hb & Hw & Hc)).
  exists code. rewrite Hw. split.
  - exists m, hs, body. auto.
  - apply cors_response_carries, Hc.
Qed.

(** * Runs, as equations *)

Lemma send_response_only_run h code message :
  http1 h -> _headers_buffer h = None ->
  send_response_only code message h =
    (Ok tt, set_headers_buffer (Some [status_line code (reason code message)]) h).
Proof.
  unfold http1. intros Hv Hb.
  unfold send_response_only, bind, get, when. rewrite Hv.
  unfold negb, headers_buffer_append, modify. rewrite Hb.
  unfold status_line, reason.
  destruct message; [reflexivity |].
  destruct (responses code) as [[? ?] |]; reflexivity.
Qed.

(** what a request without a version gets from the header methods: nothing *)
Lemma send_response_only_run09 h code message :
  (request_version h =? "HTTP/0.9") = true ->
  send_response_only code message h = (Ok tt, h).
Proof.
  intros Hv. unfold send_response_only, bind, get, when. rewrite Hv. reflexivity.
Qed.

Lemma send_header_run09 h keyword value :
  (request_version h =? "HTTP/0.9") = true ->
  (lower keyword =? "connection") = false ->
  send_header keyword value h = (Ok tt, h).
Proof.
  intros Hv Hk. unfold send_header, bind, get, when. rewrite Hv, Hk. reflexivity.
Qed.

Lemma base_end_headers_run09 h :
  (request_version h =? "HTTP/0.9") = true ->
  HttpServer.end_headers h = (Ok tt, h).
Proof.
  intros Hv. unfold HttpServer.end_headers, bind, get, when. rewrite Hv. reflexivity.
Qed.

Lemma cors_end_headers_run09 h :
  (request_version h =? "HTTP/0.9") = true ->
  Script.end_headers h = (Ok tt, h).
Proof.
  intros Hv. unfold Script.end_headers.
  rewrite (bind_Ok _ _ h tt h) by (apply send_header_run09; [exact Hv | reflexivity]).
  rewrite (bind_Ok _ _ h tt h) by (apply send_header_run09; [exact Hv | reflexivity]).
  rewrite (bind_Ok _ _ h tt h) by (apply send_header_run09; [exact Hv | reflexivity]).
  apply base_end_headers_run09, Hv.
Qed.

(** the whole of [do_OPTIONS] from a new handler, as one equation *)
Lemma do_OPTIONS_run env r :
  do_OPTIONS env (new_handler r) =
    (Ok tt,
     mkHandler (req_command r) (req_path r) (req_version r) (req_headers r) true
       (if req_version r =? "HTTP/0.9" then None else Some [])
       (if req_version r =? "HTTP/0.9" then ""
        else wire 200 "OK"
               ([("Server", version_string env); ("Date", date_time_string env None)]
                ++ cors_headers) "")
       [LogRequest 200] []).
Proof.
  unfold do_OPTIONS, send_response, log_request.
  set (h0 := new_handler r).
  set (h1 := set_log [LogRequest 200] h0).
  assert (H1 : log_message (LogRequest 200) h0 = (Ok tt, h1)) by reflexivity.
  destruct (req_version r =? "HTTP/0.9") eqn:E.
  - assert (Hv : (request_version h1 =? "HTTP/0.9") = true) by exact E.
    rewrite (bind_Ok _ _ h0 tt h1).
    + apply cors_end_headers_run09, Hv.
    + rewrite (bind_Ok _ _ h0 tt h1) by exact H1.
      rewrite (bind_Ok _ _ h1 tt h1) by (apply send_response_only_run09, Hv).
      rewrite (bind_Ok _ _ h1 tt h1) by (apply send_header_run09; [exact Hv | reflexivity]).
      apply send_header_run09; [exact Hv | reflexivity].
  - assert (Hv : forall b, http1 (set_headers_buffer b h1)) by (intros b; exact E).
    set (sl := status_line 200 "OK").
    set (sv := header_line ("Server", version_string env)).
    set (dt := header_line ("Date", date_time_string env None)).
    set (h2 := set_headers_buffer (Some [sl]) h1).
    set (h3 := set_headers_buffer (Some [sl; sv]) h1).
    set (h4 := set_headers_buffer (Some [sl; sv; dt]) h1).
    rewrite (bind_Ok _ _ h0 tt h4).
    + rewrite (cors_end_headers_run h4 [sl; sv; dt] (Hv _) eq_refl).
      unfold h4, h1, h0, new_handler, set_headers_buffer, set_wfile, set_log.
      cbn [command path request_version headers close_connection _headers_buffer
           wfile log fs_log].
      unfold wire. rewrite append_nil_r. reflexivity.
    + rewrite (bind_Ok _ _ h0 tt h1) by exact H1.
      rewrite (bind_Ok _ _ h1 tt h2)
        by (apply (send_response_only_run h1 200 None); [exact E | reflexivity]).
      rewrite (bind_Ok _ _ h2 tt h3)
        by (apply (send_header_run h2 [sl] "Server"); [apply Hv | reflexivity | reflexivity]).
      apply (send_header_run h3 [sl; sv] "Date"); [apply Hv | reflexivity | reflexivity].
Qed.

Lemma handle_OPTIONS env fs h :
  (command h =? "OPTIONS") = true ->
  Script.handle_one_request env fs h = do_OPTIONS env h.
Proof.
  intros Hc.
  unfold Script.handle_one_request, HttpServer.handle_one_request, bind, get, cors_do.
  rewrite Hc. reflexivity.
Qed.

(** * What holds of every call of the handler

    The one [raise] of the inherited header methods is in [end_headers],
    for an object without a headers buffer.  The script's [end_headers]
    sends a header first, which creates the buffer, so this exception
    never leaves a CORSHTTPRequestHandler; what can leave it is the
    [ValueError] of [open]. *)

Section HandlerSucceeds.

Variable env : Env.
Variable fs : FS.

Lemma send_header_succeeds keyword value : succeeds (send_header keyword value).
Proof. unfold send_header, headers_buffer_append. repeat succeeds_step. Qed.

Lemma send_response_only_succeeds code message :
  succeeds (send_response_only code message).
Proof. unfold send_response_only, headers_buffer_append. repeat succeeds_step. Qed.

Lemma send_response_succeeds code message :
  succeeds (send_response env code message).
Proof.
  unfold send_response, log_request, log_message.
  repeat first [apply send_header_succeeds | apply send_response_only_succeeds
               | succeeds_step].
Qed.

Lemma cors_end_headers_succeeds : succeeds Script.end_headers.
Proof.
  intros h. exists tt.
  destruct (request_version h =? "HTTP/0.9") eqn:Hv.
  - rewrite (cors_end_headers_run09 h Hv). reflexivity.
  - destruct (_headers_buffer h) as [b |] eqn:Hb.
    + rewrite (cors_end_headers_run h b Hv Hb). reflexivity.
    + unfold Script.end_headers.
      erewrite bind_Ok;
        [| apply send_header_creates_buffer; [exact Hv | exact Hb | reflexivity]].
      erewrite bind_Ok; [| apply send_header_run; [exact Hv | reflexivity | reflexivity]].
      erewrite bind_Ok; [| apply send_header_run; [exact Hv | reflexivity | reflexivity]].
      erewrite base_end_headers_run; [reflexivity | exact Hv | reflexivity].
Qed.

Lemma send_error_succeeds code message explain :
  succeeds (send_error env Script.end_headers code message explain).
Proof.
  unfold send_error, log_error, log_message, wfile_write.
  repeat first [apply send_header_succeeds | apply send_response_succeeds
               | apply cors_end_headers_succeeds | succeeds_step].
Qed.

Lemma list_entries_succeeds path names : succeeds (list_entries fs path names).
Proof.
  induction names as [| name rest IH]; simpl.
  - apply succeeds_ret.
  - unfold os_path_isdir, os_path_islink, fs_call.
    repeat first [apply IH | succeeds_step].
Qed.

Lemma find_index_succeeds path indexes : succeeds (find_index fs path indexes).
Proof.
  induction indexes as [| index rest IH]; simpl.
  - apply succeeds_ret.
  - unfold os_path_isfile, fs_call.
    repeat first [apply IH | succeeds_step].
Qed.

Lemma list_directory_succeeds path :
  succeeds (list_directory env fs Script.end_headers path).
Proof.
  unfold list_directory, fs_call.
  repeat first [apply send_header_succeeds | apply send_response_succeeds
               | apply cors_end_headers_succeeds | apply send_error_succeeds
               | apply list_entries_succeeds | succeeds_step].
Qed.

Lemma do_OPTIONS_succeeds : succeeds (do_OPTIONS env).
Proof.
  unfold do_OPTIONS.
  repeat first [apply send_response_succeeds | apply cors_end_headers_succeeds
               | succeeds_step].
Qed.

(** [parse_request] sends its replies itself and raises nothing *)
Lemma parse_request_succeeds raw :
  succeeds (parse_request env Script.end_headers raw).
Proof.
  unfold parse_request, handle_expect_100.
  repeat first [apply send_error_succeeds | apply send_response_only_succeeds
               | apply cors_end_headers_succeeds | succeeds_step].
Qed.

Lemma read_request_succeeds raw :
  succeeds (read_request env Script.end_headers raw).
Proof.
  unfold read_request.
  repeat first [apply send_error_succeeds | apply parse_request_succeeds
               | succeeds_step].
Qed.

(** ** Only [open] raises *)

Ltac escapes_handler_step :=
  first
    [ apply escapes_succeeds;
      first [ apply send_header_succeeds | apply send_response_succeeds
            | apply cors_end_headers_succeeds | apply send_error_succeeds
            | apply find_index_succeeds | apply list_entries_succeeds
            | apply list_directory_succeeds | apply do_OPTIONS_succeeds
            | apply read_request_succeeds
            | apply succeeds_ret | apply succeeds_get | apply succeeds_modify ]
    | escapes_step ].

Ltac escapes_handler := repeat escapes_handler_step.

Lemma send_head_file_escapes path :
  escapes (from_open fs) (send_head_file env fs Script.end_headers path).
Proof.
  unfold send_head_file, fs_call.
  destruct (endswith path "/"); [escapes_handler |].
  apply escapes_bind; [escapes_handler | intros _].
  destruct (os_open fs path) as [f | |] eqn:Ho; [escapes_handler .. |].
  apply escapes_raise. split; [reflexivity | exists path; exact Ho].
Qed.

Lemma send_head_escapes : escapes (from_open fs) (send_head env fs Script.end_headers).
Proof.
  unfold send_head, os_path_isdir, fs_call.
  repeat first [apply send_head_file_escapes | escapes_handler_step].
Qed.

Lemma handle_one_request_escapes :
  escapes (from_open fs) (Script.handle_one_request env fs).
Proof.
  unfold Script.handle_one_request, HttpServer.handle_one_request.
  apply escapes_bind; [escapes_handler | intros self].
  unfold cors_do, simple_do.
  destruct (command self =? "OPTIONS"); [escapes_handler |].
  destruct (command self =? "GET"); [| destruct (command self =? "HEAD")].
  - unfold do_GET, copyfile, fs_call, wfile_write.
    repeat first [apply send_head_escapes | escapes_handler_step].
  - unfold do_HEAD.
    repeat first [apply send_head_escapes | escapes_handler_step].
  - escapes_handler.
Qed.

Lemma handle_one_request_on_escapes raw :
  escapes (from_open fs)
    (handle_one_request_on env Script.end_headers (cors_do env fs) raw).
Proof.
  unfold handle_one_request_on.
  apply escapes_bind; [escapes_handler | intros ok].
  destruct ok; [apply handle_one_request_escapes | escapes_handler].
Qed.

Lemma handle_more_escapes rfile :
  escapes (from_open fs) (handle_more env Script.end_headers (cors_do env fs) rfile).
Proof.
  induction rfile as [| raw rest IH]; simpl.
  - apply escapes_bind; [escapes_handler | intros self].
    destruct (close_connection self);
      [escapes_handler | apply handle_one_request_on_escapes].
  - apply escapes_bind; [escapes_handler | intros self].
    destruct (close_connection self); [escapes_handler |].
    apply escapes_bind; [apply handle_one_request_on_escapes | intros _; exact IH].
Qed.

Lemma handle_escapes rfile : escapes (from_open fs) (Script.handle env fs rfile).
Proof.
  unfold Script.handle, HttpServer.handle.
  apply escapes_bind; [escapes_handler | intros _].
  apply escapes_bind; [apply handle_one_request_on_escapes | intros _].
  apply handle_more_escapes.
Qed.

(** the handler does not wait: what a client is to send has arrived *)
Lemma handle_terminates rfile : terminates (Script.handle env fs rfile).
Proof.
  intros h Hb. pose proof (handle_escapes rfile h) as He.
  rewrite Hb in He. exact He.
Qed.

End HandlerSucceeds.

(** ** [open] raises before anything is written *)

Ltac succeeds_handler :=
  repeat first
    [ apply send_header_succeeds | apply send_response_succeeds
    | apply cors_end_headers_succeeds | apply send_error_succeeds
    | apply find_index_succeeds | apply list_entries_succeeds
    | apply list_directory_succeeds | apply do_OPTIONS_succeeds
    | succeeds_step ].

Section Early.

Variable env : Env.
Variable fs : FS.

Lemma fs_call_keeps_wfile op : keeps wfile (fs_call op).
Proof. unfold fs_call. repeat keeps_step. Qed.

Lemma find_index_keeps_wfile path indexes : keeps wfile (find_index fs path indexes).
Proof.
  induction indexes as [| index rest IH]; simpl.
  - apply keeps_ret.
  - unfold os_path_isfile, fs_call. repeat first [apply IH | keeps_step].
Qed.

Lemma send_head_file_early path :
  raises_early (from_open fs) wfile (send_head_file env fs Script.end_headers path).
Proof.
  unfold send_head_file.
  destruct (endswith path "/");
    [apply raises_early_succeeds; succeeds_handler |].
  apply raises_early_after;
    [unfold fs_call; succeeds_handler | apply fs_call_keeps_wfile | intros _].
  destruct (os_open fs path) as [f | |] eqn:Ho.
  - apply raises_early_succeeds. unfold fs_call. succeeds_handler.
  - apply raises_early_succeeds. succeeds_handler.
  - apply raises_early_raise. split; [reflexivity | exists path; exact Ho].
Qed.

Lemma send_head_early :
  raises_early (from_open fs) wfile (send_head env fs Script.end_headers).
Proof.
  unfold send_head.
  apply raises_early_after; [apply succeeds_get | apply keeps_get | intros self].
  apply raises_early_after;
    [unfold os_path_isdir, fs_call; succeeds_handler
    | unfold os_path_isdir, fs_call; repeat keeps_step | intros d].
  destruct d; [| apply send_head_file_early].
  destruct (negb (endswith (urlsplit_path env (path self)) "/")).
  - apply raises_early_succeeds. succeeds_handler.
  - apply raises_early_after;
      [apply find_index_succeeds | apply find_index_keeps_wfile | intros i].
    destruct i as [index |];
      [apply send_head_file_early
      | apply raises_early_succeeds, list_directory_succeeds].
Qed.

Lemma handle_one_request_early :
  raises_early (from_open fs) wfile (Script.handle_one_request env fs).
Proof.
  unfold Script.handle_one_request, HttpServer.handle_one_request.
  apply raises_early_after; [apply succeeds_get | apply keeps_get | intros self].
  unfold cors_do, simple_do.
  destruct (command self =? "OPTIONS");
    [apply raises_early_succeeds, do_OPTIONS_succeeds |].
  destruct (command self =? "GET"); [| destruct (command self =? "HEAD")].
  - unfold do_GET. apply raises_early_before; [apply send_head_early | intros f].
    unfold copyfile, fs_call, wfile_write. succeeds_handler.
  - unfold do_HEAD. apply raises_early_before; [apply send_head_early | intros f].
    apply succeeds_ret.
  - apply raises_early_succeeds, send_error_succeeds.
Qed.

End Early.

(** * What the methods leave as it is

    [I] is a property of the object that the writes to the buffer, to
    the output and to the logs keep, and that holds again when
    [close_connection] is set. *)

Section Invariant.

Variable I : Handler -> Prop.
Hypothesis I_buffer : forall b h, I h -> I (set_headers_buffer b h).
Hypothesis I_wfile : forall w h, I h -> I (set_wfile w h).
Hypothesis I_log : forall l h, I h -> I (set_log l h).
Hypothesis I_fs_log : forall l h, I h -> I (set_fs_log l h).
Hypothesis I_close : forall h, I h -> I (set_close_connection true h).

Variable env : Env.
Variable fs : FS.

Lemma headers_buffer_append_stays line : stays I (headers_buffer_append line).
Proof.
  apply stays_modify. intros h Hh. destruct (_headers_buffer h); apply I_buffer, Hh.
Qed.

Lemma log_message_stays e : stays I (log_message e).
Proof. apply stays_modify. intros h Hh. apply I_log, Hh. Qed.

Lemma wfile_write_stays b : stays I (wfile_write b).
Proof. apply stays_modify. intros h Hh. apply I_wfile, Hh. Qed.

Lemma fs_call_stays op : stays I (fs_call op).
Proof. apply stays_modify. intros h Hh. apply I_fs_log, Hh. Qed.

Lemma set_headers_buffer_stays b :
  stays (E := Exn) I (modify (set_headers_buffer b)).
Proof. apply stays_modify. intros h Hh. apply I_buffer, Hh. Qed.

Lemma set_close_stays : stays (E := Exn) I (modify (set_close_connection true)).
Proof. apply stays_modify. intros h Hh. apply I_close, Hh. Qed.

(** no header that the handler sends is [Connection: keep-alive] *)
Lemma send_header_stays keyword value :
  (lower keyword =? "connection") = false \/ (lower value =? "close") = true ->
  stays I (send_header keyword value).
Proof.
  intros Hk. unfold send_header.
  apply stays_bind; [apply stays_get | intros self].
  apply stays_bind;
    [apply stays_when, headers_buffer_append_stays | intros _].
  destruct Hk as [Hk | Hk]; rewrite Hk.
  - apply stays_ret.
  - destruct (lower keyword =? "connection"); [apply set_close_stays | apply stays_ret].
Qed.

Ltac stays_basic :=
  first
    [ apply send_header_stays; first [left; reflexivity | right; reflexivity]
    | apply headers_buffer_append_stays | apply log_message_stays
    | apply wfile_write_stays | apply fs_call_stays
    | apply set_headers_buffer_stays | apply set_close_stays
    | apply stays_ret | apply stays_raise | apply stays_get
    | apply stays_when
    | apply stays_bind; [| intros ?]
    | match goal with
      | |- stays _ (if ?b then _ else _) => destruct b
      | |- stays _ (match ?x with _ => _ end) => destruct x
      | |- stays _ (let (_, _) := ?x in _) => destruct x
      end ].

Lemma send_response_only_stays code message :
  stays I (send_response_only code message).
Proof. unfold send_response_only. repeat stays_basic. Qed.

Lemma send_response_stays code message : stays I (send_response env code message).
Proof.
  unfold send_response, log_request.
  repeat first [apply send_response_only_stays | stays_basic].
Qed.

Lemma base_end_headers_stays : stays I HttpServer.end_headers.
Proof. unfold HttpServer.end_headers, flush_headers. repeat stays_basic. Qed.

Lemma cors_end_headers_stays : stays I Script.end_headers.
Proof.
  unfold Script.end_headers.
  repeat first [apply base_end_headers_stays | stays_basic].
Qed.

Section EndHeaders.

(** either [end_headers] *)
Variable self_end_headers : HttpServer.M unit.
Hypothesis end_headers_stays : stays I self_end_headers.

Ltac stays_method :=
  repeat first [apply end_headers_stays | apply send_response_stays
               | apply send_response_only_stays | stays_basic].

Lemma send_error_stays code message explain :
  stays I (send_error env self_end_headers code message explain).
Proof. unfold send_error, log_error. stays_method. Qed.

Lemma list_entries_stays path names : stays I (list_entries fs path names).
Proof.
  induction names as [| name rest IH]; simpl.
  - apply stays_ret.
  - unfold os_path_isdir, os_path_islink.
    repeat first [apply IH | stays_basic].
Qed.

Lemma find_index_stays path indexes : stays I (find_index fs path indexes).
Proof.
  induction indexes as [| index rest IH]; simpl.
  - apply stays_ret.
  - unfold os_path_isfile.
    repeat first [apply IH | stays_basic].
Qed.

Lemma send_head_stays : stays I (send_head env fs self_end_headers).
Proof.
  unfold send_head, send_head_file, list_directory, os_path_isdir.
  repeat first [apply send_error_stays | apply find_index_stays
               | apply list_entries_stays | apply end_headers_stays
               | apply send_response_stays | stays_basic].
Qed.

Lemma simple_do_stays name method :
  simple_do env fs self_end_headers name = Some method -> stays I method.
Proof.
  unfold simple_do. intros H.
  destruct (name =? "GET"); [| destruct (name =? "HEAD"); [| discriminate H]];
    injection H as <-.
  - unfold do_GET, copyfile.
    repeat first [apply send_head_stays | stays_basic].
  - unfold do_HEAD.
    repeat first [apply send_head_stays | stays_basic].
Qed.

End EndHeaders.

Lemma do_OPTIONS_stays : stays I (do_OPTIONS env).
Proof.
  unfold do_OPTIONS.
  apply stays_bind; [apply send_response_stays | intros _; apply cors_end_headers_stays].
Qed.

Lemma handle_one_request_stays : stays I (Script.handle_one_request env fs).
Proof.
  unfold Script.handle_one_request, HttpServer.handle_one_request.
  apply stays_bind; [apply stays_get | intros self].
  destruct (cors_do env fs (command self)) as [method |] eqn:Hm.
  - unfold cors_do in Hm. destruct (command self =? "OPTIONS").
    + injection Hm as <-. apply do_OPTIONS_stays.
    + apply (simple_do_stays _ cors_end_headers_stays _ _ Hm).
  - apply send_error_stays, cors_end_headers_stays.
Qed.

End Invariant.

(** the request version is that of [parse_request] to the end *)
Lemma handle_one_request_keeps_version env fs :
  keeps request_version (Script.handle_one_request env fs).
Proof.
  intros h.
  apply (handle_one_request_stays (fun s => request_version s = request_version h));
    auto.
Qed.

(** and the connection stays one that is closed after the request *)
Lemma handle_one_request_closing env fs :
  stays closing (Script.handle_one_request env fs).
Proof. apply handle_one_request_stays; unfold closing; auto. Qed.

Lemma send_error_closing env code message explain :
  stays closing (send_error env Script.end_headers code message explain).
Proof.
  apply send_error_stays; unfold closing; auto.
  apply cors_end_headers_stays; auto.
Qed.

Lemma send_error_keeps_version env code message explain :
  keeps request_version (send_error env Script.end_headers code message explain).
Proof.
  intros h.
  apply (send_error_stays (fun s => request_version s = request_version h)); auto.
  apply cors_end_headers_stays; auto.
Qed.

(** * Reading the request

    [parse_request] answers the request lines that it rejects itself,
    with [send_error], hence through the script's [end_headers]; while
    the request version is still the default HTTP/0.9 such a reply is
    the page alone. *)

Ltac run_modify :=
  match goal with
  | |- context [bind (modify ?f) ?k ?h] =>
      change (bind (modify f) k h) with (k tt (f h)); cbv beta
  end.

Ltac run_ret :=
  match goal with
  | |- context [bind (ret ?a) ?k ?h] =>
      change (bind (ret a) k h) with (k a h); cbv beta
  end.

Ltac run_get :=
  match goal with
  | |- context [bind get ?k ?h] =>
      change (bind get k h) with (k h h); cbv beta
  end.

Ltac run_assoc := rewrite bind_assoc.

Section Reading.

Variable env : Env.
Hypothesis Henv : env_clean env.

(** an error reply of [parse_request]: sent whole and with the CORS
    headers, or in the form of HTTP/0.9 *)
Lemma send_error_from code message explain h :
  match message with Some m => no_cr m = true | None => True end ->
  wfile h = "" -> _headers_buffer h = None -> closing h ->
  exists h',
    send_error env Script.end_headers code message explain h = (Ok tt, h') /\
    closing h' /\ request_version h' = request_version h /\
    (http09 h' \/ Finished h').
Proof.
  intros Hm Hw Hb Hc.
  destruct (succeeds_run (send_error env Script.end_headers code message explain) h
              (send_error_succeeds env code message explain)) as ([] & h' & Hrun).
  exists h'. split; [exact Hrun |].
  pose proof (send_error_closing env code message explain h Hc) as Hc'.
  pose proof (send_error_keeps_version env code message explain h) as Hv'.
  rewrite Hrun in Hc', Hv'. simpl in Hc', Hv'.
  split; [exact Hc' |]. split; [exact Hv' |].
  destruct (request_version h =? "HTTP/0.9") eqn:Hv.
  - left. unfold http09. rewrite Hv'. exact Hv.
  - right.
    assert (Hf : Fresh h) by (split; [exact Hv | split; [exact Hw | left; exact Hb]]).
    destruct (send_error_Fresh env Henv code message explain Hm h Hf)
      as ([] & h'' & Hrun' & Hd).
    rewrite Hrun in Hrun'. injection Hrun' as <-.
    exists code. exact Hd.
Qed.

(** while the request version is the default, the reply is the page alone *)
Lemma send_error_page code message explain h :
  http09 h -> closing h ->
  exists h',
    send_error env Script.end_headers code message explain h = (Ok tt, h') /\
    closing h' /\ request_version h' = request_version h /\
    (http09 h' \/ Finished h').
Proof.
  intros Hv Hc.
  destruct (succeeds_run (send_error env Script.end_headers code message explain) h
              (send_error_succeeds env code message explain)) as ([] & h' & Hrun).
  exists h'. split; [exact Hrun |].
  pose proof (send_error_closing env code message explain h Hc) as Hc'.
  pose proof (send_error_keeps_version env code message explain h) as Hv'.
  rewrite Hrun in Hc', Hv'. simpl in Hc', Hv'.
  split; [exact Hc' |]. split; [exact Hv' |].
  left. unfold http09. rewrite Hv'. exact Hv.
Qed.

Ltac finish_reply h' Hrun Hc Hv Hr :=
  rewrite (bind_Ok _ _ _ _ _ Hrun); cbv beta; repeat run_ret;
  cbn [negb]; cbv iota;
  exists false, h';
  split; [reflexivity | split; [exact Hc | split; [rewrite Hv; reflexivity | exact Hr]]].

(** the reply to a request line that is rejected before a version was
    accepted *)
Ltac page_reply :=
  rewrite ?bind_assoc;
  match goal with
  | |- exists b h, bind (send_error _ _ ?code ?m ?e) _ ?s = _ /\ _ =>
      let h' := fresh "h'" in
      let Hrun := fresh "Hrun" in
      let Hc := fresh "Hc" in
      let Hv := fresh "Hv" in
      let Hr := fresh "Hr" in
      destruct (send_error_page code m e s) as (h' & Hrun & Hc & Hv & Hr);
      [reflexivity | reflexivity |];
      finish_reply h' Hrun Hc Hv Hr
  end.

(** the reply to a request line that is rejected after it *)
Ltac error_reply :=
  rewrite ?bind_assoc;
  match goal with
  | |- exists b h, bind (send_error _ _ ?code ?m ?e) _ ?s = _ /\ _ =>
      let h' := fresh "h'" in
      let Hrun := fresh "Hrun" in
      let Hc := fresh "Hc" in
      let Hv := fresh "Hv" in
      let Hr := fresh "Hr" in
      destruct (send_error_from code m e s) as (h' & Hrun & Hc & Hv & Hr);
      [ try reflexivity;
        cbn [no_cr]; rewrite ?no_cr_app, ?(py_repr_clean env Henv); reflexivity
      | reflexivity | reflexivity | reflexivity |];
      finish_reply h' Hrun Hc Hv Hr
  end.

(** from the test on the number of words to the end of [parse_request] *)
Ltac parse_rest Hwords :=
  match goal with
  | |- context [negb ((2 <=? ?n)%nat && (?n <=? 3)%nat)] =>
      destruct (negb ((2 <=? n)%nat && (n <=? 3)%nat)); cbv iota
  end;
  [ error_reply |];
  match goal with
  | |- context [(Datatypes.length ?w =? 2)%nat] =>
      destruct (Datatypes.length w =? 2)%nat; cbv iota
  end;
  [ rewrite bind_assoc; run_modify;
    match goal with
    | |- context [negb (?c =? "GET")] => destruct (negb (c =? "GET")); cbv iota
    end;
    [ error_reply |]
  |];
  repeat run_ret; cbn [negb]; cbv iota;
  do 2 run_modify;
  match goal with
  | |- context [when (startswith ?p "//")] =>
      pose proof (nth_clean _ 1 Hwords) as Hpath;
      pose proof (lstrip_slash_clean _ Hpath) as Hstrip;
      destruct (startswith p "//"); unfold when at 1;
      [run_modify | run_ret]
  end;
  match goal with
  | |- context [match raw_headers ?raw with _ => _ end] =>
      destruct (raw_headers raw) as [hs | |]
  end;
  try error_reply;
  run_modify;
  rewrite ?andb_false_r; cbv iota;
  match goal with
  | |- context [if lower ?c =? "close" then _ else _] =>
      destruct (lower c =? "close"); cbv iota; [run_modify | run_ret]
  end;
  run_get; rewrite ?andb_false_r; cbn [andb]; cbv iota;
  eexists true, _; (split; [reflexivity |]);
  (split; [reflexivity |]); (split; [reflexivity |]);
  eexists (mkRequest _ _ _ _); (split; [reflexivity |]);
  cbn [req_path]; assumption.

Lemma parse_request_new raw :
  (65536 <? Z.of_nat (String.length (raw_requestline raw)))%Z = false ->
  exists b h,
    parse_request env Script.end_headers raw new_object = (Ok b, h) /\
    Parsed env raw b h.
Proof.
  intros Hlen. unfold Parsed, version_of. rewrite Hlen. cbv zeta.
  unfold parse_request.
  set (requestline := rstrip_crlf (raw_requestline raw)).
  pose proof (split_clean requestline) as Hwords.
  set (words := split requestline) in *.
  do 3 run_modify.
  change (set_close_connection true
            (set_request_version default_request_version (set_command "" new_object)))
    with new_object.
  change (str_ge protocol_version "HTTP/1.1") with false.
  destruct (Datatypes.length words =? 0)%nat eqn:H0.
  { exists false, new_object. split; [reflexivity |].
    apply Nat.eqb_eq in H0. rewrite H0. simpl.
    split; [reflexivity |]. split; [reflexivity |]. left. reflexivity. }
  destruct (3 <=? Datatypes.length words)%nat eqn:H3; cbv iota.
  - set (version := last words "") in *.
    destruct (parse_version env version) as [[bvn vn] |] eqn:Hpv; cbv iota.
    + run_assoc. rewrite andb_false_r. unfold when at 1. run_ret.
      destruct (pair_ge vn (2, 0)%Z) eqn:H2.
      * page_reply.
      * run_assoc. run_modify. repeat run_ret. cbn [negb]. cbv iota.
        parse_rest Hwords.
    + page_reply.
  - repeat run_ret. cbn [negb]. cbv iota.
    parse_rest Hwords.
Qed.

(** the whole of [read_request] on a new object *)
Lemma read_request_new raw :
  exists b h,
    read_request env Script.end_headers raw new_object = (Ok b, h) /\
    Parsed env raw b h.
Proof.
  unfold read_request.
  destruct (65536 <? Z.of_nat (String.length (raw_requestline raw)))%Z eqn:Hlen.
  - do 2 run_modify. unfold Parsed, version_of. rewrite Hlen.
    error_reply.
  - destruct (raw_requestline raw =? "") eqn:He.
    + exists false, new_object. split; [reflexivity |].
      apply String.eqb_eq in He.
      unfold Parsed, version_of. rewrite Hlen, He.
      split; [reflexivity |]. split; [reflexivity |]. left. reflexivity.
    + apply parse_request_new, Hlen.
Qed.

End Reading.

(** * The connection *)

Section Connection.

Variable env : Env.
Variable fs : FS.
Hypothesis Henv : env_clean env.

(** one request on a new object: the reply is there, or [open] has
    raised before anything was written *)
Lemma handle_one_request_on_new raw res h :
  handle_one_request_on env Script.end_headers (cors_do env fs) raw new_object
    = (res, h) ->
  closing h /\ request_version h = version_of env raw /\ Served_or_refused res h.
Proof.
  unfold handle_one_request_on.
  destruct (read_request_new env Henv raw) as (b & h1 & Hread & (Hc & Hv & Hb)).
  rewrite (bind_Ok _ _ _ _ _ Hread).
  destruct b.
  - destruct Hb as (r & -> & Hp).
    change (HttpServer.handle_one_request env Script.end_headers (cors_do env fs))
      with (Script.handle_one_request env fs).
    intros Hrun.
    pose proof (handle_one_request_closing env fs (new_handler r) Hc) as Hc'.
    pose proof (handle_one_request_keeps_version env fs (new_handler r)) as Hv'.
    pose proof (handle_one_request_early env fs (new_handler r)) as He.
    rewrite Hrun in Hc', Hv', He. simpl in Hc', Hv'.
    split; [exact Hc' |]. split; [rewrite Hv'; exact Hv |].
    destruct (request_version (new_handler r) =? "HTTP/0.9") eqn:E.
    + destruct res as [[] | e |]; simpl.
      * left. unfold http09. rewrite Hv'. exact E.
      * destruct He as [[-> _] Hw]. split; [reflexivity | exact Hw].
      * exact He.
    + pose proof (handle_one_request_Finished env fs Henv (new_handler r)) as Hf.
      rewrite Hrun in Hf.
      assert (Hr : Ready (new_handler r))
        by (apply new_handler_Ready; [apply String.eqb_neq; exact E | exact Hp]).
      specialize (Hf Hr).
      destruct res as [[] | e |]; simpl; [right; exact Hf | exact Hf | exact Hf].
  - intros Hrun. injection Hrun as <- <-.
    split; [exact Hc |]. split; [exact Hv |]. exact Hb.
Qed.

(** [protocol_version] is HTTP/1.0: the connection is closed after the
    first request, and what the client sends after it is not read *)
Lemma handle_more_closing rfile h :
  closing h ->
  handle_more env Script.end_headers (cors_do env fs) rfile h = (Ok tt, h).
Proof.
  unfold closing. intros Hc.
  destruct rfile; simpl; unfold bind, get; rewrite Hc; reflexivity.
Qed.

Lemma handle_first rfile :
  Script.handle env fs rfile new_object =
  handle_one_request_on env Script.end_headers (cors_do env fs)
    (first_request rfile) new_object.
Proof.
  unfold Script.handle, HttpServer.handle. run_modify.
  change (set_close_connection true new_object) with new_object.
  fold (first_request rfile). unfold bind.
  destruct (handle_one_request_on env Script.end_headers (cors_do env fs)
              (first_request rfile) new_object) as [res h] eqn:Hrun.
  destruct (handle_one_request_on_new _ _ _ Hrun) as (Hc & _ & _).
  destruct res as [[] | e |]; [| reflexivity | reflexivity].
  apply handle_more_closing, Hc.
Qed.

(** the whole connection *)
Lemma handle_new rfile res h :
  Script.handle env fs rfile new_object = (res, h) ->
  closing h /\ request_version h = version_of env (first_request rfile) /\
  Served_or_refused res h.
Proof. rewrite handle_first. apply handle_one_request_on_new. Qed.

End Connection.

(** * The sample surroundings *)

Lemma escape_clean s : no_cr (Sample.escape s) = true.
Proof.
  induction s as [| c s IH]; [reflexivity |].
  simpl. rewrite no_cr_app, IH.
  destruct (Ascii.eqb c CR) eqn:Hc; [reflexivity |].
  destruct (Ascii.eqb c LF); [reflexivity |].
  simpl. rewrite Hc. reflexivity.
Qed.

Lemma sample_env_clean : env_clean Sample.env.
Proof.
  unfold env_clean, Sample.env.
  cbn [version_string date_time_string guess_type redirect_url py_repr
       getfilesystemencoding].
  split; [reflexivity |]. split; [reflexivity |]. split; [reflexivity |].
  split; [intros p Hp; rewrite no_cr_app, Hp; reflexivity |].
  split; [| reflexivity].
  intros s. rewrite !no_cr_app, escape_clean. reflexivity.
Qed.

(** * C1: the CORS headers on every response *)




(** * C2: the headers of the reply to OPTIONS *)




(** * C3: OPTIONS is answered without the file system *)




(** * The reply of [send_error], byte by byte *)

Lemma send_response_run env h code message :
  http1 h -> _headers_buffer h = None ->
  send_response env code message h =
    (Ok tt,
     set_headers_buffer
       (Some [ status_line code (reason code message);
               header_line ("Server", version_string env);
               header_line ("Date", date_time_string env None) ])
       (set_log (log h ++ [LogRequest code])%list h)).
Proof.
  intros Hv Hb. unfold send_response, log_request.
  set (h1 := set_log (log h ++ [LogRequest code])%list h).
  set (sl := status_line code (reason code message)).
  rewrite (bind_Ok _ _ h tt h1 eq_refl).
  set (sv := header_line ("Server", version_string env)).
  set (h2 := set_headers_buffer (Some [sl]) h1).
  set (h3 := set_headers_buffer (Some [sl; sv]) h1).
  rewrite (bind_Ok _ _ h1 tt h2)
    by (apply (send_response_only_run h1 code message); [exact Hv | exact Hb]).
  rewrite (bind_Ok _ _ h2 tt h3)
    by (apply (send_header_run h2 [sl] "Server"); [exact Hv | reflexivity | reflexivity]).
  apply (send_header_run h3 [sl; sv] "Date"); [exact Hv | reflexivity | reflexivity].
Qed.

(** [send_header('Connection', 'close')] *)
Lemma send_header_close h b :
  http1 h -> _headers_buffer h = Some b ->
  send_header "Connection" "close" h =
    (Ok tt, set_close_connection true
              (set_headers_buffer
                 (Some (b ++ [header_line ("Connection", "close")])%list) h)).
Proof.
  unfold http1. intros Hv Hb.
  unfold send_header, bind, get, when. rewrite Hv. simpl.
  unfold headers_buffer_append, modify. rewrite Hb. reflexivity.
Qed.

Lemma error_page_not_empty code message : (error_page code message =? "") = false.
Proof. reflexivity. Qed.

Lemma send_error_run env code m h :
  http1 h -> _headers_buffer h = None -> wfile h = "" -> has_page code = true ->
  exists h',
    send_error env Script.end_headers code (Some m) None h = (Ok tt, h') /\
    wfile h' =
      wire code m (error_headers env code m ++ cors_headers)
        (if command h =? "HEAD" then "" else error_page code m) /\
    log h' = (log h ++ [LogError code m; LogRequest code])%list /\
    fs_log h' = fs_log h.
Proof.
  intros Hv Hb Hw Hp.
  pose proof (error_page_not_empty code m) as Hne.
  unfold send_error, error_headers. unfold error_page in *.
  destruct (match responses code with Some r => r | None => ("???", "???") end)
    as [shortmsg longmsg].
  cbn [snd] in *.
  set (b := utf8_encode (error_message_format code (html_escape m) (html_escape longmsg)))
    in *.
  clearbody b.
  unfold has_page in Hp. rewrite Hp. unfold log_error.
  set (h1 := set_log (log h ++ [LogError code m])%list h).
  assert (Hv1 : forall x c, http1 (set_close_connection c (set_headers_buffer x h1)))
    by (intros x c; exact Hv).
  assert (Hv2 : forall x, http1 (set_headers_buffer x (set_log (log h1 ++ [LogRequest code])%list h1)))
    by (intros x; exact Hv).
  destruct (command h =? "HEAD") eqn:Hh; eexists; (split; [| split; [| split]]).
  1, 5:
    rewrite (bind_Ok _ _ h tt h1 eq_refl);
    (erewrite bind_Ok; [| apply send_response_run; [exact Hv | exact Hb]]);
    (erewrite bind_Ok; [| apply send_header_close; [apply Hv2 | reflexivity]]);
    (erewrite bind_Ok; cycle 1);
    [ erewrite bind_Ok;
        [| apply send_header_run; [exact Hv | reflexivity | reflexivity]];
      apply send_header_run; [exact Hv | reflexivity | reflexivity]
    | ];
    (erewrite bind_Ok; [| apply cors_end_headers_run; [exact Hv | reflexivity]]);
    run_get;
    cbn [command set_headers_buffer set_wfile set_close_connection set_log h1];
    unfold when; rewrite Hne, Hh; cbn [negb andb]; reflexivity.
  all: cbn [log fs_log wfile wfile_write modify snd set_wfile set_headers_buffer
            set_close_connection set_log h1];
    try reflexivity.
  - rewrite Hw. unfold wire, reason. cbn [app map]. rewrite ?append_nil_r.
    reflexivity.
  - rewrite <- app_assoc. reflexivity.
  - rewrite Hw. unfold wire, reason. cbn [app map]. reflexivity.
  - rewrite <- app_assoc. reflexivity.
Qed.

(** the dispatch of GET, HEAD and the other methods *)
Lemma handle_GET env fs h :
  command h = "GET" ->
  Script.handle_one_request env fs h = do_GET env fs Script.end_headers h.
Proof.
  intros Hc. unfold Script.handle_one_request, HttpServer.handle_one_request.
  rewrite (bind_Ok get _ h h h eq_refl). unfold cors_do, simple_do. rewrite Hc.
  reflexivity.
Qed.

Lemma handle_HEAD env fs h :
  command h = "HEAD" ->
  Script.handle_one_request env fs h = do_HEAD env fs Script.end_headers h.
Proof.
  intros Hc. unfold Script.handle_one_request, HttpServer.handle_one_request.
  rewrite (bind_Ok get _ h h h eq_refl). unfold cors_do, simple_do. rewrite Hc.
  reflexivity.
Qed.

Lemma handle_other env fs h :
  (command h =? "OPTIONS") = false -> (command h =? "GET") = false ->
  (command h =? "HEAD") = false ->
  Script.handle_one_request env fs h =
  send_error env Script.end_headers NOT_IMPLEMENTED
    (Some ("Unsupported method (" ++ py_repr env (command h) ++ ")")) None h.
Proof.
  intros Ho Hg Hh. unfold Script.handle_one_request, HttpServer.handle_one_request.
  rewrite (bind_Ok get _ h h h eq_refl). unfold cors_do, simple_do.
  rewrite Ho, Hg, Hh. reflexivity.
Qed.

(** * C5: the other methods are served by the inherited code *)

Ltac run_handler :=
  unfold response, Script.handle_one_request, HttpServer.handle_one_request,
    cors_do, simple_do, do_GET, send_head, send_head_file, find_index, copyfile,
    os_path_isdir, os_path_isfile, send_error, send_response, Script.end_headers,
    HttpServer.end_headers, send_response_only, send_header, log_request, log_error,
    log_message, fs_call, flush_headers, headers_buffer_append, wfile_write,
    bind, get, modify, when, ret, new_handler.

(** [GET /] where index.html is a regular file that opens *)
Lemma get_index env fs r f :
  req_command r = "GET" -> req_path r = "/" -> req_version r <> "HTTP/0.9" ->
  has_index env fs f ->
  not_modified env (req_headers r) (st_mtime f) = false ->
  response env fs r =
    wire 200 "OK"
      ([ ("Server", version_string env);
         ("Date", date_time_string env None);
         ("Content-type",
          guess_type env (os_path_join (translate_path env "/") "index.html"));
         ("Content-Length", str (st_size f));
         ("Last-Modified", date_time_string env (Some (st_mtime f))) ]
       ++ cors_headers)
      (f_data f).
Proof.
  intros Hc Hp Hv (Hdir & Hslash & Hfile & Hnoslash & Hopen) Hnm.
  apply String.eqb_neq in Hv.
  destruct r as [c p v hs]. simpl in *. subst c p.
  run_handler.
  repeat (simpl; rewrite ?Hv, ?Hdir, ?Hslash, ?Hfile, ?Hnoslash, ?Hopen, ?Hnm).
  unfold set_headers_buffer, set_wfile, wire. simpl. reflexivity.
Qed.

(** [GET] on a path that names nothing *)
Lemma get_unresolved env fs r :
  req_command r = "GET" -> req_version r <> "HTTP/0.9" ->
  does_not_resolve env fs (req_path r) ->
  exists h,
    Script.handle_one_request env fs (new_handler r) = (Ok tt, h) /\
    wfile h =
      wire 404 "File not found"
        (error_headers env 404 "File not found" ++ cors_headers)
        (error_page 404 "File not found").
Proof.
  intros Hc Hv (Hdir & Hp).
  apply String.eqb_neq in Hv.
  set (h0 := new_handler r) in *.
  set (p := translate_path env (req_path r)) in *.
  set (h1 := set_fs_log [Isdir p] h0).
  set (h2 := set_fs_log [Isdir p; Open p] h0).
  assert (Hhead : exists h,
            send_head_file env fs Script.end_headers p h1 = (Ok None, h) /\
            wfile h =
              wire 404 "File not found"
                (error_headers env 404 "File not found" ++ cors_headers)
                (error_page 404 "File not found")).
  { unfold send_head_file. destruct (endswith p "/") eqn:Hs.
    - destruct (send_error_run env 404 "File not found" h1 Hv eq_refl eq_refl eq_refl)
        as (h & Hrun & Hw & _).
      exists h. split; [rewrite (bind_Ok _ _ _ _ _ Hrun); reflexivity |].
      rewrite Hw. change (command h1) with (req_command r). rewrite Hc. reflexivity.
    - destruct Hp as [Hp | Hp]; [discriminate Hp |].
      rewrite (bind_Ok _ _ h1 tt h2 eq_refl), Hp.
      destruct (send_error_run env 404 "File not found" h2 Hv eq_refl eq_refl eq_refl)
        as (h & Hrun & Hw & _).
      exists h. split; [rewrite (bind_Ok _ _ _ _ _ Hrun); reflexivity |].
      rewrite Hw. change (command h2) with (req_command r). rewrite Hc. reflexivity. }
  destruct Hhead as (h & Hrun & Hw).
  exists h. split; [| exact Hw].
  rewrite (handle_GET env fs h0 Hc). unfold do_GET.
  rewrite (bind_Ok _ _ h0 None h); [reflexivity |].
  unfold send_head.
  rewrite (bind_Ok get _ h0 h0 h0 eq_refl).
  change (translate_path env (path h0)) with p.
  rewrite (bind_Ok _ _ h0 (os_isdir fs p) h1 eq_refl).
  rewrite Hdir. exact Hrun.
Qed.




(** * What leaves the handler *)


(** * The reply to a method that the class does not have *)



(** * HEAD *)

(** the methods that build a response do not touch the request *)
Ltac keeps_headers :=
  unfold send_response, send_response_only, send_header, log_request, log_error,
    log_message, Script.end_headers, HttpServer.end_headers, flush_headers,
    headers_buffer_append, wfile_write;
  repeat keeps_step.

Lemma send_header_keeps_command keyword value : keeps command (send_header keyword value).
Proof. keeps_headers. Qed.

Lemma send_response_keeps_command env code message :
  keeps command (send_response env code message).
Proof. keeps_headers. Qed.

Lemma end_headers_keeps_command : keeps command Script.end_headers.
Proof. keeps_headers. Qed.

Lemma log_message_keeps_command e : keeps command (log_message e).
Proof. keeps_headers. Qed.

Lemma fs_call_keeps_command op : keeps command (fs_call op).
Proof. unfold fs_call. repeat keeps_step. Qed.

Section Head.

Variable env : Env.
Variable fs : FS.
Hypothesis Henv : env_clean env.

(** the reply of [send_error], as a triple *)
Lemma send_error_reply code m cmd :
  no_cr m = true -> has_page code = true ->
  hoare (fun h => Fresh h /\ command h = cmd)
    (send_error env Script.end_headers code (Some m) None)
    (fun _ h =>
       Sent code m (error_headers env code m)
         (if cmd =? "HEAD" then "" else error_page code m) h /\
       command h = cmd).
Proof.
  intros Hm Hp.
  pose proof (error_page_not_empty code m) as Hb.
  unfold send_error, error_headers. unfold error_page in *.
  destruct (match responses code with Some r => r | None => ("???", "???") end)
    as [shortmsg longmsg].
  cbn [snd] in *.
  set (b := utf8_encode (error_message_format code (html_escape m) (html_escape longmsg)))
    in *.
  clearbody b.
  unfold has_page in Hp. rewrite Hp.
  eapply hoare_bind;
    [apply hoare_frame; [apply log_message_Fresh | apply log_message_keeps_command]
    | intros []].
  eapply hoare_bind;
    [apply hoare_frame;
       [apply (send_response_Fresh env Henv code (Some m)), Hm
       | apply send_response_keeps_command]
    | intros []].
  eapply hoare_bind;
    [apply hoare_frame;
       [apply send_header_Building; reflexivity | apply send_header_keeps_command]
    | intros []].
  eapply hoare_bind.
  { eapply hoare_bind;
      [apply hoare_frame;
         [apply send_header_Building; reflexivity | apply send_header_keeps_command]
      | intros []].
    apply hoare_frame;
      [apply send_header_Building; [reflexivity | apply no_cr_str]
      | apply send_header_keeps_command]. }
  intros [].
  eapply hoare_bind;
    [apply hoare_frame; [apply end_headers_Building | apply end_headers_keeps_command]
    | intros []].
  apply hoare_self. intros s0 s [Heq [Hs Hc]]. subst s0.
  rewrite Hc. unfold reason in Hs.
  unfold when. rewrite Hb.
  destruct (cmd =? "HEAD"); cbn [negb andb].
  - exists tt, s. auto.
  - destruct (wfile_write_Sent _ _ _ _ b s Hs) as ([] & s' & Hrun & Hs').
    exists tt, s'. split; [exact Hrun |]. split; [exact Hs' |].
    pose proof (keeps_modify (E := Exn) command
                  (fun h => set_wfile (wfile h ++ b) h) (fun _ => eq_refl) s) as Hk.
    unfold wfile_write in Hrun. rewrite Hrun in Hk. simpl in Hk. congruence.
Qed.

Lemma os_path_isdir_keeps_command p : keeps command (os_path_isdir fs p).
Proof. unfold os_path_isdir, fs_call. repeat keeps_step. Qed.

Lemma find_index_keeps_command path indexes :
  keeps command (find_index fs path indexes).
Proof.
  induction indexes as [| index rest IH]; simpl.
  - apply keeps_ret.
  - unfold os_path_isfile, fs_call.
    repeat first [apply IH | keeps_step].
Qed.

Lemma send_error_HEAD code m (r : option FileObj) :
  no_cr m = true -> has_page code = true ->
  hoare (fun h => Fresh h /\ command h = "HEAD")
    (send_error env Script.end_headers code (Some m) None ;; ret r) (fun _ => Bare).
Proof.
  intros Hm Hp.
  eapply hoare_bind; [apply (send_error_reply code m "HEAD" Hm Hp) | intros []].
  apply hoare_ret. intros s [Hs _]. do 3 eexists. exact Hs.
Qed.

(** status line, headers, [end_headers], and nothing after *)
Lemma end_headers_bare code message hs (r : option FileObj) :
  hoare (Building code message hs) (Script.end_headers ;; ret r) (fun _ => Bare).
Proof.
  eapply hoare_bind; [apply end_headers_Building | intros []].
  apply hoare_ret. intros s Hs. do 3 eexists. exact Hs.
Qed.

Lemma list_directory_HEAD path :
  hoare (fun h => Fresh h /\ command h = "HEAD")
    (list_directory env fs Script.end_headers path) (fun _ => Bare).
Proof.
  unfold list_directory.
  eapply hoare_bind;
    [apply hoare_frame; [apply fs_call_Fresh | apply fs_call_keeps_command] | intros []].
  destruct (os_listdir fs path) as [names |];
    [| apply send_error_HEAD; reflexivity].
  apply hoare_self. intros self. apply hoare_forget. apply hoare_drop.
  eapply hoare_bind; [apply list_entries_Fresh | intros entries].
  eapply hoare_bind; [apply send_response_table, Henv | intros []].
  eapply hoare_bind; [apply send_header_Building; [reflexivity |] | intros []].
  { rewrite no_cr_app. apply getfilesystemencoding_clean, Henv. }
  eapply hoare_bind;
    [apply send_header_Building; [reflexivity | apply no_cr_str] | intros []].
  apply end_headers_bare.
Qed.

Lemma send_head_file_HEAD path :
  hoarex (fun h => Fresh h /\ command h = "HEAD")
    (send_head_file env fs Script.end_headers path) (fun _ => Bare) Refused.
Proof.
  unfold send_head_file.
  destruct (endswith path "/");
    [apply hoarex_total, send_error_HEAD; reflexivity |].
  eapply hoarex_step;
    [apply hoare_frame; [apply fs_call_Fresh | apply fs_call_keeps_command] | intros []].
  destruct (os_open fs path) as [f | |].
  - apply hoarex_total, hoare_drop.
    eapply hoare_bind; [apply fs_call_Fresh | intros []].
    apply hoare_self. intros self. apply hoare_forget.
    destruct (not_modified env (headers self) (st_mtime f)).
    + eapply hoare_bind; [apply send_response_table, Henv | intros []].
      apply end_headers_bare.
    + eapply hoare_bind; [apply send_response_table, Henv | intros []].
      eapply hoare_bind;
        [apply send_header_Building; [reflexivity | apply guess_type_clean, Henv]
        | intros []].
      eapply hoare_bind;
        [apply send_header_Building; [reflexivity | apply no_cr_str] | intros []].
      eapply hoare_bind;
        [apply send_header_Building; [reflexivity | apply date_time_string_clean, Henv]
        | intros []].
      apply end_headers_bare.
  - apply hoarex_total, send_error_HEAD; reflexivity.
  - apply hoarex_raise. intros h [(_ & Hw & _) _]. split; [reflexivity | exact Hw].
Qed.

Lemma send_head_HEAD :
  hoarex (fun h => Ready h /\ command h = "HEAD")
    (send_head env fs Script.end_headers) (fun _ => Bare) Refused.
Proof.
  unfold send_head.
  apply hoarex_self. intros self.
  apply hoarex_pure with (phi := no_cr (path self) = true);
    [intros s [-> [[_ Hp] _]]; exact Hp | intros Hp].
  eapply hoarex_conseq with
    (P' := fun h => Fresh h /\ command h = "HEAD") (Q' := fun _ => Bare) (X' := Refused);
    [| intros s [_ [[Hf _] Hc]]; split; assumption | auto | auto].
  eapply hoarex_step;
    [apply hoare_frame; [apply os_path_isdir_Fresh | apply os_path_isdir_keeps_command]
    | intros d].
  destruct d; [| apply send_head_file_HEAD].
  destruct (negb (endswith (urlsplit_path env (path self)) "/")).
  - apply hoarex_total, hoare_drop.
    eapply hoare_bind; [apply send_response_table, Henv | intros []].
    eapply hoare_bind;
      [apply send_header_Building;
         [reflexivity | apply redirect_url_clean; [exact Henv | exact Hp]]
      | intros []].
    eapply hoare_bind; [apply send_header_Building; reflexivity | intros []].
    apply end_headers_bare.
  - eapply hoarex_step;
      [apply hoare_frame; [apply find_index_Fresh | apply find_index_keeps_command]
      | intros i].
    destruct i as [index |];
      [apply send_head_file_HEAD | apply hoarex_total, list_directory_HEAD].
Qed.

End Head.



(** * GET on a file, GET on a directory without the slash *)





(** * HTTP/0.9: the override changes nothing *)

Lemma http09_kept {A} (c : HttpServer.M A) :
  keeps request_version c -> forall h, http09 h -> http09 (snd (c h)).
Proof. intros Hk h Hh. unfold http09 in *. rewrite (Hk h). exact Hh. Qed.

Ltac keeps_handler :=
  unfold send_error, send_response, send_response_only, send_header, log_request,
    log_error, log_message, Script.end_headers, HttpServer.end_headers,
    flush_headers, headers_buffer_append, wfile_write, os_path_isdir,
    os_path_isfile, os_path_islink, copyfile, fs_call;
  repeat keeps_step.

Section Legacy.

Variable env : Env.
Variable fs : FS.

Lemma end_headers_agree : agree http09 HttpServer.end_headers Script.end_headers.
Proof.
  intros h Hh.
  rewrite (base_end_headers_run09 h Hh), (cors_end_headers_run09 h Hh).
  split; [reflexivity | exact Hh].
Qed.

Lemma list_entries_keeps_version path names :
  keeps request_version (list_entries fs path names).
Proof.
  induction names as [| name rest IH]; simpl.
  - apply keeps_ret.
  - unfold os_path_isdir, os_path_islink, fs_call.
    repeat first [apply IH | keeps_step].
Qed.

Lemma find_index_keeps_version path indexes :
  keeps request_version (find_index fs path indexes).
Proof.
  induction indexes as [| index rest IH]; simpl.
  - apply keeps_ret.
  - unfold os_path_isfile, fs_call.
    repeat first [apply IH | keeps_step].
Qed.

(** one step of two runs that differ in [end_headers] only *)
Ltac agree_step :=
  first
    [ apply end_headers_agree
    | apply agree_same; apply http09_kept;
      first [ apply list_entries_keeps_version | apply find_index_keeps_version
            | solve [keeps_handler] ]
    | apply agree_bind; [| intros ?]
    | match goal with
      | |- agree _ (if ?b then _ else _) (if ?b then _ else _) => destruct b
      | |- agree _ (match ?x with _ => _ end) (match ?x with _ => _ end) => destruct x
      | |- agree _ (let (_, _) := ?x in _) (let (_, _) := ?x in _) => destruct x
      end ].

Lemma send_error_agree code message explain :
  agree http09 (send_error env HttpServer.end_headers code message explain)
    (send_error env Script.end_headers code message explain).
Proof. unfold send_error. repeat agree_step. Qed.

Lemma send_head_agree :
  agree http09 (send_head env fs HttpServer.end_headers)
    (send_head env fs Script.end_headers).
Proof.
  unfold send_head, send_head_file, list_directory.
  repeat first [apply send_error_agree | agree_step].
Qed.

Lemma simple_do_agree name :
  (name =? "OPTIONS") = false ->
  match simple_do env fs HttpServer.end_headers name, cors_do env fs name with
  | Some m1, Some m2 => agree http09 m1 m2
  | None, None => True
  | _, _ => False
  end.
Proof.
  intros Hn. unfold cors_do, simple_do. rewrite Hn.
  destruct (name =? "GET"); [| destruct (name =? "HEAD"); [| exact I]].
  - unfold do_GET. repeat first [apply send_head_agree | agree_step].
  - unfold do_HEAD. repeat first [apply send_head_agree | agree_step].
Qed.

End Legacy.

(** X6: for a request with version HTTP/0.9 and a method other than
    OPTIONS, a CORSHTTPRequestHandler does exactly what a plain
    SimpleHTTPRequestHandler does, byte for byte and log for log: the
    overridden [end_headers] adds nothing, since the header methods of
    the library write nothing for that version. *)
Theorem http09_reply_is_that_of_the_library env fs r :
  req_version r = "HTTP/0.9" -> req_command r <> "OPTIONS" ->
  Script.handle_one_request env fs (new_handler r) =
    simple_handle_one_request env fs (new_handler r).
Proof.
  intros Hv Hc. apply String.eqb_neq in Hc.
  assert (Hh : http09 (new_handler r))
    by (unfold http09; simpl; rewrite Hv; reflexivity).
  unfold Script.handle_one_request, simple_handle_one_request,
    HttpServer.handle_one_request.
  rewrite !(bind_Ok get _ (new_handler r) (new_handler r) (new_handler r) eq_refl).
  change (command (new_handler r)) with (req_command r).
  pose proof (simple_do_agree env fs (req_command r) Hc) as Ha.
  destruct (simple_do env fs HttpServer.end_headers (req_command r)) as [m1 |];
    destruct (cors_do env fs (req_command r)) as [m2 |]; try contradiction.
  - symmetry. apply (Ha (new_handler r) Hh).
  - symmetry. apply (send_error_agree env _ _ _ (new_handler r) Hh).
Qed.

Lemma http09_reply_is_that_of_the_library_witness :
  Script.handle_one_request Sample.env Sample.fs (new_handler Sample.get_root_09) =
    simple_handle_one_request Sample.env Sample.fs (new_handler Sample.get_root_09).
Proof.
  apply (http09_reply_is_that_of_the_library Sample.env Sample.fs Sample.get_root_09).
  - reflexivity.
  - simpl. discriminate.
Defined.

End Responses.

(** ** Proofs: the process *)

Module Lifecycle.
Import Py PyMonad HttpServer Script Spec Responses.
Local Open Scope string_scope.
Local Open Scope py_scope.

(** * The process: the accept loop, connection by connection *)

Lemma add_effects_nil p : add_effects [] p = p.
Proof. destruct p. unfold add_effects. simpl. rewrite app_nil_r. reflexivity. Qed.

Lemma add_effects_app es1 es2 p :
  add_effects es2 (add_effects es1 p) = add_effects (es1 ++ es2)%list p.
Proof. unfold add_effects. simpl. rewrite app_assoc. reflexivity. Qed.

Lemma effect_run e p : effect e p = (Ok tt, add_effects [e] p).
Proof. reflexivity. Qed.

Section Handshaken.

Variable ok : TLSVersion -> bool.

Lemma served_after_app l1 l2 prev :
  served_after ok prev l1 -> handshaken ok l2 -> served_after ok prev (l1 ++ l2)%list.
Proof.
  revert prev. induction l1 as [| e l1 IH]; intros prev H1 H2; simpl.
  - apply H2.
  - destruct H1 as [He H1]. split; [exact He | apply IH; assumption].
Qed.

Lemma handshaken_nil : handshaken ok [].
Proof. intros prev. exact I. Qed.

Lemma handshaken_app l1 l2 :
  handshaken ok l1 -> handshaken ok l2 -> handshaken ok (l1 ++ l2)%list.
Proof. intros H1 H2 prev. apply served_after_app; [apply H1 | exact H2]. Qed.

(** effects other than [Served] need no handshake before them *)
Lemma handshaken_unserved l :
  forallb (fun e => match e with Served _ _ => false | _ => true end) l = true ->
  handshaken ok l.
Proof.
  induction l as [| e l IH]; intros H prev; simpl; [exact I |].
  simpl in H. apply andb_true_iff in H. destruct H as [He Hl].
  split; [destruct e; try exact I; discriminate He | apply IH, Hl].
Qed.

End Handshaken.

(** a stricter test on the versions can be replaced by a weaker one *)
Lemma served_after_weaken (ok ok' : TLSVersion -> bool) l :
  (forall v, ok v = true -> ok' v = true) ->
  forall prev, served_after ok prev l -> served_after ok' prev l.
Proof.
  intros Hw. induction l as [| e l IH]; intros prev H; simpl; [exact I |].
  destruct H as [He H]. split; [| apply IH, H].
  destruct e; try exact I.
  destruct prev as [[] |]; try contradiction. apply Hw, He.
Qed.

Lemma tls_leb_refl v : tls_leb v v = true.
Proof. destruct v; reflexivity. Qed.

Lemma tls_leb_trans a b c : tls_leb a b = true -> tls_leb b c = true -> tls_leb a c = true.
Proof.
  unfold tls_leb. rewrite !Nat.leb_le. lia.
Qed.

(** a handshake settles on a version that the context allows *)
Lemma negotiate_allowed w offer v :
  negotiate (context w) offer = Some v -> allowed w v = true.
Proof.
  destruct offer as [lo hi]. unfold negotiate, allowed, context.
  cbn [cert_chain minimum_version maximum_version].
  destruct (tls_leb hi (ssl_maximum w)) eqn:Hhi.
  - destruct (tls_leb lo hi && tls_leb (ssl_minimum w) hi) eqn:Hc; [| discriminate].
    intros H. injection H as <-.
    apply andb_true_iff in Hc. destruct Hc as [_ Hmin]. rewrite Hmin, Hhi. reflexivity.
  - destruct (tls_leb lo (ssl_maximum w) && tls_leb (ssl_minimum w) (ssl_maximum w))
      eqn:Hc; [| discriminate].
    intros H. injection H as <-.
    apply andb_true_iff in Hc. destruct Hc as [_ Hmin].
    rewrite Hmin, tls_leb_refl. reflexivity.
Qed.

Lemma handshakes_version w c :
  handshakes w c =
  match handshake_version w c with Some _ => true | None => false end.
Proof. unfold handshakes, handshake_version. destruct (tls_offer c); reflexivity. Qed.

Lemma handshake_version_allowed w c v :
  handshake_version w c = Some v -> allowed w v = true.
Proof.
  unfold handshake_version. destruct (tls_offer c) as [offer |]; [| discriminate].
  apply negotiate_allowed.
Qed.

Section Trace.

Variable w : World.

(** the handler on the connection of [c]: it comes back, with a value or
    an exception, and has written [reply w c] *)
Lemma finish_request_run c p :
  finish_request w c false p =
    (if handler_raises w c
     then Raise (HandlerError
                   match fst (Script.handle (world_env w) (world_fs w) (sent c)
                                new_object) with
                   | Raise e => e
                   | _ => ValueError
                   end)
     else Ok tt,
     add_effects [Served (sent c) (reply w c)] p).
Proof.
  unfold finish_request, reply, handler_raises.
  pose proof (handle_terminates (world_env w) (world_fs w) (sent c) new_object) as Ht.
  destruct (Script.handle (world_env w) (world_fs w) (sent c) new_object)
    as [[[] | e |] h]; cbn [fst snd] in *.
  - reflexivity.
  - reflexivity.
  - congruence.
Qed.

(** the handshake is part of [accept] *)
Lemma get_request_run c p :
  httpd_socket p = Some (listening w) ->
  get_request c p =
    match handshake_version w c with
    | Some v => (Ok tt, add_effects [Accept; Handshake v] p)
    | None => (Raise SSLError, add_effects [Accept; HandshakeFailure] p)
    end.
Proof.
  intros Hs. unfold get_request, handshake_version. run_get. rewrite Hs.
  rewrite (bind_Ok _ _ _ _ _ (effect_run Accept p)).
  cbn [sock_context listening wrap_socket].
  destruct (tls_offer c) as [offer |].
  - destruct (negotiate (context w) offer) as [v |].
    + rewrite effect_run, add_effects_app. reflexivity.
    + rewrite (bind_Ok _ _ _ _ _ (effect_run _ _)), add_effects_app. reflexivity.
  - rewrite (bind_Ok _ _ _ _ _ (effect_run _ _)), add_effects_app. reflexivity.
Qed.

(** one connection, exactly *)
Lemma connection_run c sigint p :
  httpd_socket p = Some (listening w) ->
  _handle_request_noblock w c sigint p =
    (if sigint && handshakes w c then Raise KeyboardInterrupt else Ok tt,
     add_effects (connection_trace w c sigint) p).
Proof.
  intros Hs.
  rewrite handshakes_version. unfold connection_trace.
  unfold _handle_request_noblock.
  unfold bind at 1. unfold try_except at 1. unfold bind at 1.
  rewrite (get_request_run c p Hs).
  destruct (handshake_version w c) as [v |].
  2:{ cbn [is_OSError]. rewrite andb_false_r. reflexivity. }
  rewrite andb_true_r. unfold ret at 1. cbv iota beta.
  unfold try_except, process_request. unfold bind at 1.
  destruct sigint.
  - unfold finish_request, raise, shutdown_request. cbn [is_Exception].
    unfold bind. rewrite effect_run, !add_effects_app. reflexivity.
  - rewrite finish_request_run.
    destruct (handler_raises w c); cbn [is_Exception].
    + unfold shutdown_request, bind. rewrite !effect_run, !add_effects_app.
      reflexivity.
    + unfold shutdown_request. rewrite !effect_run, !add_effects_app. reflexivity.
Qed.

(** the accept loop, exactly: it ends at the first Ctrl+C that reaches
    the process, and waits for ever if there is none *)
Lemma serve_loop_trace events p :
  httpd_socket p = Some (listening w) ->
  __shutdown_request p = false ->
  serve_loop w events p =
    (if existsb (interrupts w) events then Raise KeyboardInterrupt else Blocked,
     add_effects (trace w events) p).
Proof.
  revert p. induction events as [| e rest IH]; intros p Hs Hf.
  - simpl. unfold bind, get. rewrite Hf, add_effects_nil. reflexivity.
  - simpl serve_loop. unfold bind at 1, get. rewrite Hf.
    destruct e as [| c | | c]; simpl existsb; simpl trace.
    + apply IH; assumption.
    + unfold bind. rewrite (connection_run c false p Hs). simpl.
      rewrite (IH (add_effects (connection_trace w c false) p) Hs Hf).
      rewrite add_effects_app. reflexivity.
    + rewrite add_effects_nil. reflexivity.
    + unfold bind. rewrite (connection_run c true p Hs). simpl.
      destruct (handshakes w c); simpl.
      * rewrite app_nil_r. reflexivity.
      * rewrite (IH (add_effects (connection_trace w c true) p) Hs Hf).
        rewrite add_effects_app. reflexivity.
Qed.

(** ** What holds of every trace *)

Lemma connection_trace_effects c sigint :
  forallb connection_effect (connection_trace w c sigint) = true.
Proof.
  unfold connection_trace.
  destruct (handshake_version w c); [| reflexivity].
  destruct sigint; [reflexivity |].
  destruct (handler_raises w c); reflexivity.
Qed.

Lemma trace_effects events : forallb connection_effect (trace w events) = true.
Proof.
  induction events as [| e rest IH]; simpl; [reflexivity |].
  destruct e as [| c | | c]; try assumption; try reflexivity;
    rewrite forallb_app, connection_trace_effects; simpl;
    [exact IH | destruct (handshakes w c); [reflexivity | exact IH]].
Qed.

(** the handler runs right after the handshake of its connection, at a
    version that the context allows *)
Lemma connection_trace_handshaken c sigint :
  handshaken (allowed w) (connection_trace w c sigint).
Proof.
  unfold connection_trace.
  destruct (handshake_version w c) as [v |] eqn:Hv;
    [| apply handshaken_unserved; reflexivity].
  pose proof (handshake_version_allowed w c v Hv) as Ha.
  destruct sigint; [apply handshaken_unserved; reflexivity |].
  intros prev. destruct (handler_raises w c); simpl; auto 8.
Qed.

Lemma trace_handshaken events : handshaken (allowed w) (trace w events).
Proof.
  induction events as [| e rest IH]; simpl; [apply handshaken_nil |].
  destruct e as [| c | | c]; try assumption; try apply handshaken_nil;
    (apply handshaken_app; [apply connection_trace_handshaken |]);
    [exact IH | destruct (handshakes w c); [apply handshaken_nil | exact IH]].
Qed.

(** nothing after the first Ctrl+C that reaches the process leaves a trace *)
Lemma trace_cut pre e post :
  forallb (fun x => negb (interrupts w x)) pre = true ->
  interrupts w e = true ->
  trace w (pre ++ e :: post) = trace w (pre ++ [e]) /\
  existsb (interrupts w) (pre ++ e :: post) = true.
Proof.
  intros Hq He. split.
  - induction pre as [| x pre IH]; simpl.
    + destruct e as [| c | | c]; try discriminate He; [reflexivity |].
      simpl in He. rewrite He. reflexivity.
    + simpl in Hq. apply andb_true_iff in Hq. destruct Hq as [Hx Hq].
      destruct x as [| c | | c]; try discriminate Hx.
      * apply IH, Hq.
      * rewrite (IH Hq). reflexivity.
      * simpl in Hx. apply negb_true_iff in Hx. rewrite Hx, (IH Hq). reflexivity.
  - rewrite existsb_app. simpl. rewrite He. apply orb_true_r.
Qed.

End Trace.

(** * [main] from start to end *)

(** a certificate file is missing: two lines and [sys.exit(1)] *)
Lemma main_missing w events :
  path_exists w cert_file = false \/ path_exists w key_file = false ->
  run w events = (Raise (SystemExit 1), mkProcess guidance None false false).
Proof.
  intros H. unfold run, main. cbv zeta.
  change (path_div "ssl" "server.crt") with cert_file.
  change (path_div "ssl" "server.key") with key_file.
  assert (Hb : negb (path_exists w cert_file) || negb (path_exists w key_file) = true).
  { destruct H as [-> | ->]; [reflexivity | apply orb_true_r]. }
  rewrite Hb. reflexivity.
Qed.

(** both files exist and the port is bound, but the pair does not load *)
Lemma main_bad_chain w events :
  path_exists w cert_file = true -> path_exists w key_file = true ->
  can_bind w "" 3000 = true -> cert_load w cert_file key_file <> CertLoaded ->
  run w events =
    (Raise (load_error (cert_load w cert_file key_file)),
     mkProcess [SocketCreate; Bind "" 3000; Listen] (Some bound) false false).
Proof.
  intros Hc Hk Hb Hl. unfold run, main. cbv zeta.
  change (path_div "ssl" "server.crt") with cert_file.
  change (path_div "ssl" "server.key") with key_file.
  rewrite Hc, Hk. simpl negb. simpl orb. unfold when.
  unfold HTTPServer, load_cert_chain, port. simpl fst. simpl snd.
  rewrite Hb.
  destruct (cert_load w cert_file key_file); [contradiction | reflexivity ..].
Qed.

(** the port cannot be bound *)
Lemma main_port_busy w events :
  path_exists w cert_file = true -> path_exists w key_file = true ->
  can_bind w "" 3000 = false ->
  run w events = (Raise OSError, mkProcess [SocketCreate; SocketClose] None false false).
Proof.
  intros Hc Hk Hb. unfold run, main. cbv zeta.
  change (path_div "ssl" "server.crt") with cert_file.
  change (path_div "ssl" "server.key") with key_file.
  rewrite Hc, Hk. simpl negb. simpl orb. unfold when.
  unfold HTTPServer, port. simpl fst. simpl snd.
  rewrite Hb. reflexivity.
Qed.

(** startup succeeds: what is left of [main] is the [try] statement *)
Lemma main_started w events :
  starts w ->
  run w events =
    match serve_forever w events (started w) with
    | (Raise KeyboardInterrupt, p) => (print notice ;; shutdown) p
    | rp => rp
    end.
Proof.
  intros (Hc & Hk & Hb & Hl). unfold run, main. cbv zeta.
  change (path_div "ssl" "server.crt") with cert_file.
  change (path_div "ssl" "server.key") with key_file.
  rewrite Hc, Hk. simpl negb. simpl orb. unfold when.
  unfold HTTPServer, load_cert_chain, port. simpl fst. simpl snd.
  rewrite Hb, Hl.
  unfold try_except at 1.
  unfold bind, ret, get, print, effect, set_httpd_socket, modify.
  unfold started, startup, listening, wrap_socket, bound, banner, context,
    new_SSLContext, notice.
  simpl.
  match goal with
  | |- context [serve_forever w events ?s] =>
      destruct (serve_forever w events s) as [[[] | e |] p]
  end; try destruct e; reflexivity.
Qed.

(** a run that starts, exactly *)
Lemma run_trace w events :
  starts w ->
  run w events =
    if existsb (interrupts w) events
    then (Ok tt,
          mkProcess (startup ++ trace w events ++ [Print notice]) (Some (listening w))
            true true)
    else (Blocked,
          mkProcess (startup ++ trace w events) (Some (listening w)) false false).
Proof.
  intros Hw. rewrite (main_started w events Hw).
  unfold serve_forever, bind, set_is_shut_down, modify, try_finally.
  change (mkProcess (effects (started w)) (httpd_socket (started w))
            (__shutdown_request (started w)) false) with (started w).
  rewrite (serve_loop_trace w events (started w) eq_refl eq_refl).
  destruct (existsb (interrupts w) events).
  - unfold bind, print, effect, shutdown, set_shutdown_request, modify, get.
    cbn [effects httpd_socket __shutdown_request __is_shut_down add_effects started].
    rewrite <- app_assoc. reflexivity.
  - reflexivity.
Qed.

(** the same to the end of the module: when [main] has returned its
    frame is dropped, and the listening socket is closed with it *)
Lemma script_trace w events :
  starts w ->
  script w events =
    if existsb (interrupts w) events
    then (Ok tt,
          mkProcess (startup ++ trace w events ++ [Print notice; SocketClose]) None
            true true)
    else (Blocked,
          mkProcess (startup ++ trace w events) (Some (listening w)) false false).
Proof.
  intros Hw. unfold script, bind.
  change (main w events new_process) with (run w events).
  rewrite (run_trace w events Hw).
  destruct (existsb (interrupts w) events); [| reflexivity].
  unfold drop_frame, bind, get, when, effect, set_httpd_socket, modify.
  cbn [httpd_socket sock_closed listening wrap_socket bound negb effects
       __shutdown_request __is_shut_down].
  rewrite <- !app_assoc. reflexivity.
Qed.

(** a run that Ctrl+C reaches: [main] returns *)
Lemma run_interrupted w pre e post :
  starts w ->
  forallb (fun x => negb (interrupts w x)) pre = true ->
  interrupts w e = true ->
  run w (pre ++ e :: post)%list =
    (Ok tt,
     mkProcess (startup ++ trace w (pre ++ [e]) ++ [Print notice]) (Some (listening w))
       true true).
Proof.
  intros Hw Hq He. destruct (trace_cut w pre e post Hq He) as [Ht Hx].
  rewrite (run_trace w _ Hw), Hx, Ht. reflexivity.
Qed.

Lemma connection_effect_In e es :
  forallb connection_effect es = true -> In e es -> connection_effect e = true.
Proof. intros H Hi. rewrite forallb_forall in H. apply H, Hi. Qed.

Lemma connections_print_nothing es :
  forallb connection_effect es = true ->
  flat_map (fun e => match e with Print l => [l] | _ => [] end) es = [].
Proof.
  induction es as [| e es IH]; simpl; [reflexivity |].
  intros H. apply andb_true_iff in H. destruct H as [He Hes].
  rewrite (IH Hes). destruct e; try reflexivity; discriminate He.
Qed.

Lemma last_line_notice a es s b1 b2 :
  forallb connection_effect es = true ->
  last_line (mkProcess (a ++ es ++ [Print notice]) s b1 b2) = Some notice.
Proof.
  intros Hc. unfold last_line, stdout, effects.
  rewrite !flat_map_app, (connections_print_nothing es Hc).
  rewrite app_nil_l, map_app. apply last_last.
Qed.

Lemma last_effect_notice a es s b1 b2 d :
  last (effects (mkProcess (a ++ es ++ [Print notice]) s b1 b2)) d = Print notice.
Proof. unfold effects. rewrite app_assoc. apply last_last. Qed.

(** the effects of a run that starts: the startup, the connections, and
    the notice if it was interrupted *)
Lemma run_effects w events :
  starts w ->
  effects (snd (run w events)) =
    (startup ++ trace w events ++
     if existsb (interrupts w) events then [Print notice] else [])%list /\
  httpd_socket (snd (run w events)) = Some (listening w).
Proof.
  intros Hw. rewrite (run_trace w events Hw).
  destruct (existsb (interrupts w) events); cbn [snd effects httpd_socket];
    rewrite ?app_nil_r; auto.
Qed.

(** an effect of a run that is one of a connection is in its trace *)
Lemma run_connection_effect w events e :
  starts w -> connection_effect e = true ->
  occurs e (snd (run w events)) -> In e (trace w events).
Proof.
  intros Hw He Ho. unfold occurs in Ho.
  rewrite (proj1 (run_effects w events Hw)) in Ho.
  apply in_app_or in Ho. destruct Ho as [Ho | Ho].
  - exfalso. unfold startup, banner in Ho. simpl in Ho.
    repeat (destruct Ho as [<- | Ho]; [discriminate He |]). exact Ho.
  - apply in_app_or in Ho. destruct Ho as [Ho | Ho]; [exact Ho |].
    exfalso. destruct (existsb (interrupts w) events); simpl in Ho;
      [destruct Ho as [<- | []]; discriminate He | exact Ho].
Qed.

(** * C4: a missing certificate file *)



(** * C6: Ctrl+C *)

(** C6: after a successful startup, when Ctrl+C reaches the process (at
    the first event that interrupts, while the loop waits or while it
    serves an accepted connection), [main] prints the notice as its last
    line and returns, so the process ends with status 0 and does not wait;
    [shutdown] has set the flag that stops the loop, and nothing that
    arrives after the interrupt is accepted. *)
Theorem interrupt_stops_the_server w pre e post :
  starts w ->
  forallb (fun x => negb (interrupts w x)) pre = true ->
  interrupts w e = true ->
  fst (run w (pre ++ e :: post)) = Ok tt /\
  exit_status (fst (run w (pre ++ e :: post))) = Some 0 /\
  last_line (snd (run w (pre ++ e :: post))) = Some (NL ++ "Server stopped") /\
  last (effects (snd (run w (pre ++ e :: post)))) Accept = Print (NL ++ "Server stopped") /\
  __shutdown_request (snd (run w (pre ++ e :: post))) = true /\
  run w (pre ++ e :: post) = run w (pre ++ [e]).
Proof.
  intros Hw Hq He.
  rewrite (run_interrupted w pre e post Hw Hq He), (run_interrupted w pre e [] Hw Hq He).
  unfold fst, snd.
  repeat split.
  - apply (last_line_notice startup _ _ _ _ (trace_effects w _)).
  - apply (last_effect_notice startup).
Qed.

Lemma interrupt_stops_the_server_witness :
  starts Sample.world /\
  fst (run Sample.world [Connection Sample.browser; SIGINT; Connection Sample.browser])
    = Ok tt /\
  exit_status
    (fst (run Sample.world [Connection Sample.browser; SIGINT; Connection Sample.browser]))
    = Some 0 /\
  last_line
    (snd (run Sample.world [Connection Sample.browser; SIGINT; Connection Sample.browser]))
    = Some (NL ++ "Server stopped").
Proof.
  assert (Hw : starts Sample.world) by (repeat split).
  split; [exact Hw |].
  destruct (interrupt_stops_the_server Sample.world [Connection Sample.browser] SIGINT
              [Connection Sample.browser] Hw eq_refl eq_refl)
    as (H1 & H2 & H3 & _).
  repeat split; assumption.
Defined.

(** * C7: what is released on interrupt *)



(** * C8: TLS before HTTP *)

(** C8, the claim as stated, fails in its floor: the script sets no
    [minimum_version], so the lowest version is that of the
    installation.  Where it still allows TLS 1.0, a client that offers
    nothing above TLS 1.1 is accepted after a handshake at TLS 1.1, and
    its request is served. *)
Lemma legacy_installation_serves_tls11 :
  starts Sample.world_legacy /\
  effects (snd (run Sample.world_legacy [Connection Sample.old_client; SIGINT])) =
    (startup ++
     [ Accept; Handshake TLSv1_1;
       Served (sent Sample.old_client) (reply Sample.world_legacy Sample.old_client);
       ConnectionClose; Print notice ])%list /\
  tls_leb TLSv1_2 TLSv1_1 = false /\
  ~ served_after_handshake None
      (effects (snd (run Sample.world_legacy [Connection Sample.old_client; SIGINT]))).
Proof.
  assert (Hw : starts Sample.world_legacy) by (repeat split).
  assert (He : effects (snd (run Sample.world_legacy
                               [Connection Sample.old_client; SIGINT])) =
               (startup ++
                [ Accept; Handshake TLSv1_1;
                  Served (sent Sample.old_client)
                    (reply Sample.world_legacy Sample.old_client);
                  ConnectionClose; Print notice ])%list)
    by (vm_compute; reflexivity).
  split; [exact Hw |]. split; [exact He |]. split; [reflexivity |].
  rewrite He. unfold served_after_handshake. simpl.
  intros H. decompose [and] H. discriminate.
Qed.

(** C8, amended: after a successful startup, for any connections and
    interrupts that follow, the socket of the server is the one bound on
    port 3000 on all interfaces, wrapped server-side by a
    PROTOCOL_TLS_SERVER context that holds the certificate pair, with the
    lowest and highest version of the installation; every run of a
    handler follows at once the handshake of its connection, at a version
    that this context allows, and a connection whose handshake fails is
    not served.  The version is TLS 1.2 or newer where the lowest version
    of the installation is: the script sets none. *)
Theorem requests_are_served_over_tls w events :
  starts w ->
  occurs (Bind "" 3000) (snd (run w events)) /\
  httpd_socket (snd (run w events)) = Some (listening w) /\
  sock_address (listening w) = Some ("", 3000) /\
  sock_server_side (listening w) = true /\
  sock_context (listening w) =
    Some (mkSSLContext PROTOCOL_TLS_SERVER (ssl_minimum w) (ssl_maximum w)
            (Some ("ssl/server.crt", "ssl/server.key"))) /\
  (forall offer v, negotiate (context w) offer = Some v -> allowed w v = true) /\
  served_after (allowed w) None (effects (snd (run w events))) /\
  (tls_leb TLSv1_2 (ssl_minimum w) = true ->
   served_after_handshake None (effects (snd (run w events)))).
Proof.
  intros Hw.
  destruct (run_effects w events Hw) as (He & Hs).
  assert (Hserved : served_after (allowed w) None (effects (snd (run w events)))).
  { rewrite He.
    apply served_after_app; [simpl; tauto |].
    apply handshaken_app; [apply trace_handshaken |].
    apply handshaken_unserved.
    destruct (existsb (interrupts w) events); reflexivity. }
  split; [unfold occurs; rewrite He; apply in_or_app; left; simpl; auto |].
  split; [exact Hs |].
  split; [reflexivity |]. split; [reflexivity |]. split; [reflexivity |].
  split; [apply negotiate_allowed |].
  split; [exact Hserved |].
  intros Hmin. unfold served_after_handshake.
  apply (served_after_weaken (allowed w)); [| exact Hserved].
  intros v Hv. unfold allowed in Hv. apply andb_true_iff in Hv.
  apply (tls_leb_trans _ _ _ Hmin (proj1 Hv)).
Qed.

Lemma requests_are_served_over_tls_witness :
  starts Sample.world /\
  tls_leb TLSv1_2 (ssl_minimum Sample.world) = true /\
  served_after_handshake None
    (effects (snd (run Sample.world
                     [Connection Sample.old_client; Connection Sample.browser; SIGINT]))).
Proof.
  assert (Hw : starts Sample.world) by (repeat split).
  split; [exact Hw |]. split; [reflexivity |].
  apply (requests_are_served_over_tls Sample.world
           [Connection Sample.old_client; Connection Sample.browser; SIGINT] Hw).
  reflexivity.
Defined.

(** * C9: the banner and the port *)

(** C9: after a successful startup the first line printed is the banner
    with the URL https://localhost:3000/ in it, and the port is fixed:
    [port] is 3000, the socket is bound to it, and no other port is ever
    bound. *)
Theorem banner_names_the_url w events :
  starts w ->
  port = 3000 /\
  (exists rest,
     stdout (snd (run w events)) =
       ("HTTPS server starting on https://localhost:" ++ str port ++ "/") :: rest) /\
  contains ("HTTPS server starting on https://localhost:" ++ str port ++ "/")
    "https://localhost:3000/" = true /\
  occurs (Bind "" 3000) (snd (run w events)) /\
  (forall host n, occurs (Bind host n) (snd (run w events)) -> n = 3000).
Proof.
  intros Hw.
  destruct (run_effects w events Hw) as (He & Hs).
  split; [reflexivity |]. split; [| split; [vm_compute; reflexivity | split]].
  - unfold stdout. rewrite He, flat_map_app. simpl. eexists. reflexivity.
  - unfold occurs. rewrite He. apply in_or_app. left. simpl. auto.
  - intros host n H. unfold occurs in H. rewrite He in H.
    apply in_app_or in H. destruct H as [H | H].
    + simpl in H.
      destruct H as [H | [H | H]]; try discriminate H;
        [injection H as _ <-; reflexivity | intuition discriminate].
    + apply in_app_or in H. destruct H as [H | H].
      * apply (connection_effect_In _ _ (trace_effects w events)) in H. discriminate H.
      * destruct (existsb (interrupts w) events); simpl in H; intuition discriminate.
Qed.

Lemma banner_names_the_url_witness :
  starts Sample.world /\
  exists rest,
    stdout (snd (run Sample.world [Timeout; SIGINT])) =
      "HTTPS server starting on https://localhost:3000/" :: rest.
Proof.
  assert (Hw : starts Sample.world) by (repeat split).
  split; [exact Hw |].
  apply (proj1 (proj2 (banner_names_the_url Sample.world [Timeout; SIGINT] Hw))).
Defined.

(** * C10: a certificate pair that does not load *)

(** C10: the check at the start of [main] is on the existence of the two
    files only.  When both exist and the port can be bound but the pair
    does not load, [load_cert_chain] raises after the socket has been
    bound to port 3000 and put to listen: [ssl.SSLError] for files that
    are not a certificate and its key, an [OSError] that is not an
    [ssl.SSLError] for a file that cannot be read (a directory, no
    permission).  Nothing catches either, so the process ends with a
    traceback and status 1, having printed none of the guidance, not
    with [sys.exit(1)], and the program has not closed the socket. *)
Theorem bad_certificate_fails_after_bind w events :
  path_exists w "ssl/server.crt" = true ->
  path_exists w "ssl/server.key" = true ->
  can_bind w "" 3000 = true ->
  cert_load w "ssl/server.crt" "ssl/server.key" <> CertLoaded ->
  fst (run w events) =
    Raise (match cert_load w "ssl/server.crt" "ssl/server.key" with
           | CertMalformed => SSLError
           | _ => OSError
           end) /\
  traceback (fst (run w events)) = true /\
  exit_status (fst (run w events)) = Some 1 /\
  fst (run w events) <> Raise (SystemExit 1) /\
  effects (snd (run w events)) = [SocketCreate; Bind "" 3000; Listen] /\
  stdout (snd (run w events)) = [] /\
  httpd_socket (snd (run w events)) = Some bound /\
  sock_closed bound = false.
Proof.
  intros Hc Hk Hb Hl.
  rewrite (main_bad_chain w events Hc Hk Hb Hl). unfold load_error, cert_file, key_file.
  destruct (cert_load w "ssl/server.crt" "ssl/server.key"); [contradiction | |];
    simpl; repeat split; discriminate.
Qed.

Lemma bad_certificate_fails_after_bind_witness :
  (path_exists Sample.world_bad_cert "ssl/server.crt" = true /\
   cert_load Sample.world_bad_cert "ssl/server.crt" "ssl/server.key" = CertMalformed /\
   fst (run Sample.world_bad_cert [SIGINT]) = Raise SSLError /\
   traceback (fst (run Sample.world_bad_cert [SIGINT])) = true /\
   effects (snd (run Sample.world_bad_cert [SIGINT]))
     = [SocketCreate; Bind "" 3000; Listen]) /\
  (path_exists Sample.world_key_is_directory "ssl/server.key" = true /\
   cert_load Sample.world_key_is_directory "ssl/server.crt" "ssl/server.key"
     = CertUnreadable /\
   fst (run Sample.world_key_is_directory [SIGINT]) = Raise OSError /\
   traceback (fst (run Sample.world_key_is_directory [SIGINT])) = true /\
   effects (snd (run Sample.world_key_is_directory [SIGINT]))
     = [SocketCreate; Bind "" 3000; Listen]).
Proof.
  split.
  - split; [reflexivity |]. split; [reflexivity |].
    destruct (bad_certificate_fails_after_bind Sample.world_bad_cert [SIGINT]
                eq_refl eq_refl eq_refl)
      as (H1 & H2 & _ & _ & H5 & _); [discriminate |].
    repeat split; assumption.
  - split; [reflexivity |]. split; [reflexivity |].
    destruct (bad_certificate_fails_after_bind Sample.world_key_is_directory [SIGINT]
                eq_refl eq_refl eq_refl)
      as (H1 & H2 & _ & _ & H5 & _); [discriminate |].
    repeat split; assumption.
Defined.

(** * A run, effect by effect *)



(** what is served comes from a client in the events, and is what the
    handler wrote on its connection *)
Lemma trace_served w events rfile text :
  In (Served rfile text) (trace w events) ->
  exists c, In (Connection c) events /\ sent c = rfile /\ handshakes w c = true /\
            text = reply w c.
Proof.
  assert (Hconn : forall c sigint,
            In (Served rfile text) (connection_trace w c sigint) ->
            sigint = false /\ sent c = rfile /\ handshakes w c = true /\
            text = reply w c).
  { intros c sigint H. rewrite handshakes_version. unfold connection_trace in H.
    destruct (handshake_version w c) as [v |];
      [| simpl in H; intuition discriminate].
    destruct sigint; simpl in H; [intuition discriminate |].
    destruct H as [H | [H | [H | H]]]; try discriminate H.
    - injection H as -> ->. auto.
    - destruct (handler_raises w c); simpl in H;
        [destruct H as [H | [H | []]] | destruct H as [H | []]]; discriminate H. }
  induction events as [| e rest IH]; simpl; [intros [] |].
  destruct e as [| c | | c]; intros H.
  - destruct (IH H) as (c' & Hin & Hc'). eauto.
  - apply in_app_or in H. destruct H as [H | H].
    + destruct (Hconn c false H) as (_ & Hs & Hh & Hr). eauto 6.
    + destruct (IH H) as (c' & Hin & Hc'). eauto.
  - destruct H.
  - apply in_app_or in H. destruct H as [H | H].
    + destruct (Hconn c true H) as (Hf & _). discriminate Hf.
    + destruct (handshakes w c); [destruct H |].
      destruct (IH H) as (c' & Hin & Hc'). eauto.
Qed.



(** X9: after a successful startup the process never ends with an
    exception, whatever the clients do: [main] returns, with status 0,
    exactly when a Ctrl+C reaches the process; otherwise it keeps
    waiting for connections, having printed the banner and nothing else. *)
Theorem server_runs_until_interrupted w events :
  starts w ->
  traceback (fst (run w events)) = false /\
  (fst (run w events) = Ok tt <-> existsb (interrupts w) events = true) /\
  (fst (run w events) = Blocked <-> existsb (interrupts w) events = false) /\
  (existsb (interrupts w) events = false ->
   exit_status (fst (run w events)) = None /\
   stdout (snd (run w events)) = banner).
Proof.
  intros Hw. rewrite (run_trace w events Hw).
  destruct (existsb (interrupts w) events); cbn [fst snd].
  - repeat split; try reflexivity; try discriminate.
  - repeat split; try reflexivity; try discriminate.
    unfold stdout. cbn [effects].
    rewrite flat_map_app, (connections_print_nothing _ (trace_effects w events)).
    reflexivity.
Qed.

Lemma server_runs_until_interrupted_witness :
  fst (run Sample.world [Connection Sample.old_client; Connection Sample.browser])
    = Blocked /\
  stdout (snd (run Sample.world
                 [Connection Sample.old_client; Connection Sample.browser])) = banner.
Proof.
  assert (Hw : starts Sample.world) by (repeat split).
  destruct (server_runs_until_interrupted Sample.world
              [Connection Sample.old_client; Connection Sample.browser] Hw)
    as (_ & _ & Hb & Hs).
  split; [apply Hb; reflexivity | apply Hs; reflexivity].
Defined.

(** * Connections that are closed, connections that fail *)

Lemma handshakes_done_app a b :
  handshakes_done (a ++ b) = handshakes_done a + handshakes_done b.
Proof. unfold handshakes_done. rewrite filter_app. apply length_app. Qed.

Lemma connections_closed_app a b :
  connections_closed (a ++ b) = connections_closed a + connections_closed b.
Proof. unfold connections_closed. rewrite filter_app. apply length_app. Qed.

Lemma connection_trace_closed w c sigint :
  handshakes_done (connection_trace w c sigint) =
  connections_closed (connection_trace w c sigint).
Proof.
  unfold connection_trace.
  destruct (handshake_version w c); [| reflexivity].
  destruct sigint; [reflexivity |].
  destruct (handler_raises w c); reflexivity.
Qed.

Lemma trace_closed w events :
  handshakes_done (trace w events) = connections_closed (trace w events).
Proof.
  induction events as [| e rest IH]; simpl; [reflexivity |].
  destruct e as [| c | | c]; try assumption; try reflexivity;
    rewrite handshakes_done_app, connections_closed_app, connection_trace_closed;
    [rewrite IH; reflexivity |].
  destruct (handshakes w c); [reflexivity | rewrite IH; reflexivity].
Qed.

(** X10: in every run that starts, each connection whose handshake
    succeeded has been closed by the time the next event is looked at or
    [main] returns, also when its handler raised or was interrupted by
    Ctrl+C: the effects hold as many closes of connections as
    handshakes. *)
Theorem accepted_connections_are_closed w events :
  starts w ->
  handshakes_done (effects (snd (run w events))) =
  connections_closed (effects (snd (run w events))).
Proof.
  intros Hw. rewrite (run_trace w events Hw).
  destruct (existsb (interrupts w) events); cbn [snd effects];
    rewrite ?handshakes_done_app, ?connections_closed_app, (trace_closed w events);
    reflexivity.
Qed.

Lemma accepted_connections_are_closed_witness :
  handshakes_done
    (effects (snd (run Sample.world [SIGINT_serving Sample.browser]))) = 1 /\
  connections_closed
    (effects (snd (run Sample.world [SIGINT_serving Sample.browser]))) = 1.
Proof.
  assert (Hw : starts Sample.world) by (repeat split).
  pose proof (accepted_connections_are_closed Sample.world
                [SIGINT_serving Sample.browser] Hw) as H.
  split; [vm_compute; reflexivity | rewrite <- H; vm_compute; reflexivity].
Defined.

Lemma replies_app a b : replies (a ++ b) = (replies a ++ replies b)%list.
Proof. unfold replies. apply flat_map_app. Qed.

Lemma trace_skips_failed_handshake w c pre rest :
  handshakes w c = false ->
  replies (trace w (pre ++ Connection c :: rest)) = replies (trace w (pre ++ rest)).
Proof.
  intros Hc. induction pre as [| e pre IH]; simpl.
  - rewrite replies_app. unfold connection_trace.
    rewrite handshakes_version in Hc.
    destruct (handshake_version w c); [discriminate Hc | reflexivity].
  - destruct e as [| c' | | c']; try assumption; try reflexivity;
      rewrite !replies_app; f_equal; [exact IH |].
    destruct (handshakes w c'); [reflexivity | exact IH].
Qed.

(** X11: a client whose handshake fails (it does not speak TLS, or offers
    no version that the context allows) gets no reply and does not
    disturb the server: the outcome of the run, the replies to the other
    clients and the output are the same as if it had not connected. *)
Theorem failed_handshake_changes_nothing w c pre rest :
  starts w -> handshakes w c = false ->
  fst (run w (pre ++ Connection c :: rest)) = fst (run w (pre ++ rest)) /\
  replies (effects (snd (run w (pre ++ Connection c :: rest)))) =
    replies (effects (snd (run w (pre ++ rest)))) /\
  stdout (snd (run w (pre ++ Connection c :: rest))) =
    stdout (snd (run w (pre ++ rest))).
Proof.
  intros Hw Hc.
  rewrite !(run_trace w _ Hw).
  assert (He : existsb (interrupts w) (pre ++ Connection c :: rest) =
               existsb (interrupts w) (pre ++ rest))
    by (rewrite !existsb_app; reflexivity).
  rewrite He.
  destruct (existsb (interrupts w) (pre ++ rest)); cbn [fst snd effects];
    (split; [reflexivity |]; split;
     [ rewrite !replies_app, (trace_skips_failed_handshake w c pre rest Hc); reflexivity
     | unfold stdout; cbn [effects];
       rewrite !flat_map_app, !(connections_print_nothing _ (trace_effects w _));
       reflexivity ]).
Qed.

Lemma failed_handshake_changes_nothing_witness :
  handshakes Sample.world Sample.old_client = false /\
  replies (effects (snd (run Sample.world
             [Connection Sample.browser; Connection Sample.old_client; SIGINT]))) =
    replies (effects (snd (run Sample.world [Connection Sample.browser; SIGINT]))).
Proof.
  assert (Hw : starts Sample.world) by (repeat split).
  split; [reflexivity |].
  apply (failed_handshake_changes_nothing Sample.world Sample.old_client
           [Connection Sample.browser] [SIGINT] Hw eq_refl).
Defined.

(** * Startup that fails *)

(** X12: when both certificate files exist but port 3000 cannot be bound,
    the exception of [HTTPServer] leaves [main] uncaught: the process
    ends with a traceback, prints nothing, has no socket left, and the
    certificate pair is never loaded, so whether it is valid plays no
    part. *)
Theorem port_in_use_ends_with_traceback w events :
  path_exists w "ssl/server.crt" = true ->
  path_exists w "ssl/server.key" = true ->
  can_bind w "" 3000 = false ->
  fst (run w events) = Raise OSError /\
  traceback (fst (run w events)) = true /\
  stdout (snd (run w events)) = [] /\
  effects (snd (run w events)) = [SocketCreate; SocketClose] /\
  httpd_socket (snd (run w events)) = None.
Proof.
  intros Hc Hk Hb. rewrite (main_port_busy w events Hc Hk Hb).
  repeat split.
Qed.

Lemma port_in_use_ends_with_traceback_witness :
  fst (run Sample.world_port_busy [SIGINT]) = Raise OSError /\
  stdout (snd (run Sample.world_port_busy [SIGINT])) = [].
Proof.
  destruct (port_in_use_ends_with_traceback Sample.world_port_busy [SIGINT]
              eq_refl eq_refl eq_refl)
    as (H1 & _ & H3 & _).
  split; assumption.
Defined.

(** X13: a line of the banner is printed only by a server that listens:
    if it appears in the output, both certificate files exist, port 3000
    was bound and the certificate pair was loaded. *)
Theorem banner_means_listening w events line :
  In line banner ->
  In line (stdout (snd (run w events))) ->
  starts w /\ httpd_socket (snd (run w events)) = Some (listening w).
Proof.
  intros Hb Hs.
  destruct (path_exists w cert_file) eqn:Hc.
  2:{ rewrite (main_missing w events (or_introl Hc)) in Hs.
      simpl in Hb, Hs. exfalso.
      destruct Hs as [<- | [<- | []]];
        repeat (destruct Hb as [Hb | Hb]; [discriminate Hb |]); exact Hb. }
  destruct (path_exists w key_file) eqn:Hk.
  2:{ rewrite (main_missing w events (or_intror Hk)) in Hs.
      simpl in Hb, Hs. exfalso.
      destruct Hs as [<- | [<- | []]];
        repeat (destruct Hb as [Hb | Hb]; [discriminate Hb |]); exact Hb. }
  destruct (can_bind w "" 3000) eqn:Hp.
  2:{ rewrite (main_port_busy w events Hc Hk Hp) in Hs. destruct Hs. }
  destruct (cert_load w cert_file key_file) eqn:Hl.
  2, 3: rewrite (main_bad_chain w events Hc Hk Hp) in Hs
          by (rewrite Hl; discriminate);
        destruct Hs.
  assert (Hw : starts w) by (repeat split; assumption).
  split; [exact Hw |].
  rewrite (run_trace w events Hw).
  destruct (existsb (interrupts w) events); reflexivity.
Qed.

Lemma banner_means_listening_witness :
  starts Sample.world /\
  httpd_socket (snd (run Sample.world [Timeout])) = Some (listening Sample.world).
Proof.
  apply (banner_means_listening Sample.world [Timeout]
           "Press Ctrl+C to stop the server").
  - simpl. tauto.
  - vm_compute. tauto.
Defined.

End Lifecycle.
